(** * askgeo-mvp: retrieval, grounding and ingestion, verified over a shallow embedding

    The development follows the layout of [backend/app]:
    - [rag/retriever.py]   : [similarity], [Retriever], [query], [has_confident_match]
    - [rag/build_index.py] : [chunk_text], [build_index]
    - [routers/ask.py]     : [ask_question]
    - [routers/ingest.py]  : [load_status], [save_status], [run_ingest_task], [start_ingest]

    Conventions.
    - Python [float] scores and distances are modelled by exact rationals ([Q]);
      rounding is not modelled.
    - Python [int] is [Z]; list positions and lengths are [nat].
    - A [dict] is a [gmap] with string keys.
    - The vector store, the embedding and chat models, the tokenizer, the crawler,
      the clock and the JSON/pydantic (de)serialisers are external: they are
      fields of a record [services], arbitrary functions that may raise and whose
      answer may depend on the history of earlier calls.
    - Python code that touches the outside world runs in the monad [M]: a state
      monad over [world] with exceptions. *)

From Stdlib Require Import QArith Qminmax Lqa.
From stdpp Require Import gmap strings list pretty.

Local Open Scope string_scope.
Local Open Scope list_scope.

(** ** Values, exceptions and the outcome of a call *)

(** Python exceptions that the modelled code can see. [Exception] stands for any
    subclass of [Exception] other than FastAPI's [HTTPException]. *)
Inductive exn : Type :=
  | Exception (msg : string)
  | HTTPException (status_code : Z) (detail : string).

(** [str(e)]; for [HTTPException] this is Starlette's ["{status_code}: {detail}"]. *)
Definition str (e : exn) : string :=
  match e with
  | Exception msg => msg
  | HTTPException code detail => pretty code +:+ ": " +:+ detail
  end.

Inductive outcome (A : Type) : Type :=
  | Ok (a : A)
  | Raise (e : exn).
Arguments Ok {A} a.
Arguments Raise {A} e.

Definition IndexError : exn := Exception "list index out of range".
Definition KeyError (k : string) : exn := Exception k.
Definition TypeError : exn := Exception "'NoneType' object is not subscriptable".
Definition FileNotFoundError (p : string) : exn := Exception p.

(** Values stored in the metadata dict of an indexed chunk. *)
Inductive value : Type :=
  | VStr (s : string)
  | VInt (z : Z).

Global Instance value_eq_dec : EqDecision value.
Proof. solve_decision. Defined.

(** How an f-string renders a value. *)
Definition fmt (v : value) : string :=
  match v with
  | VStr s => s
  | VInt z => pretty z
  end.

Abbreviation metadata := (gmap string value).

(** ** Data model ([models.py] and the dicts passed around) *)

(** A scraped page: [{"url": ..., "title": ..., "text": ...}]; the title may be [None]. *)
Record document : Type := Document {
  doc_url : string;
  doc_title : option string;
  doc_text : string
}.

(** A retrieved chunk: [{"text", "url", "title", "score"}]. *)
Record chunk : Type := Chunk {
  text : string;
  url : string;
  title : string;
  score : Q
}.

(** [models.Source]. *)
Record Source : Type := MkSource {
  source_url : string;
  source_title : option string
}.

(** [models.AskRequest] (already validated by FastAPI). *)
Record AskRequest : Type := MkAskRequest {
  question : string;
  k : Z
}.

(** [models.AskResponse]. *)
Record AskResponse : Type := MkAskResponse {
  answer : string;
  sources : list Source
}.

(** [settings.Settings]. *)
Record Settings : Type := MkSettings {
  OPENAI_API_KEY : string;
  OPENAI_EMBED_MODEL : string;
  OPENAI_CHAT_MODEL : string;
  CHROMA_PATH : string;
  INGEST_MAX_PAGES : Z
}.

Inductive status_literal : Type := idle | running | done_ | error.

Global Instance status_literal_eq_dec : EqDecision status_literal.
Proof. solve_decision. Defined.

(** [models.IngestStatus]. *)
Record IngestStatus : Type := MkIngestStatus {
  status : status_literal;
  pages_scraped : Z;
  chunks_indexed : Z;
  started_at : option string;
  completed_at : option string;
  error_message : option string
}.

(** [IngestStatus(status=s)]: every other field takes its default. *)
Definition IngestStatus_default (s : status_literal) : IngestStatus :=
  MkIngestStatus s 0 0 None None None.

(** [models.IngestStartRequest]. *)
Record IngestStartRequest : Type := MkIngestStartRequest {
  max_pages : option Z
}.

(** The stats dict returned by [build_index]. *)
Record IndexStats : Type := MkIndexStats {
  created_at : string;
  total_documents : nat;
  total_chunks : nat;
  embed_model_used : string;
  collection_name : string
}.

Abbreviation embedding := (list Q).

(** What [collection.query] returns: each field is a list with one entry per
    query embedding, or [None]. Of a stored metadata dict the retriever reads
    the keys ["url"] and ["title"] only, which hold strings. *)
Record query_result : Type := QueryResult {
  documents : option (list (list string));
  metadatas : option (list (list (gmap string string)));
  distances : option (list (list Q))
}.

(** A chat message [{"role": ..., "content": ...}]. *)
Record message : Type := Message {
  role : string;
  content : string
}.

(** ** The outside world *)

(** What the process does to the outside, in the order it happened: calls to the
    external services and writes of the status record. *)
Inductive event : Type :=
  | EvEmbed (model : string) (input : list string)
  | EvChat (model : string) (temperature : Q) (messages : list message)
  | EvQuery (query_embedding : embedding) (n_results : Z)
  | EvAdd (ids : list string) (embeddings : list embedding)
          (docs : list string) (metas : list metadata)
  | EvScrape (limit : Z)
  | EvScraperClose
  | EvBuilderInit (chroma_path : string)
  | EvSaveStatus (s : IngestStatus).

(** The chat-completion calls among the events. *)
Definition is_chat (ev : event) : bool :=
  match ev with
  | EvChat _ _ _ => true
  | _ => false
  end.

(** The status records written, oldest first. *)
Definition status_writes (evs : list event) : list IngestStatus :=
  omap (fun ev => match ev with EvSaveStatus s => Some s | _ => None end) evs.

(** The ids handed to [collection.add], in the order they were added. *)
Definition added_ids (evs : list event) : list string :=
  concat (omap (fun ev => match ev with EvAdd ids _ _ _ => Some ids | _ => None end) evs).

(** The external collaborators. Every answer may depend on the history of calls
    made so far (first argument). *)
Record services : Type := Services {
  (* tiktoken *)
  encode : string -> list Z;
  decode : list Z -> string;
  (* OpenAI *)
  embeddings_create : list event -> string -> list string -> outcome (list embedding);
  chat_completions_create :
    list event -> string -> Q -> list message -> outcome (list string);
  (* Chroma collection handle *)
  collection_query : list event -> embedding -> Z -> outcome query_result;
  collection_add :
    list event -> list string -> list embedding -> list string -> list metadata ->
    outcome unit;
  (* crawler *)
  scrape : list event -> Z -> outcome (list document);
  scraper_close : list event -> outcome unit;
  (* IndexBuilder.__init__: opens Chroma, OpenAI and the tokenizer *)
  builder_init : list event -> string -> outcome unit;
  (* datetime.now().isoformat() *)
  now : list event -> string;
  (* json.dump(status.model_dump(), f, indent=2) *)
  dump_status : IngestStatus -> string;
  (* IngestStatus( **json.load(f)) *)
  parse_status : string -> outcome IngestStatus
}.

(** The state the modelled code reads and writes. *)
Record world : Type := World {
  collections : gset string;              (* names of the Chroma collections *)
  status_file : option string;            (* data/ingest_status.json *)
  docs_file : option (list document);     (* data/uwp_docs.jsonl, one page per line *)
  stats_file : option IndexStats;         (* data/stats.json *)
  tasks : list (Z * Settings);            (* FastAPI background tasks queued *)
  log : list event                        (* what happened so far *)
}.

Definition set_collections (f : gset string -> gset string) (w : world) : world :=
  World (f (collections w)) (status_file w) (docs_file w) (stats_file w) (tasks w) (log w).
Definition set_status_file (c : option string) (w : world) : world :=
  World (collections w) c (docs_file w) (stats_file w) (tasks w) (log w).
Definition set_docs_file (d : option (list document)) (w : world) : world :=
  World (collections w) (status_file w) d (stats_file w) (tasks w) (log w).
Definition set_stats_file (s : option IndexStats) (w : world) : world :=
  World (collections w) (status_file w) (docs_file w) s (tasks w) (log w).
Definition add_task (t : Z * Settings) (w : world) : world :=
  World (collections w) (status_file w) (docs_file w) (stats_file w) (tasks w ++ [t]) (log w).
Definition record (ev : event) (w : world) : world :=
  World (collections w) (status_file w) (docs_file w) (stats_file w) (tasks w) (log w ++ [ev]).

(** ** The monad of effectful Python code *)

Definition M (A : Type) : Type := world -> outcome A * world.

Definition ret {A} (a : A) : M A := fun w => (Ok a, w).
Definition raise {A} (e : exn) : M A := fun w => (Raise e, w).
Definition bind {A B} (m : M A) (f : A -> M B) : M B :=
  fun w => match m w with
           | (Ok a, w') => f a w'
           | (Raise e, w') => (Raise e, w')
           end.

Notation "x <- m ;; f" := (bind m (fun x => f))
  (at level 100, m at next level, right associativity).
Notation "m ;;; f" := (bind m (fun _ => f))
  (at level 100, right associativity).

(** [try: body except Exception as e: handler(e)]. *)
Definition try_except {A} (body : M A) (handler : exn -> M A) : M A :=
  fun w => match body w with
           | (Ok a, w') => (Ok a, w')
           | (Raise e, w') => handler e w'
           end.

(** [try: body finally: fin]. An exception of [fin] replaces the one of [body]. *)
Definition try_finally {A} (body : M A) (fin : M unit) : M A :=
  fun w => match body w with
           | (r, w') => match fin w' with
                        | (Ok _, w'') => (r, w'')
                        | (Raise e, w'') => (Raise e, w'')
                        end
           end.

(** Lift a pure computation that may raise. *)
Definition lift {A} (o : outcome A) : M A := fun w => (o, w).

(** An external call: the answer is computed from the history, and the call is
    appended to the log whether it succeeds or raises. *)
Definition call {A} (ev : event) (oracle : list event -> outcome A) : M A :=
  fun w => (oracle (log w), record ev w).

Definition get_world : M world := fun w => (Ok w, w).
Definition modify (f : world -> world) : M unit := fun w => (Ok tt, f w).

(** [for x in xs: body(x)] with an accumulator. *)
Fixpoint for_each {A S} (xs : list A) (body : S -> A -> M S) (acc : S) : M S :=
  match xs with
  | [] => ret acc
  | x :: xs' => acc' <- body acc x ;; for_each xs' body acc'
  end.

(** ** Python built-ins used by the code *)

(** [l[i:j]] for [0 <= i]. *)
Definition slice {A} (l : list A) (i j : nat) : list A := take (j - i) (drop i l).

(** [range(start, stop, step)] for a positive [step]. The fuel [stop] is enough:
    each step advances by at least one. *)
Fixpoint range_from (fuel start stop step : nat) : list nat :=
  match fuel with
  | O => []
  | S fuel' =>
      if decide (start < stop) then start :: range_from fuel' (start + step) stop step
      else []
  end.
Definition range (start stop step : nat) : list nat := range_from stop start stop step.

(** [l[i]]. *)
Definition index {A} (l : list A) (i : nat) : outcome A :=
  match l !! i with
  | Some x => Ok x
  | None => Raise IndexError
  end.

(** [o[...]] where [o] may be [None]. *)
Definition subscriptable {A} (o : option A) : outcome A :=
  match o with
  | Some x => Ok x
  | None => Raise TypeError
  end.

(** [d[k]]. *)
Definition getitem {V} (d : gmap string V) (key : string) : outcome V :=
  match d !! key with
  | Some v => Ok v
  | None => Raise (KeyError key)
  end.

(** [d.get(k, default)]. *)
Definition get {V} (d : gmap string V) (key : string) (default : V) : V :=
  match d !! key with
  | Some v => v
  | None => default
  end.

(** [max(a, b)]: the first argument unless the second is strictly larger. *)
Definition max_ (a b : Q) : Q :=
  match (a ?= b)%Q with
  | Lt => b
  | _ => a
  end.

(** ** rag/retriever.py *)

Module Retriever.

Definition COLLECTION_NAME : string := "uwp".
Definition SIMILARITY_THRESHOLD : Q := 0.2%Q.

(** The instance state: the collection handle, or [None] when the collection
    could not be opened. The handle is the collection's name. *)
Record t : Type := Make {
  collection : option string;
  embed_model : string
}.

(** [chroma_client.get_collection(name=...)]: raises when there is no such collection. *)
Definition get_collection (name : string) : M string :=
  fun w => if decide (name ∈ collections w) then (Ok name, w)
           else (Raise (Exception ("Collection " +:+ name +:+ " does not exist.")), w).

(** [Retriever.__init__]. *)
Definition init (model : string) : M t :=
  c <- try_except (h <- get_collection COLLECTION_NAME ;; ret (Some h))
                  (fun _ => ret None) ;;
  ret (Make c model).

(** The line [similarity = max(0, 1 - (distance ** 2) / 4)]. *)
Definition similarity (distance : Q) : Q :=
  max_ 0 (1 - (distance ^ 2) / 4)%Q.

Section WithServices.
Variable svc : services.

(** [Retriever.embed_query]. *)
Definition embed_query (self : t) (query : string) : M embedding :=
  data <- call (EvEmbed (embed_model self) [query])
               (fun h => embeddings_create svc h (embed_model self) [query]) ;;
  lift (index data 0).

(** The body of the [for i, doc in enumerate(results["documents"][0])] loop. *)
Definition format_result (results : query_result) (chunks : list chunk)
    (idoc : nat * string) : M (list chunk) :=
  let '(i, doc) := idoc in
  ms <- lift (subscriptable (metadatas results)) ;;
  ms0 <- lift (index ms 0) ;;
  md <- lift (index ms0 i) ;;
  ds <- lift (subscriptable (distances results)) ;;
  ds0 <- lift (index ds 0) ;;
  distance <- lift (index ds0 i) ;;
  let similarity := similarity distance in
  ret (chunks ++ [Chunk doc (get md "url" "") (get md "title" "Untitled") similarity]).

(** [Retriever.query]. *)
Definition query (self : t) (question : string) (k : Z) : M (list chunk) :=
  match collection self with
  | None => ret []
  | Some _ =>
      query_embedding <- embed_query self question ;;
      results <- call (EvQuery query_embedding k)
                      (fun h => collection_query svc h query_embedding k) ;;
      match documents results with
      | None | Some [] | Some ([] :: _) => ret []
      | Some (docs0 :: _) =>
          for_each (imap (fun i doc => (i, doc)) docs0) (format_result results) []
      end
  end.

End WithServices.

(** [Retriever.has_confident_match]. *)
Definition has_confident_match (chunks : list chunk) : bool :=
  match chunks with
  | [] => false
  | _ => existsb (fun c => Qle_bool SIMILARITY_THRESHOLD (score c)) chunks
  end.

End Retriever.

(** ** rag/build_index.py *)

Module IndexBuilder.

Definition COLLECTION_NAME : string := "uwp".
Definition CHUNK_SIZE : nat := 350.
Definition BATCH_SIZE : nat := 100.

(** An element of the list [chunk_text] returns: [(chunk_text, metadata, token_count)]. *)
Definition indexed_chunk : Type := string * metadata * nat.

(** [chroma_client.delete_collection(name=...)]: raises when there is no such collection. *)
Definition delete_collection (name : string) : M unit :=
  fun w => if decide (name ∈ collections w)
           then (Ok tt, set_collections (fun c => c ∖ {[name]}) w)
           else (Raise (Exception ("Collection " +:+ name +:+ " does not exist.")), w).

(** [chroma_client.get_or_create_collection(name=...)]. *)
Definition get_or_create_collection (name : string) : M string :=
  fun w => (Ok name, set_collections (fun c => {[name]} ∪ c) w).

(** Reading [data/uwp_docs.jsonl], one [json.loads] per line. *)
Definition read_jsonl : M (list document) :=
  fun w => match docs_file w with
           | Some docs => (Ok docs, w)
           | None => (Raise (FileNotFoundError "data/uwp_docs.jsonl"), w)
           end.

(** The id of a chunk, [f"{page_idx}-{chunk_idx}"], read off its metadata. *)
Definition chunk_id (ids : list string) (chunk_meta : metadata) : M (list string) :=
  page_idx <- lift (getitem chunk_meta "page_index") ;;
  chunk_idx <- lift (getitem chunk_meta "chunk_index") ;;
  ret (ids ++ [fmt page_idx +:+ "-" +:+ fmt chunk_idx]).

Section WithServices.
Variable svc : services.

(** [IndexBuilder.chunk_text]. *)
Definition chunk_text (text : string) (md : metadata) : list indexed_chunk :=
  let tokens := encode svc text in
  foldl (fun chunks i =>
           let chunk_tokens := slice tokens i (i + CHUNK_SIZE) in
           let chunk_text := decode svc chunk_tokens in
           let token_count := length chunk_tokens in
           let chunk_metadata :=
             <["chunk_index" := VInt (Z.of_nat (length chunks))]>
               (<["token_count" := VInt (Z.of_nat token_count)]> md) in
           chunks ++ [(chunk_text, chunk_metadata, token_count)])
        [] (range 0 (length tokens) CHUNK_SIZE).

(** [IndexBuilder.embed_texts]. *)
Definition embed_texts (model : string) (texts : list string) : M (list embedding) :=
  call (EvEmbed model texts) (fun h => embeddings_create svc h model texts).

(** The loop "Chunk all documents" of [build_index]. *)
Definition chunk_documents (documents : list document) : list indexed_chunk :=
  foldl (fun all_chunks '(page_idx, doc) =>
           let md : metadata :=
             <["url" := VStr (doc_url doc)]>
               (<["title" := VStr (match doc_title doc with
                                   | None | Some "" => "Untitled"
                                   | Some t => t
                                   end)]>
                  (<["page_index" := VInt (Z.of_nat page_idx)]> ∅)) in
           let chunks := chunk_text (doc_text doc) md in
           all_chunks ++ chunks)
        [] (imap (fun i doc => (i, doc)) documents).

(** One turn of the loop "Process in batches for embedding". *)
Definition index_batch (model : string) (all_chunks : list indexed_chunk)
    (_ : unit) (batch_start : nat) : M unit :=
  let total_chunks := length all_chunks in
  let batch_end := Nat.min (batch_start + BATCH_SIZE) total_chunks in
  let batch := slice all_chunks batch_start batch_end in
  let texts := map (fun c => c.1.1) batch in
  let metadatas := map (fun c => c.1.2) batch in
  embeddings <- embed_texts model texts ;;
  ids <- for_each metadatas chunk_id [] ;;
  call (EvAdd ids embeddings texts metadatas)
       (fun h => collection_add svc h ids embeddings texts metadatas).

(** [IndexBuilder.build_index]. *)
Definition build_index (model : string) (reset : bool) : M IndexStats :=
  documents <- read_jsonl ;;
  (if reset
   then try_except (delete_collection COLLECTION_NAME) (fun _ => ret tt)
   else ret tt) ;;;
  _ <- get_or_create_collection COLLECTION_NAME ;;
  let all_chunks := chunk_documents documents in
  let total_chunks := length all_chunks in
  for_each (range 0 total_chunks BATCH_SIZE) (index_batch model all_chunks) tt ;;;
  w <- get_world ;;
  ret (MkIndexStats (now svc (log w)) (length documents) total_chunks model
                    COLLECTION_NAME).

(** [IndexBuilder.save_stats]. *)
Definition save_stats (stats : IndexStats) : M unit :=
  modify (set_stats_file (Some stats)).

End WithServices.

End IndexBuilder.

(** ** rag/prompts.py *)

Module Prompts.

Definition nl : string := String (Ascii.ascii_of_nat 10) "".

(** One context block, [f"[{i}] (from {title} - {url})\n{text}"]. *)
Definition context_part (i : nat) (tm : string * gmap string string) : string :=
  let '(text, md) := tm in
  let title := get md "title" "Untitled" in
  let url := get md "url" "" in
  "[" +:+ pretty i +:+ "] (from " +:+ title +:+ " - " +:+ url +:+ ")" +:+ nl +:+ text.

(** [build_user_message]. *)
Definition build_user_message (question : string)
    (chunks : list (string * gmap string string)) : string :=
  let context_parts := imap (fun i tm => context_part (S i) tm) chunks in
  let context_text := String.concat (nl +:+ nl) context_parts in
  "Question: " +:+ question +:+ nl +:+ nl +:+ "Context:" +:+ nl +:+ context_text.

End Prompts.

(** ** routers/ask.py *)

Module Ask.

Definition FALLBACK : string :=
  "I don't have a reliable source to answer that question. Please try rephrasing or ask about UW-Parkside programs, admissions, campus life, or academics.".

(** One turn of the loop "Extract unique sources". *)
Definition add_source (acc : gset string * list Source) (c : chunk)
    : gset string * list Source :=
  let '(seen_urls, sources) := acc in
  if decide (url c ∈ seen_urls) then (seen_urls, sources)
  else ({[url c]} ∪ seen_urls, sources ++ [MkSource (url c) (Some (title c))]).

(** The whole loop, from the empty set and the empty list. *)
Definition unique_sources (chunks : list chunk) : list Source :=
  (foldl add_source (∅, []) chunks).2.

Section WithServices.
Variable svc : services.
(** The text of [prompts.SYSTEM_PROMPT]; no property below depends on it. *)
Variable SYSTEM_PROMPT : string.

(** The [messages] argument of the chat call, built under "Build prompt". *)
Definition chat_messages (question : string) (chunks : list chunk) : list message :=
  let chunks_with_meta :=
    map (fun c => (text c, <["url" := url c]> (<["title" := title c]> ∅))) chunks in
  let user_message := Prompts.build_user_message question chunks_with_meta in
  [Message "system" SYSTEM_PROMPT; Message "user" user_message].

(** [ask_question]. *)
Definition ask_question (request : AskRequest) (settings : Settings) : M AskResponse :=
  retriever <- Retriever.init (OPENAI_EMBED_MODEL settings) ;;
  chunks <- Retriever.query svc retriever (question request) (k request) ;;
  if negb (Retriever.has_confident_match chunks) then
    ret (MkAskResponse FALLBACK [])
  else
    let messages := chat_messages (question request) chunks in
    answer <- try_except
                (choices <- call (EvChat (OPENAI_CHAT_MODEL settings) 0.2%Q messages)
                                 (fun h => chat_completions_create svc h
                                             (OPENAI_CHAT_MODEL settings) 0.2%Q messages) ;;
                 lift (index choices 0))
                (fun e => raise (HTTPException 500 ("OpenAI API error: " +:+ str e))) ;;
    ret (MkAskResponse answer (unique_sources chunks)).

End WithServices.

End Ask.

(** ** routers/ingest.py *)

Module Ingest.

(** The JSON body [start_ingest] answers with. *)
Record StartResponse : Type := MkStartResponse {
  message_ : string;
  max_pages_used : Z
}.

Section WithServices.
Variable svc : services.

(** [load_status]. *)
Definition load_status : M IngestStatus :=
  w <- get_world ;;
  match status_file w with
  | None => ret (IngestStatus_default idle)
  | Some raw =>
      try_except (lift (parse_status svc raw))
                 (fun _ => ret (IngestStatus_default idle))
  end.

(** [save_status]. Each write is also entered in the log. *)
Definition save_status (s : IngestStatus) : M unit :=
  modify (fun w => record (EvSaveStatus s) (set_status_file (Some (dump_status svc s)) w)).

(** [datetime.now().isoformat()]. *)
Definition now_isoformat : M string :=
  w <- get_world ;; ret (now svc (log w)).

(** [UWPScraper.save_to_jsonl] on [data/uwp_docs.jsonl]. *)
Definition save_to_jsonl (docs : list document) : M unit :=
  modify (set_docs_file (Some docs)).

(** "Step 1: Scrape" and "Step 2: Index" of [run_ingest_task]: the part of the
    [try] block before the final status update. It yields
    [(pages_scraped, chunks_indexed)]. *)
Definition scrape_and_index (max_pages : Z) (settings : Settings) : M (Z * Z) :=
  pages_scraped <-
    try_finally
      (docs <- call (EvScrape max_pages) (fun h => scrape svc h max_pages) ;;
       save_to_jsonl docs ;;;
       ret (Z.of_nat (length docs)))
      (call EvScraperClose (scraper_close svc)) ;;
  call (EvBuilderInit (CHROMA_PATH settings))
       (fun h => builder_init svc h (CHROMA_PATH settings)) ;;;
  stats <- IndexBuilder.build_index svc (OPENAI_EMBED_MODEL settings) true ;;
  IndexBuilder.save_stats stats ;;;
  let chunks_indexed := Z.of_nat (total_chunks stats) in
  ret (pages_scraped, chunks_indexed).

(** [run_ingest_task]. *)
Definition run_ingest_task (max_pages : Z) (settings : Settings) : M unit :=
  t0 <- now_isoformat ;;
  let status := MkIngestStatus running 0 0 (Some t0) None None in
  save_status status ;;;
  try_except
    (counts <- scrape_and_index max_pages settings ;;
     let '(pages_scraped, chunks_indexed) := counts in
     t1 <- now_isoformat ;;
     save_status (MkIngestStatus done_ pages_scraped chunks_indexed
                                 (started_at status) (Some t1) None))
    (fun e =>
       let error_msg := str e in
       t1 <- now_isoformat ;;
       save_status (MkIngestStatus error 0 0 (started_at status) (Some t1)
                                   (Some error_msg))).

(** [start_ingest]. *)
Definition start_ingest (request : IngestStartRequest) (settings : Settings)
    : M StartResponse :=
  current_status <- load_status ;;
  if decide (status current_status = running) then
    raise (HTTPException 409 "Ingestion already in progress")
  else
    let max_pages :=
      match max_pages request with
      | Some n => if decide (n = 0%Z) then INGEST_MAX_PAGES settings else n
      | None => INGEST_MAX_PAGES settings
      end in
    modify (add_task (max_pages, settings)) ;;;
    ret (MkStartResponse "Ingestion started" max_pages).

(** [get_ingest_status]. *)
Definition get_ingest_status : M IngestStatus := load_status.

End WithServices.

End Ingest.

(** ** Concrete collaborators, used to run the model on examples *)

Module Fixtures.

(** A tokenizer with one token per character. *)
Definition encode_chars (s : string) : list Z :=
  map (fun a => Z.of_nat (Ascii.nat_of_ascii a)) (String.list_ascii_of_string s).
Definition decode_chars (l : list Z) : string :=
  String.string_of_list_ascii (map (fun z => Ascii.ascii_of_nat (Z.to_nat z)) l).

(** A status file that holds the name of the status only. *)
Definition dump_name (s : IngestStatus) : string :=
  match status s with
  | idle => "idle" | running => "running" | done_ => "done" | error => "error"
  end.
Definition parse_name (raw : string) : outcome IngestStatus :=
  if decide (raw = "idle") then Ok (IngestStatus_default idle)
  else if decide (raw = "running") then Ok (IngestStatus_default running)
  else if decide (raw = "done") then Ok (IngestStatus_default done_)
  else if decide (raw = "error") then Ok (IngestStatus_default error)
  else Raise (Exception "validation error").

(** Services that always succeed: every text embeds to the same vector, the
    vector store answers [results], the chat model answers ["ok [1]"], the
    crawler finds [pages], and the clock shows the number of events so far. *)
Definition svc (results : query_result) (pages : list document) : services :=
  {| encode := encode_chars;
     decode := decode_chars;
     embeddings_create := fun _ _ input => Ok (map (fun _ => [1%Q; 0%Q]) input);
     chat_completions_create := fun _ _ _ _ => Ok ["ok [1]"];
     collection_query := fun _ _ _ => Ok results;
     collection_add := fun _ _ _ _ _ => Ok tt;
     scrape := fun _ _ => Ok pages;
     scraper_close := fun _ => Ok tt;
     builder_init := fun _ _ => Ok tt;
     now := fun h => pretty (length h);
     dump_status := dump_name;
     parse_status := parse_name |}.

(** A tokenizer that spends 175 tokens on every character. *)
Definition encode_wide (s : string) : list Z :=
  flat_map (fun a => replicate 175 (Z.of_nat (Ascii.nat_of_ascii a)))
           (String.list_ascii_of_string s).

(** [svc] with the wide tokenizer. *)
Definition svc_wide (results : query_result) (pages : list document) : services :=
  {| encode := encode_wide;
     decode := decode_chars;
     embeddings_create := embeddings_create (svc results pages);
     chat_completions_create := chat_completions_create (svc results pages);
     collection_query := collection_query (svc results pages);
     collection_add := collection_add (svc results pages);
     scrape := scrape (svc results pages);
     scraper_close := scraper_close (svc results pages);
     builder_init := builder_init (svc results pages);
     now := now (svc results pages);
     dump_status := dump_name;
     parse_status := parse_name |}.

Definition settings : Settings :=
  MkSettings "sk-test" "text-embedding-3-small" "gpt-4o-mini" ".chroma" 600.

(** A fresh deployment: nothing indexed, no file written. *)
Definition fresh : world := World ∅ None None None [] [].

(** A deployment whose collection has been built. *)
Definition indexed : world := World {[ "uwp" ]} None None None [] [].

Definition meta (u t : string) : gmap string string :=
  <["url" := u]> (<["title" := t]> ∅).

(** Three neighbours, the first and the last from the same page. *)
Definition strong_results : query_result :=
  QueryResult (Some [["Hours: 8-5"; "Library map"; "Holiday hours"]])
              (Some [[meta "https://x.edu/lib" "Library";
                      meta "https://x.edu/map" "Map";
                      meta "https://x.edu/lib" "Library"]])
              (Some [[0.5%Q; 1%Q; 1.5%Q]]).

(** One neighbour, too far away to pass the confidence gate. *)
Definition weak_results : query_result :=
  QueryResult (Some [["Some unrelated text"]])
              (Some [[meta "https://example.com" "Example"]])
              (Some [[1.9%Q]]).

Definition two_pages : list document :=
  [Document "https://x.edu/a" (Some "A") "abcdefg"; Document "https://x.edu/b" None "hi"].

End Fixtures.

(** ** Vocabulary of the specification *)

(** [frames I m]: running [m] from any world [w] ends in a world related to [w]
    by [I], whether [m] returns or raises. *)
Definition frames {A} (I : world -> world -> Prop) (m : M A) : Prop :=
  forall w, I w (m w).2.

(** From [w] to [w'] the log only grew, by events on which [p] is false. *)
Definition grows_without (p : event -> bool) (w w' : world) : Prop :=
  exists evs, log w' = log w ++ evs /\ Forall (fun ev => p ev = false) evs.

(** The events that write the status record. *)
Definition is_save_status (ev : event) : bool :=
  match ev with
  | EvSaveStatus _ => true
  | _ => false
  end.

(** From [w] to [w'] the status file was not touched. *)
Definition status_untouched (w w' : world) : Prop :=
  status_file w' = status_file w /\ grows_without is_save_status w w'.

(** [u] occurs in [l] before every occurrence of [v]. *)
Definition first_seen_before (l : list string) (u v : string) : Prop :=
  exists p, l !! p = Some u /\ forall q, l !! q = Some v -> p < q.

(** The id [f"{page_idx}-{chunk_idx}"] of chunk [chunk_idx] of page [page_idx]. *)
Definition id_of (page_idx chunk_idx : nat) : string :=
  pretty (Z.of_nat page_idx) +:+ "-" +:+ pretty (Z.of_nat chunk_idx).

(** [ceil(n / d)] on natural numbers. *)
Definition ceil_div (n d : nat) : nat := (n + d - 1) / d.

(** The ids of a document batch: page [p] with [n] tokens contributes
    [id_of p 0], ..., [id_of p (ceil(n / CHUNK_SIZE) - 1)], pages in order. *)
Definition page_chunk_ids (svc : services) (docs : list document) : list string :=
  concat (imap (fun p doc =>
                  map (id_of p)
                      (seq 0 (ceil_div (length (encode svc (doc_text doc)))
                                       IndexBuilder.CHUNK_SIZE)))
               docs).

(** The metadata of chunk [c] places it at [id]. *)
Definition stored_as (c : IndexBuilder.indexed_chunk) (id : string) : Prop :=
  exists p j : nat,
    c.1.2 !! "page_index" = Some (VInt (Z.of_nat p))
    /\ c.1.2 !! "chunk_index" = Some (VInt (Z.of_nat j))
    /\ id = id_of p j.

(** ** routers/health.py *)

Module Health.

(** The JSON body of [/health]. *)
Record HealthResponse : Type := MkHealthResponse {
  health_status : string;
  health_embed_model : string;
  health_chat_model : string;
  collection_exists : bool;
  chunk_count : Z
}.

(** [health_check]. The two local variables start at [False] and [0]; inside the
    [try], [collection_exists] is set before [collection.count()] is called, so
    an exception of [count] leaves it set. [count] is Chroma's [collection.count()],
    whose answer may depend on the history; the read is not entered in the log. *)
Definition health_check (count : list event -> outcome Z) (settings : Settings)
    : M HealthResponse :=
  flags <- try_except
             (_ <- Retriever.get_collection "uwp" ;;
              try_except (w <- get_world ;;
                          n <- lift (count (log w)) ;;
                          ret (true, n))
                         (fun _ => ret (true, 0%Z)))
             (fun _ => ret (false, 0%Z)) ;;
  ret (MkHealthResponse "healthy" (OPENAI_EMBED_MODEL settings)
                        (OPENAI_CHAT_MODEL settings) flags.1 flags.2).

End Health.

(** ** Collaborators that fail *)

Module Faulty.

(** [Fixtures.svc] with an embedding model that is down. *)
Definition embed_down (results : query_result) (pages : list document) : services :=
  {| encode := Fixtures.encode_chars;
     decode := Fixtures.decode_chars;
     embeddings_create := fun _ _ _ => Raise (Exception "embedding service unavailable");
     chat_completions_create := chat_completions_create (Fixtures.svc results pages);
     collection_query := collection_query (Fixtures.svc results pages);
     collection_add := collection_add (Fixtures.svc results pages);
     scrape := scrape (Fixtures.svc results pages);
     scraper_close := scraper_close (Fixtures.svc results pages);
     builder_init := builder_init (Fixtures.svc results pages);
     now := now (Fixtures.svc results pages);
     dump_status := Fixtures.dump_name;
     parse_status := Fixtures.parse_name |}.

(** [Fixtures.svc] with a chat model that is down. *)
Definition chat_down (results : query_result) (pages : list document) : services :=
  {| encode := Fixtures.encode_chars;
     decode := Fixtures.decode_chars;
     embeddings_create := embeddings_create (Fixtures.svc results pages);
     chat_completions_create := fun _ _ _ _ => Raise (Exception "rate limit exceeded");
     collection_query := collection_query (Fixtures.svc results pages);
     collection_add := collection_add (Fixtures.svc results pages);
     scrape := scrape (Fixtures.svc results pages);
     scraper_close := scraper_close (Fixtures.svc results pages);
     builder_init := builder_init (Fixtures.svc results pages);
     now := now (Fixtures.svc results pages);
     dump_status := Fixtures.dump_name;
     parse_status := Fixtures.parse_name |}.

(** [Fixtures.svc] with a crawler that fails, and whose [close] fails or not. *)
Definition crawl_down (close_result : outcome unit) (results : query_result) : services :=
  {| encode := Fixtures.encode_chars;
     decode := Fixtures.decode_chars;
     embeddings_create := embeddings_create (Fixtures.svc results []);
     chat_completions_create := chat_completions_create (Fixtures.svc results []);
     collection_query := collection_query (Fixtures.svc results []);
     collection_add := collection_add (Fixtures.svc results []);
     scrape := fun _ _ => Raise (Exception "connection refused");
     scraper_close := fun _ => close_result;
     builder_init := builder_init (Fixtures.svc results []);
     now := now (Fixtures.svc results []);
     dump_status := Fixtures.dump_name;
     parse_status := Fixtures.parse_name |}.

(** [Fixtures.svc] with a crawler that works but cannot be closed. *)
Definition close_down (results : query_result) (pages : list document) : services :=
  {| encode := Fixtures.encode_chars;
     decode := Fixtures.decode_chars;
     embeddings_create := embeddings_create (Fixtures.svc results pages);
     chat_completions_create := chat_completions_create (Fixtures.svc results pages);
     collection_query := collection_query (Fixtures.svc results pages);
     collection_add := collection_add (Fixtures.svc results pages);
     scrape := scrape (Fixtures.svc results pages);
     scraper_close := fun _ => Raise (Exception "client already closed");
     builder_init := builder_init (Fixtures.svc results pages);
     now := now (Fixtures.svc results pages);
     dump_status := Fixtures.dump_name;
     parse_status := Fixtures.parse_name |}.

(** A vector store that returns two documents but the metadata of one only. *)
Definition misaligned_results : query_result :=
  QueryResult (Some [["Hours: 8-5"; "Library map"]])
              (Some [[Fixtures.meta "https://x.edu/lib" "Library"]])
              (Some [[0.5%Q; 1%Q]]).

End Faulty.

(** ** More vocabulary *)

(** Nothing but the log differs between [w] and [w']. *)
Definition same_state (w w' : world) : Prop :=
  collections w' = collections w
  /\ status_file w' = status_file w
  /\ docs_file w' = docs_file w
  /\ stats_file w' = stats_file w
  /\ tasks w' = tasks w.

(** The chunks [query] builds from aligned lists of documents, metadata dicts and
    distances. *)
Definition chunks_of (docs : list string) (ms : list (gmap string string)) (ds : list Q)
    : list chunk :=
  zip_with (fun doc md_d =>
              Chunk doc (get md_d.1 "url" "") (get md_d.1 "title" "Untitled")
                    (Retriever.similarity md_d.2))
           docs (zip ms ds).

(** The chunks retrieved from [Fixtures.strong_results]. *)
Definition strong_chunks : list chunk :=
  chunks_of ["Hours: 8-5"; "Library map"; "Holiday hours"]
            [Fixtures.meta "https://x.edu/lib" "Library";
             Fixtures.meta "https://x.edu/map" "Map";
             Fixtures.meta "https://x.edu/lib" "Library"]
            [0.5%Q; 1%Q; 1.5%Q].

(** The title [build_index] stores for a page. *)
Definition stored_title (doc : document) : string :=
  match doc_title doc with
  | None | Some "" => "Untitled"
  | Some t => t
  end.

(** An embedding or add call that carries more than [BATCH_SIZE] items, or an add
    call whose ids, documents and metadata differ in number. *)
Definition ill_batched (ev : event) : bool :=
  match ev with
  | EvEmbed _ input => bool_decide (IndexBuilder.BATCH_SIZE < length input)
  | EvAdd ids _ docs metas =>
      bool_decide (IndexBuilder.BATCH_SIZE < length ids)
      || negb (bool_decide (length docs = length ids))
      || negb (bool_decide (length metas = length ids))
  | _ => false
  end.

(** The texts sent to the embedding model, in the order they were sent. *)
Definition embedded_texts (evs : list event) : list string :=
  concat (omap (fun ev => match ev with EvEmbed _ input => Some input | _ => None end) evs).


(** * Properties *)

(** ** The monad *)

Lemma bind_ok {A B} (m : M A) (f : A -> M B) w a w' :
  m w = (Ok a, w') -> bind m f w = f a w'.
Proof. unfold bind. by intros ->. Qed.

Lemma bind_raise {A B} (m : M A) (f : A -> M B) w e w' :
  m w = (Raise e, w') -> bind m f w = (Raise e, w').
Proof. unfold bind. by intros ->. Qed.

Lemma for_each_cons {A S} (x : A) xs (body : S -> A -> M S) acc :
  for_each (x :: xs) body acc = bind (body acc x) (for_each xs body).
Proof. reflexivity. Qed.

Lemma try_except_ok {A} (body : M A) handler w a w' :
  body w = (Ok a, w') -> try_except body handler w = (Ok a, w').
Proof. unfold try_except. by intros ->. Qed.

Lemma try_except_raise {A} (body : M A) handler w e w' :
  body w = (Raise e, w') -> try_except body handler w = handler e w'.
Proof. unfold try_except. by intros ->. Qed.

(** Frame rules: a relation that is reflexive and transitive is kept by every
    control structure whose parts keep it. *)
Section Frames.
Context (I : world -> world -> Prop) `{!PreOrder I}.

Lemma frames_ret {A} (a : A) : frames I (ret a).
Proof. intros w. simpl. reflexivity. Qed.

Lemma frames_raise {A} (e : exn) : frames I (@raise A e).
Proof. intros w. simpl. reflexivity. Qed.

Lemma frames_lift {A} (o : outcome A) : frames I (lift o).
Proof. intros w. simpl. reflexivity. Qed.

Lemma frames_get_world : frames I get_world.
Proof. intros w. simpl. reflexivity. Qed.

Lemma frames_bind {A B} (m : M A) (f : A -> M B) :
  frames I m -> (forall a, frames I (f a)) -> frames I (bind m f).
Proof.
  intros Hm Hf w. unfold bind. specialize (Hm w).
  destruct (m w) as [[a|e] w1]; simpl in *; [|done].
  etrans; [exact Hm|]. apply Hf.
Qed.

Lemma frames_try_except {A} (body : M A) (handler : exn -> M A) :
  frames I body -> (forall e, frames I (handler e)) -> frames I (try_except body handler).
Proof.
  intros Hb Hh w. unfold try_except. specialize (Hb w).
  destruct (body w) as [[a|e] w1]; simpl in *; [done|].
  etrans; [exact Hb|]. apply Hh.
Qed.

Lemma frames_try_finally {A} (body : M A) (fin : M unit) :
  frames I body -> frames I fin -> frames I (try_finally body fin).
Proof.
  intros Hb Hf w. unfold try_finally. specialize (Hb w).
  destruct (body w) as [r w1]. specialize (Hf w1).
  destruct (fin w1) as [[u|e] w2]; simpl in *; by etrans.
Qed.

Lemma frames_for_each {A S} (xs : list A) (body : S -> A -> M S) :
  (forall acc x, frames I (body acc x)) -> forall acc, frames I (for_each xs body acc).
Proof.
  intros Hb. induction xs as [|x xs IH]; intros acc; simpl.
  - apply frames_ret.
  - apply frames_bind; auto.
Qed.

Lemma frames_call {A} (ev : event) (oracle : list event -> outcome A) :
  (forall w, I w (record ev w)) -> frames I (call ev oracle).
Proof. intros H w. apply H. Qed.

Lemma frames_modify (f : world -> world) :
  (forall w, I w (f w)) -> frames I (modify f).
Proof. intros H w. apply H. Qed.

Lemma frames_if {A} (b : bool) (m1 m2 : M A) :
  frames I m1 -> frames I m2 -> frames I (if b then m1 else m2).
Proof. by destruct b. Qed.

End Frames.

Create HintDb frames.
#[export] Hint Resolve frames_ret frames_raise frames_lift frames_get_world
  frames_bind frames_try_except frames_try_finally frames_for_each frames_if : frames.
#[export] Hint Extern 1 (PreOrder _) => apply _ : frames.

Global Instance grows_without_preorder p : PreOrder (grows_without p).
Proof.
  split.
  - intros w. exists []. by rewrite app_nil_r.
  - intros w1 w2 w3 (e1 & H1 & F1) (e2 & H2 & F2). exists (e1 ++ e2). split.
    + by rewrite H2, H1, (assoc_L (++)).
    + by apply Forall_app.
Qed.

Global Instance status_untouched_preorder : PreOrder status_untouched.
Proof.
  split.
  - intros w. split; [done|reflexivity].
  - intros w1 w2 w3 [H1 G1] [H2 G2]. split; [congruence|by etrans].
Qed.

Lemma grows_without_record p ev w : p ev = false -> grows_without p w (record ev w).
Proof. intros H. exists [ev]. split; [done|]. by constructor. Qed.

Lemma grows_without_same_log p w w' : log w' = log w -> grows_without p w w'.
Proof. intros H. exists []. by rewrite app_nil_r. Qed.

(** ** The similarity score ([retriever.py], line 73) *)

Section Similarity.
Import Retriever.

Lemma max_spec (a b : Q) :
  ((a < b)%Q /\ max_ a b = b) \/ ((b <= a)%Q /\ max_ a b = a).
Proof.
  unfold max_. destruct (a ?= b)%Q eqn:E.
  - right. split; [|done]. apply Qeq_alt in E. rewrite E. apply Qle_refl.
  - left. split; [|done]. by apply Qlt_alt.
  - right. split; [|done]. apply Qgt_alt in E. by apply Qlt_le_weak.
Qed.

Lemma sq_nonneg d : (0 <= d * d)%Q.
Proof. destruct d as [n m]. unfold Qle, Qmult. simpl. nia. Qed.

Lemma sq_mono d1 d2 : (0 <= d1)%Q -> (d1 <= d2)%Q -> (d1 * d1 <= d2 * d2)%Q.
Proof.
  intros H0 H. assert (0 <= d2)%Q by (eapply Qle_trans; eauto).
  apply Qle_trans with (d1 * d2)%Q.
  - rewrite (Qmult_comm d1 d2). apply Qmult_le_compat_r; auto.
  - apply Qmult_le_compat_r; auto.
Qed.

Lemma similarity_unfold d : similarity d = max_ 0 (1 - (d * d) * (1 # 4))%Q.
Proof. reflexivity. Qed.

Lemma similarity_range d : (0 <= similarity d <= 1)%Q.
Proof.
  rewrite similarity_unfold. pose proof (sq_nonneg d) as Hs. revert Hs.
  generalize (d * d)%Q. intros q Hq.
  destruct (max_spec 0 (1 - q * (1 # 4))) as [[H ->]|[H ->]]; lra.
Qed.

Lemma similarity_antitone d1 d2 :
  (0 <= d1)%Q -> (d1 <= d2)%Q -> (similarity d2 <= similarity d1)%Q.
Proof.
  intros H0 H. rewrite !similarity_unfold. pose proof (sq_mono d1 d2 H0 H) as H3.
  revert H3. generalize (d1 * d1)%Q (d2 * d2)%Q. intros q1 q2 Hq.
  destruct (max_spec 0 (1 - q1 * (1 # 4))) as [[H1 ->]|[H1 ->]];
  destruct (max_spec 0 (1 - q2 * (1 # 4))) as [[H2 ->]|[H2 ->]]; lra.
Qed.

(** Python's [max(0, x)] is the mathematical maximum. *)
Lemma similarity_is_max d : (similarity d == Qmax 0 (1 - d * d / 4))%Q.
Proof.
  rewrite similarity_unfold. change (d * d / 4)%Q with (d * d * (1 # 4))%Q.
  generalize (d * d)%Q. intros q.
  destruct (max_spec 0 (1 - q * (1 # 4))) as [[H ->]|[H ->]].
  - symmetry. apply Q.max_r. by apply Qlt_le_weak.
  - symmetry. by apply Q.max_l.
Qed.

(** Without the sign condition the score is not monotone: it depends on the
    magnitude of its argument only. *)
Example similarity_negative_argument :
  (similarity (-2) == 0)%Q /\ (similarity 0 == 1)%Q.
Proof. split; reflexivity. Qed.

End Similarity.

(** ** Retriever.query *)

Section Query.
Import Retriever.
Variable svc : services.

Lemma init_total model w :
  init model w = (Ok (Make (if decide (COLLECTION_NAME ∈ collections w)
                            then Some COLLECTION_NAME else None) model), w).
Proof.
  unfold init, bind, try_except, get_collection, ret.
  by destruct (decide (COLLECTION_NAME ∈ collections w)).
Qed.

Lemma format_result_ok results ms0 mr ds0 dr i doc md d acc w :
  metadatas results = Some (ms0 :: mr) ->
  distances results = Some (ds0 :: dr) ->
  ms0 !! i = Some md -> ds0 !! i = Some d ->
  format_result results acc (i, doc) w
  = (Ok (acc ++ [Chunk doc (get md "url" "") (get md "title" "Untitled") (similarity d)]), w).
Proof.
  intros Hm Hd Hmd Hdi. unfold format_result. rewrite Hm, Hd.
  unfold bind, lift, subscriptable, index, ret. simpl. by rewrite Hmd, Hdi.
Qed.

Lemma for_each_format_result results ms0 mr ds0 dr :
  metadatas results = Some (ms0 :: mr) ->
  distances results = Some (ds0 :: dr) ->
  forall (docs0 : list string) (n : nat) (acc : list chunk) (w : world),
    n + length docs0 <= length ms0 ->
    n + length docs0 <= length ds0 ->
    exists chunks,
      for_each (imap (fun i doc => (n + i, doc)) docs0) (format_result results) acc w
      = (Ok (acc ++ chunks), w)
      /\ map score chunks = map similarity (take (length docs0) (drop n ds0))
      /\ map text chunks = docs0.
Proof.
  intros Hm Hd docs0. induction docs0 as [|doc docs0 IH]; intros n acc w Hlm Hld.
  - exists []. simpl. by rewrite app_nil_r.
  - simpl in Hlm, Hld.
    destruct (lookup_lt_is_Some_2 ms0 n) as [md Hmd]; [lia|].
    destruct (lookup_lt_is_Some_2 ds0 n) as [d Hdn]; [lia|].
    set (c := Chunk doc (get md "url" "") (get md "title" "Untitled") (similarity d)).
    destruct (IH (S n) (acc ++ [c]) w) as (chunks & Hrun & Hs & Ht); [lia|lia|].
    exists (c :: chunks). split; [|split].
    + rewrite imap_cons, for_each_cons, Nat.add_0_r.
      erewrite bind_ok by (eapply format_result_ok; eauto).
      rewrite <- (assoc_L (++)) in Hrun. simpl in Hrun. rewrite <- Hrun.
      f_equal. apply imap_ext. intros i x _. simpl. f_equal. lia.
    + simpl. rewrite (drop_S _ _ _ Hdn). simpl. by f_equal.
    + simpl. by f_equal.
Qed.

Lemma query_scores self name question k_ w emb rest docs0 dsr ms0 mr ds0 dr :
  collection self = Some name ->
  embeddings_create svc (log w) (embed_model self) [question] = Ok (emb :: rest) ->
  collection_query svc (log w ++ [EvEmbed (embed_model self) [question]]) emb k_
  = Ok (QueryResult (Some (docs0 :: dsr)) (Some (ms0 :: mr)) (Some (ds0 :: dr))) ->
  length docs0 <= length ms0 ->
  length docs0 <= length ds0 ->
  exists chunks w',
    query svc self question k_ w = (Ok chunks, w')
    /\ map score chunks = map similarity (take (length docs0) ds0)
    /\ map text chunks = docs0.
Proof.
  intros Hc He Hq Hlm Hld. unfold query. rewrite Hc.
  unfold embed_query.
  set (w1 := record (EvEmbed (embed_model self) [question]) w).
  set (w2 := record (EvQuery emb k_) w1).
  assert (Hcall1 : call (EvEmbed (embed_model self) [question])
             (fun h => embeddings_create svc h (embed_model self) [question]) w
           = (Ok (emb :: rest), w1)).
  { unfold call. by rewrite He. }
  rewrite (bind_ok _ _ w emb w1).
  2:{ rewrite (bind_ok _ _ _ _ _ Hcall1). reflexivity. }
  rewrite (bind_ok _ _ w1 (QueryResult (Some (docs0 :: dsr)) (Some (ms0 :: mr))
                                        (Some (ds0 :: dr))) w2).
  2:{ unfold call. simpl. by rewrite Hq. }
  simpl documents.
  destruct (for_each_format_result
              (QueryResult (Some (docs0 :: dsr)) (Some (ms0 :: mr)) (Some (ds0 :: dr)))
              ms0 mr ds0 dr eq_refl eq_refl docs0 0 [] w2)
    as (chunks & Hrun & Hs & Ht); [simpl; lia..|].
  exists chunks, w2. simpl in Hrun. destruct docs0 as [|doc docs0].
  - destruct chunks; [|done]. done.
  - split; [exact Hrun|]. split; [|done]. by rewrite Hs.
Qed.

(** Retrieval talks to the embedding model and to the vector store only. *)
Lemma format_result_frames results acc x :
  frames (grows_without is_chat) (format_result results acc x).
Proof. destruct x as [i doc]. unfold format_result. auto 20 with frames. Qed.

Lemma query_frames self question k_ :
  frames (grows_without is_chat) (query svc self question k_).
Proof.
  unfold query, embed_query. destruct (collection self); [|auto with frames].
  apply frames_bind; [apply _| |].
  - apply frames_bind; [apply _| |auto with frames].
    apply frames_call. intros w. by apply grows_without_record.
  - intros emb. apply frames_bind; [apply _| |].
    + apply frames_call. intros w. by apply grows_without_record.
    + intros results. destruct (documents results) as [[|[|doc docs0] rest]|];
        auto using format_result_frames with frames.
Qed.

End Query.

(** C2. For every result the vector store returns, [query] scores the chunk at
    each position with [similarity] of the distance at that position, that is
    with [max(0, 1 - d^2/4)]. The score always lies in [[0, 1]], it is 1 at
    distance 0, and over distances (which are non-negative) a larger distance
    never gives a larger score. *)
Theorem query_similarity_score
    (svc : services) (self : Retriever.t) (name question : string) (k_ : Z) (w : world)
    (emb : embedding) (rest : list embedding)
    (docs0 : list string) (dsr : list (list string))
    (ms0 : list (gmap string string)) (mr : list (list (gmap string string)))
    (ds0 : list Q) (dr : list (list Q)) :
  Retriever.collection self = Some name ->
  embeddings_create svc (log w) (Retriever.embed_model self) [question]
  = Ok (emb :: rest) ->
  collection_query svc (log w ++ [EvEmbed (Retriever.embed_model self) [question]]) emb k_
  = Ok (QueryResult (Some (docs0 :: dsr)) (Some (ms0 :: mr)) (Some (ds0 :: dr))) ->
  length docs0 <= length ms0 ->
  length docs0 <= length ds0 ->
  (exists chunks w',
      Retriever.query svc self question k_ w = (Ok chunks, w')
      /\ map text chunks = docs0
      /\ map score chunks = map Retriever.similarity (take (length docs0) ds0))
  /\ (forall d, (Retriever.similarity d == Qmax 0 (1 - d * d / 4))%Q)
  /\ (forall d, (0 <= Retriever.similarity d <= 1)%Q)
  /\ (Retriever.similarity 0 == 1)%Q
  /\ (forall d1 d2, (0 <= d1)%Q -> (d1 <= d2)%Q ->
                    (Retriever.similarity d2 <= Retriever.similarity d1)%Q).
Proof.
  intros Hc He Hq Hlm Hld. split.
  - destruct (query_scores svc self name question k_ w emb rest docs0 dsr ms0 mr ds0 dr)
      as (chunks & w' & Hrun & Hs & Ht); auto.
    exists chunks, w'. auto.
  - split; [exact similarity_is_max|]. split; [exact similarity_range|].
    split; [reflexivity|exact similarity_antitone].
Qed.

Lemma query_similarity_score_witness :
  (exists chunks w',
      Retriever.query (Fixtures.svc Fixtures.strong_results [])
                      (Retriever.Make (Some "uwp") "text-embedding-3-small")
                      "What are the library hours?" 5 Fixtures.indexed = (Ok chunks, w')
      /\ map text chunks = ["Hours: 8-5"; "Library map"; "Holiday hours"]
      /\ map score chunks
         = map Retriever.similarity (take 3 [0.5%Q; 1%Q; 1.5%Q]))
  /\ (forall d, (Retriever.similarity d == Qmax 0 (1 - d * d / 4))%Q)
  /\ (forall d, (0 <= Retriever.similarity d <= 1)%Q)
  /\ (Retriever.similarity 0 == 1)%Q
  /\ (forall d1 d2, (0 <= d1)%Q -> (d1 <= d2)%Q ->
                    (Retriever.similarity d2 <= Retriever.similarity d1)%Q).
Proof.
  apply (query_similarity_score
           (Fixtures.svc Fixtures.strong_results [])
           (Retriever.Make (Some "uwp") "text-embedding-3-small") "uwp"
           "What are the library hours?" 5 Fixtures.indexed
           [1%Q; 0%Q] []
           ["Hours: 8-5"; "Library map"; "Holiday hours"] []
           [Fixtures.meta "https://x.edu/lib" "Library";
            Fixtures.meta "https://x.edu/map" "Map";
            Fixtures.meta "https://x.edu/lib" "Library"] []
           [0.5%Q; 1%Q; 1.5%Q] []).
  - reflexivity.
  - reflexivity.
  - reflexivity.
  - simpl. lia.
  - simpl. lia.
Defined.

(** ** The confidence gate *)

Section Gate.
Import Retriever.

Lemma existsb_elem_of {A} (p : A -> bool) (l : list A) :
  existsb p l = true <-> exists x, x ∈ l /\ p x = true.
Proof.
  induction l as [|a l IH]; simpl.
  - split; [done|]. intros (x & Hx & _). by apply elem_of_nil in Hx.
  - rewrite orb_true_iff, IH. split.
    + intros [Ha|(x & Hx & Hp)]; [exists a|exists x]; split; auto; by constructor.
    + intros (x & Hx & Hp). apply elem_of_cons in Hx as [->|Hx]; eauto.
Qed.

Lemma has_confident_match_any chunks :
  has_confident_match chunks
  = existsb (fun c => Qle_bool SIMILARITY_THRESHOLD (score c)) chunks.
Proof. by destruct chunks. Qed.

Lemma has_confident_match_iff chunks :
  has_confident_match chunks = true <->
  chunks <> [] /\ exists c, c ∈ chunks /\ (0.2 <= score c)%Q.
Proof.
  rewrite has_confident_match_any, existsb_elem_of. split.
  - intros (c & Hc & Hle). split.
    + intros ->. by apply elem_of_nil in Hc.
    + exists c. split; [done|]. by apply Qle_bool_iff.
  - intros (_ & c & Hc & Hle). exists c. split; [done|]. by apply Qle_bool_iff.
Qed.

End Gate.

(** C1. [has_confident_match] is true exactly when the list is non-empty and some
    chunk scores at least 0.2. So it is false on the empty list, a score of
    exactly 0.2 passes, and a list whose scores are all below 0.2 fails. *)
Theorem has_confident_match_spec :
  (forall chunks,
      Retriever.has_confident_match chunks = true <->
      chunks <> [] /\ exists c, c ∈ chunks /\ (0.2 <= score c)%Q)
  /\ Retriever.has_confident_match [] = false
  /\ (forall chunks c, c ∈ chunks -> (score c == 0.2)%Q ->
                       Retriever.has_confident_match chunks = true)
  /\ (forall chunks, Forall (fun c => (score c < 0.2)%Q) chunks ->
                     Retriever.has_confident_match chunks = false).
Proof.
  split; [exact has_confident_match_iff|]. split; [reflexivity|]. split.
  - intros chunks c Hc Heq. apply has_confident_match_iff. split.
    + intros ->. by apply elem_of_nil in Hc.
    + exists c. split; [done|]. rewrite Heq. apply Qle_refl.
  - intros chunks Hall. apply not_true_is_false. intros Ht.
    apply has_confident_match_iff in Ht as (_ & c & Hc & Hle).
    rewrite Forall_forall in Hall. specialize (Hall c Hc). simpl in Hall.
    apply (Qlt_irrefl 0.2). eapply Qle_lt_trans; eauto.
Qed.

Lemma has_confident_match_spec_witness :
  Retriever.has_confident_match
    [Chunk "a" "a.com" "A" 0.1; Chunk "test" "test.com" "Test" 0.2] = true.
Proof.
  apply (proj1 (proj2 (proj2 has_confident_match_spec))
           [Chunk "a" "a.com" "A" 0.1; Chunk "test" "test.com" "Test" 0.2]
           (Chunk "test" "test.com" "Test" 0.2)).
  - apply elem_of_cons. right. apply elem_of_cons. by left.
  - reflexivity.
Defined.

(** The gate on the two chunk lists of [tests/test_retriever.py], and at the
    threshold itself. *)
Example has_confident_match_tests :
  Retriever.has_confident_match [Chunk "test" "test.com" "Test" 0.8] = true
  /\ Retriever.has_confident_match [Chunk "test" "test.com" "Test" 0.1] = false
  /\ Retriever.has_confident_match [Chunk "test" "test.com" "Test" 0.2] = true
  /\ Retriever.has_confident_match
       [Chunk "a" "a.com" "A" 0.1; Chunk "b" "b.com" "B" 0.19; Chunk "c" "c.com" "C" 0.5]
     = true.
Proof. repeat split. Qed.

(** C7. When the collection does not exist, [Retriever.__init__] leaves the handle
    unset, and from then on [query] returns the empty list for every question
    and every [k], in every world, without raising and without any call. *)
Theorem query_without_collection (svc : services) (model : string) (w : world) :
  Retriever.COLLECTION_NAME ∉ collections w ->
  exists self,
    Retriever.init model w = (Ok self, w)
    /\ forall question k_ w', Retriever.query svc self question k_ w' = (Ok [], w').
Proof.
  intros Hnot. exists (Retriever.Make None model). split.
  - rewrite init_total. by destruct (decide (Retriever.COLLECTION_NAME ∈ collections w)).
  - reflexivity.
Qed.

Lemma query_without_collection_witness :
  exists self,
    Retriever.init "text-embedding-3-small" Fixtures.fresh = (Ok self, Fixtures.fresh)
    /\ forall question k_ w',
        Retriever.query (Fixtures.svc Fixtures.strong_results []) self question k_ w'
        = (Ok [], w').
Proof.
  apply (query_without_collection (Fixtures.svc Fixtures.strong_results [])
           "text-embedding-3-small" Fixtures.fresh).
  simpl. apply not_elem_of_empty.
Defined.

(** ** The answer operation *)

(** C3. Whenever the retrieved chunks fail the confidence gate, [ask_question]
    answers with the fixed fallback message and no sources, and it stops there:
    the world is the one retrieval left, in which no chat-completion call has
    been added to the log. *)
Theorem fallback_short_circuit
    (svc : services) (SYSTEM_PROMPT : string) (request : AskRequest)
    (settings : Settings) (w w0 w1 : world) (retriever : Retriever.t)
    (chunks : list chunk) :
  Retriever.init (OPENAI_EMBED_MODEL settings) w = (Ok retriever, w0) ->
  Retriever.query svc retriever (question request) (k request) w0 = (Ok chunks, w1) ->
  Retriever.has_confident_match chunks = false ->
  Ask.ask_question svc SYSTEM_PROMPT request settings w
  = (Ok (MkAskResponse Ask.FALLBACK []), w1)
  /\ exists evs, log w1 = log w ++ evs /\ Forall (fun ev => is_chat ev = false) evs.
Proof.
  intros Hinit Hquery Hgate. split.
  - unfold Ask.ask_question.
    rewrite (bind_ok _ _ _ _ _ Hinit), (bind_ok _ _ _ _ _ Hquery), Hgate. reflexivity.
  - rewrite init_total in Hinit. injection Hinit as <- <-.
    match type of Hquery with
    | Retriever.query _ ?r _ _ _ = _ =>
        pose proof (query_frames svc r (question request) (k request) w) as Hf
    end.
    by rewrite Hquery in Hf.
Qed.

Lemma fallback_short_circuit_witness :
  Ask.ask_question (Fixtures.svc Fixtures.weak_results []) "Answer from the context only."
                   (MkAskRequest "What is quantum physics?" 5) Fixtures.settings
                   Fixtures.indexed
  = (Ok (MkAskResponse Ask.FALLBACK []),
     record (EvQuery [1%Q; 0%Q] 5)
            (record (EvEmbed "text-embedding-3-small" ["What is quantum physics?"])
                    Fixtures.indexed))
  /\ exists evs,
      log (record (EvQuery [1%Q; 0%Q] 5)
                  (record (EvEmbed "text-embedding-3-small" ["What is quantum physics?"])
                          Fixtures.indexed))
      = log Fixtures.indexed ++ evs
      /\ Forall (fun ev => is_chat ev = false) evs.
Proof.
  apply (fallback_short_circuit
           (Fixtures.svc Fixtures.weak_results []) "Answer from the context only."
           (MkAskRequest "What is quantum physics?" 5) Fixtures.settings
           Fixtures.indexed Fixtures.indexed _
           (Retriever.Make (Some "uwp") "text-embedding-3-small")
           [Chunk "Some unrelated text" "https://example.com" "Example"
                  (Retriever.similarity 1.9)]).
  - reflexivity.
  - reflexivity.
  - reflexivity.
Defined.

(** ** Source de-duplication *)

Section Sources.
Import Ask.

Lemma first_seen_before_snoc l u v x :
  first_seen_before l u v -> first_seen_before (l ++ [x]) u v.
Proof.
  intros (p & Hp & Hq). exists p. split.
  - by apply lookup_app_l_Some.
  - intros q Hq'. apply lookup_app_Some in Hq' as [Hq'|[Hge _]]; [by apply Hq|].
    apply lookup_lt_Some in Hp. lia.
Qed.

Lemma first_seen_before_fresh l u x :
  u ∈ l -> x ∉ l -> first_seen_before (l ++ [x]) u x.
Proof.
  intros Hu Hx. apply list_elem_of_lookup in Hu as [p Hp]. exists p. split.
  - by apply lookup_app_l_Some.
  - intros q Hq. apply lookup_app_Some in Hq as [Hq|[Hge _]].
    + destruct Hx. apply list_elem_of_lookup. eauto.
    + apply lookup_lt_Some in Hp. lia.
Qed.

(** What the loop "Extract unique sources" has computed after the chunks [l]. *)
Lemma add_source_invariant (l : list chunk) :
  let acc := foldl add_source (∅, []) l in
  let urls := map source_url acc.2 in
  (forall u, u ∈ acc.1 <-> u ∈ map url l)
  /\ (forall u, u ∈ urls <-> u ∈ map url l)
  /\ NoDup urls
  /\ (forall i j u v, urls !! i = Some u -> urls !! j = Some v -> i < j ->
                      first_seen_before (map url l) u v).
Proof.
  induction l as [|c l IH] using rev_ind; simpl.
  - split; [|split; [|split]].
    + intros u. set_solver.
    + intros u. set_solver.
    + constructor.
    + intros i j u v Hi. done.
  - rewrite foldl_app. simpl. destruct (foldl add_source (∅, []) l) as [seen srcs].
    simpl in IH. destruct IH as (Hseen & Hurls & Hnd & Hord).
    rewrite map_app. simpl map. unfold add_source.
    destruct (decide (url c ∈ seen)) as [Hin|Hnin]; simpl.
    + split; [|split; [|split]].
      * intros u. rewrite elem_of_app, list_elem_of_singleton, Hseen.
        split; [auto|]. intros [?| ->]; [done|]. by apply Hseen.
      * intros u. rewrite elem_of_app, list_elem_of_singleton, Hurls.
        split; [auto|]. intros [?| ->]; [done|]. by apply Hseen.
      * done.
      * intros i j u v Hi Hj Hlt. apply first_seen_before_snoc; eauto.
    + assert (Hfresh : url c ∉ map url l) by (by rewrite <- Hseen).
      split; [|split; [|split]].
      * intros u. rewrite elem_of_union, elem_of_singleton, elem_of_app,
          list_elem_of_singleton, Hseen. tauto.
      * intros u. rewrite map_app. simpl.
        rewrite !elem_of_app, !list_elem_of_singleton, Hurls. tauto.
      * rewrite map_app. simpl. apply NoDup_app. split; [done|]. split.
        -- intros u Hu ->%list_elem_of_singleton. apply Hfresh. by apply Hurls.
        -- apply NoDup_singleton.
      * intros i j u v Hi Hj Hlt. rewrite map_app in Hi, Hj. simpl in Hi, Hj.
        apply lookup_app_Some in Hj as [Hj|[Hge Hj]].
        -- apply lookup_app_Some in Hi as [Hi|[Hge' _]].
           ++ apply first_seen_before_snoc; eauto.
           ++ apply lookup_lt_Some in Hj. lia.
        -- destruct (j - length (map source_url srcs)) as [|n] eqn:Hjn; [|done].
           apply lookup_app_Some in Hi as [Hi|[Hge' _]]; [|lia].
           injection Hj as <-. apply first_seen_before_fresh; [|done].
           apply Hurls. apply list_elem_of_lookup. eauto.
Qed.

(** The sequential characterisation of the result of the loop. *)
Lemma unique_sources_spec (chunks : list chunk) :
  let urls := map source_url (unique_sources chunks) in
  NoDup urls
  /\ (forall u, u ∈ urls <-> u ∈ map url chunks)
  /\ (forall i j u v, urls !! i = Some u -> urls !! j = Some v -> i < j ->
                      first_seen_before (map url chunks) u v).
Proof.
  destruct (add_source_invariant chunks) as (_ & Hurls & Hnd & Hord).
  unfold unique_sources. auto.
Qed.

End Sources.

(** C6, as the code has it. When the retrieved chunks pass the confidence gate
    and the chat model returns a completion, the source list of the answer holds
    every url of the retrieved chunks exactly once, and a url stands before
    another one exactly as their first occurrences do in the retrieved order;
    the scores play no part. *)
Theorem sources_deduplicated
    (svc : services) (SYSTEM_PROMPT : string) (request : AskRequest)
    (settings : Settings) (w w0 w1 : world) (retriever : Retriever.t)
    (chunks : list chunk) (choice : string) (rest : list string) :
  Retriever.init (OPENAI_EMBED_MODEL settings) w = (Ok retriever, w0) ->
  Retriever.query svc retriever (question request) (k request) w0 = (Ok chunks, w1) ->
  Retriever.has_confident_match chunks = true ->
  chat_completions_create svc (log w1) (OPENAI_CHAT_MODEL settings) 0.2%Q
    (Ask.chat_messages SYSTEM_PROMPT (question request) chunks) = Ok (choice :: rest) ->
  exists resp w2,
    Ask.ask_question svc SYSTEM_PROMPT request settings w = (Ok resp, w2)
    /\ answer resp = choice
    /\ NoDup (map source_url (sources resp))
    /\ (forall u, u ∈ map source_url (sources resp) <-> u ∈ map url chunks)
    /\ (forall i j u v,
           map source_url (sources resp) !! i = Some u ->
           map source_url (sources resp) !! j = Some v ->
           i < j -> first_seen_before (map url chunks) u v).
Proof.
  intros Hinit Hquery Hgate Hchat.
  exists (MkAskResponse choice (Ask.unique_sources chunks)),
         (record (EvChat (OPENAI_CHAT_MODEL settings) 0.2%Q
                    (Ask.chat_messages SYSTEM_PROMPT (question request) chunks)) w1).
  split.
  - unfold Ask.ask_question.
    rewrite (bind_ok _ _ _ _ _ Hinit), (bind_ok _ _ _ _ _ Hquery), Hgate.
    cbn [negb]. erewrite bind_ok; [reflexivity|].
    apply try_except_ok.
    erewrite bind_ok by (unfold call; rewrite Hchat; reflexivity). reflexivity.
  - split; [done|]. apply unique_sources_spec.
Qed.

Lemma sources_deduplicated_witness :
  exists resp w2,
    Ask.ask_question (Fixtures.svc Fixtures.strong_results []) "Answer from the context only."
                     (MkAskRequest "What are the library hours?" 5) Fixtures.settings
                     Fixtures.indexed = (Ok resp, w2)
    /\ answer resp = "ok [1]"
    /\ NoDup (map source_url (sources resp))
    /\ (forall u, u ∈ map source_url (sources resp) <->
                  u ∈ ["https://x.edu/lib"; "https://x.edu/map"; "https://x.edu/lib"])
    /\ (forall i j u v,
           map source_url (sources resp) !! i = Some u ->
           map source_url (sources resp) !! j = Some v ->
           i < j ->
           first_seen_before ["https://x.edu/lib"; "https://x.edu/map"; "https://x.edu/lib"]
                             u v).
Proof.
  apply (sources_deduplicated
           (Fixtures.svc Fixtures.strong_results []) "Answer from the context only."
           (MkAskRequest "What are the library hours?" 5) Fixtures.settings
           Fixtures.indexed Fixtures.indexed
           (record (EvQuery [1%Q; 0%Q] 5)
                   (record (EvEmbed "text-embedding-3-small" ["What are the library hours?"])
                           Fixtures.indexed))
           (Retriever.Make (Some "uwp") "text-embedding-3-small")
           [Chunk "Hours: 8-5" "https://x.edu/lib" "Library" (Retriever.similarity 0.5);
            Chunk "Library map" "https://x.edu/map" "Map" (Retriever.similarity 1);
            Chunk "Holiday hours" "https://x.edu/lib" "Library" (Retriever.similarity 1.5)]
           "ok [1]" []).
  - reflexivity.
  - reflexivity.
  - reflexivity.
  - reflexivity.
Defined.

(** The scenario of the specification: one retrieved chunk of the library page,
    close enough to pass the gate. The chat model is called once and the page is
    the only source. *)
Example ask_question_library_hours :
  let svc := Fixtures.svc (QueryResult (Some [["Open 8-5"]])
                             (Some [[Fixtures.meta "https://x.edu/lib" "Library"]])
                             (Some [[0.5%Q]])) [] in
  let run := Ask.ask_question svc "Answer from the context only."
               (MkAskRequest "What are the library hours?" 5) Fixtures.settings
               Fixtures.indexed in
  match run.1 with
  | Ok resp => sources resp = [MkSource "https://x.edu/lib" (Some "Library")]
  | Raise _ => False
  end
  /\ length (filter (fun ev => is_chat ev = true) (log run.2)) = 1.
Proof. split; reflexivity. Qed.

(** The loop on the chunks of the witness: the repeated page is listed once, at
    the place of its best-ranked chunk. *)
Example unique_sources_example :
  Ask.unique_sources
    [Chunk "Hours: 8-5" "https://x.edu/lib" "Library" 0.9;
     Chunk "Library map" "https://x.edu/map" "Map" 0.95;
     Chunk "Holiday hours" "https://x.edu/lib" "Library" 0.4]
  = [MkSource "https://x.edu/lib" (Some "Library"); MkSource "https://x.edu/map" (Some "Map")].
Proof. reflexivity. Qed.

(** C6 as stated fails when the gate is closed: the vector store returns a chunk
    of ["https://example.com"], the answer is produced without raising, and its
    source list does not hold that url. *)
Lemma sources_empty_below_threshold :
  exists chunks w1 resp w2,
    Retriever.query (Fixtures.svc Fixtures.weak_results [])
                    (Retriever.Make (Some "uwp") "text-embedding-3-small")
                    "What is quantum physics?" 5 Fixtures.indexed = (Ok chunks, w1)
    /\ Ask.ask_question (Fixtures.svc Fixtures.weak_results [])
                        "Answer from the context only."
                        (MkAskRequest "What is quantum physics?" 5) Fixtures.settings
                        Fixtures.indexed = (Ok resp, w2)
    /\ "https://example.com" ∈ map url chunks
    /\ "https://example.com" ∉ map source_url (sources resp).
Proof.
  eexists _, _, _, _. split; [reflexivity|]. split; [reflexivity|]. split.
  - simpl. apply elem_of_cons. by left.
  - simpl. apply not_elem_of_nil.
Qed.

(** ** Ingestion status *)

Section IngestFrames.
Variable svc : services.

Lemma status_untouched_record ev w :
  is_save_status ev = false -> status_untouched w (record ev w).
Proof. intros H. split; [done|]. by apply grows_without_record. Qed.

Lemma status_untouched_same w w' :
  status_file w' = status_file w -> log w' = log w -> status_untouched w w'.
Proof. intros H1 H2. split; [done|]. by apply grows_without_same_log. Qed.

Lemma call_keeps_status {A} ev (oracle : list event -> outcome A) :
  is_save_status ev = false -> frames status_untouched (call ev oracle).
Proof. intros H. apply frames_call. intros w. by apply status_untouched_record. Qed.

Lemma read_jsonl_keeps_status : frames status_untouched IndexBuilder.read_jsonl.
Proof.
  intros w. unfold IndexBuilder.read_jsonl. destruct (docs_file w); simpl; reflexivity.
Qed.

Lemma delete_collection_keeps_status name :
  frames status_untouched (IndexBuilder.delete_collection name).
Proof.
  intros w. unfold IndexBuilder.delete_collection.
  destruct (decide (name ∈ collections w)); simpl; [|reflexivity].
  by apply status_untouched_same.
Qed.

Lemma get_or_create_collection_keeps_status name :
  frames status_untouched (IndexBuilder.get_or_create_collection name).
Proof. intros w. by apply status_untouched_same. Qed.

Lemma chunk_id_keeps_status ids md : frames status_untouched (IndexBuilder.chunk_id ids md).
Proof. unfold IndexBuilder.chunk_id. auto 10 with frames. Qed.

Lemma index_batch_keeps_status model all_chunks u batch_start :
  frames status_untouched (IndexBuilder.index_batch svc model all_chunks u batch_start).
Proof.
  unfold IndexBuilder.index_batch, IndexBuilder.embed_texts.
  apply frames_bind; [apply _|by apply call_keeps_status|]. intros embeddings.
  apply frames_bind; [apply _| |].
  - apply frames_for_each; [apply _|]. apply chunk_id_keeps_status.
  - intros ids. by apply call_keeps_status.
Qed.

Lemma build_index_keeps_status model reset :
  frames status_untouched (IndexBuilder.build_index svc model reset).
Proof.
  unfold IndexBuilder.build_index.
  apply frames_bind; [apply _|apply read_jsonl_keeps_status|]. intros documents.
  apply frames_bind; [apply _| |].
  { apply frames_if; [|auto with frames].
    apply frames_try_except; [apply _|apply delete_collection_keeps_status|].
    auto with frames. }
  intros _. apply frames_bind; [apply _|apply get_or_create_collection_keeps_status|].
  intros _. apply frames_bind; [apply _| |auto 10 with frames].
  apply frames_for_each; [apply _|]. intros [] x. apply index_batch_keeps_status.
Qed.

Lemma scrape_and_index_keeps_status max_pages settings :
  frames status_untouched (Ingest.scrape_and_index svc max_pages settings).
Proof.
  unfold Ingest.scrape_and_index.
  apply frames_bind; [apply _| |].
  { apply frames_try_finally; [apply _| |by apply call_keeps_status].
    apply frames_bind; [apply _|by apply call_keeps_status|]. intros docs.
    apply frames_bind; [apply _| |auto with frames].
    apply frames_modify. intros w. by apply status_untouched_same. }
  intros pages. apply frames_bind; [apply _|by apply call_keeps_status|].
  intros _. apply frames_bind; [apply _|apply build_index_keeps_status|].
  intros stats. apply frames_bind; [apply _| |auto with frames].
  apply frames_modify. intros w. by apply status_untouched_same.
Qed.

Lemma status_writes_app evs1 evs2 :
  status_writes (evs1 ++ evs2) = status_writes evs1 ++ status_writes evs2.
Proof. unfold status_writes. apply omap_app. Qed.

Lemma status_writes_quiet evs :
  Forall (fun ev => is_save_status ev = false) evs -> status_writes evs = [].
Proof.
  induction 1 as [|ev evs Hev _ IH]; [done|].
  unfold status_writes in *. simpl. destruct ev; try done.
Qed.

End IngestFrames.

(** C8. If the persisted record says "running" when [start_ingest] is called, the
    call raises [HTTPException(409)] and changes nothing: no task is queued and
    the status file is as it was. *)
Theorem start_ingest_conflict
    (svc : services) (request : IngestStartRequest) (settings : Settings)
    (w : world) (raw : string) (st : IngestStatus) :
  status_file w = Some raw ->
  parse_status svc raw = Ok st ->
  status st = running ->
  Ingest.start_ingest svc request settings w
  = (Raise (HTTPException 409 "Ingestion already in progress"), w).
Proof.
  intros Hfile Hparse Hrun.
  unfold Ingest.start_ingest, Ingest.load_status, bind, get_world, try_except, lift.
  rewrite Hfile, Hparse. by destruct (decide (status st = running)).
Qed.

Lemma start_ingest_conflict_witness :
  Ingest.start_ingest (Fixtures.svc Fixtures.strong_results [])
                      (MkIngestStartRequest (Some 50%Z)) Fixtures.settings
                      (set_status_file (Some "running") Fixtures.indexed)
  = (Raise (HTTPException 409 "Ingestion already in progress"),
     set_status_file (Some "running") Fixtures.indexed).
Proof.
  apply (start_ingest_conflict (Fixtures.svc Fixtures.strong_results [])
           (MkIngestStartRequest (Some 50%Z)) Fixtures.settings
           (set_status_file (Some "running") Fixtures.indexed)
           "running" (IngestStatus_default running)).
  - reflexivity.
  - reflexivity.
  - reflexivity.
Defined.

(** C10. When the status file is missing, or is there but does not parse or
    validate, [load_status] returns the record of an idle system, with zero
    counts and no dates, and raises nothing. [start_ingest] then accepts the
    request, as it does on any world whose record is not "running": it queues
    the task and answers "Ingestion started". *)
Theorem load_status_missing_or_corrupt (svc : services) (w : world) :
  (status_file w = None
   \/ exists raw e, status_file w = Some raw /\ parse_status svc raw = Raise e) ->
  Ingest.load_status svc w = (Ok (MkIngestStatus idle 0 0 None None None), w)
  /\ forall request settings,
      exists resp,
        Ingest.start_ingest svc request settings w
        = (Ok resp, add_task (Ingest.max_pages_used resp, settings) w)
        /\ Ingest.message_ resp = "Ingestion started"
        /\ forall w_idle,
            Ingest.load_status svc w_idle = (Ok (IngestStatus_default idle), w_idle) ->
            (Ingest.start_ingest svc request settings w_idle).1 = Ok resp.
Proof.
  intros Hfile.
  assert (Hload : Ingest.load_status svc w = (Ok (IngestStatus_default idle), w)).
  { unfold Ingest.load_status, bind, get_world, try_except, lift, ret.
    destruct Hfile as [->|(raw & e & -> & ->)]; reflexivity. }
  split; [exact Hload|]. intros request settings.
  unfold Ingest.start_ingest. rewrite (bind_ok _ _ _ _ _ Hload). simpl.
  unfold bind, modify, ret.
  eexists (Ingest.MkStartResponse _ _). split; [reflexivity|]. split; [reflexivity|].
  intros w_idle Hidle. by rewrite Hidle.
Qed.

Lemma load_status_missing_or_corrupt_witness :
  Ingest.load_status (Fixtures.svc Fixtures.strong_results [])
                     (set_status_file (Some "{not json") Fixtures.fresh)
  = (Ok (MkIngestStatus idle 0 0 None None None),
     set_status_file (Some "{not json") Fixtures.fresh)
  /\ forall request settings,
      exists resp,
        Ingest.start_ingest (Fixtures.svc Fixtures.strong_results []) request settings
                            (set_status_file (Some "{not json") Fixtures.fresh)
        = (Ok resp, add_task (Ingest.max_pages_used resp, settings)
                             (set_status_file (Some "{not json") Fixtures.fresh))
        /\ Ingest.message_ resp = "Ingestion started"
        /\ forall w_idle,
            Ingest.load_status (Fixtures.svc Fixtures.strong_results []) w_idle
            = (Ok (IngestStatus_default idle), w_idle) ->
            (Ingest.start_ingest (Fixtures.svc Fixtures.strong_results []) request settings
                                 w_idle).1 = Ok resp.
Proof.
  apply (load_status_missing_or_corrupt (Fixtures.svc Fixtures.strong_results [])
           (set_status_file (Some "{not json") Fixtures.fresh)).
  right. exists "{not json", (Exception "validation error"). split; reflexivity.
Defined.

(** C9. A run of [run_ingest_task] never raises and writes the status record
    exactly twice. The first write, before anything else, is "running" with the
    start time. Scraping and indexing then leave the record alone. The second
    write ends the run: "done" with the two counts when scraping and indexing
    returned them, "error" with the text of the exception when they raised.
    The record a finished run leaves is therefore never "running". *)
Theorem run_ingest_task_status
    (svc : services) (max_pages : Z) (settings : Settings) (w : world) :
  exists (w1 w2 w' : world) (started final : IngestStatus),
    Ingest.run_ingest_task svc max_pages settings w = (Ok tt, w')
    /\ started = MkIngestStatus running 0 0 (Some (now svc (log w))) None None
    /\ w1 = record (EvSaveStatus started)
                   (set_status_file (Some (dump_status svc started)) w)
    /\ w2 = (Ingest.scrape_and_index svc max_pages settings w1).2
    /\ status_untouched w1 w2
    /\ final = match (Ingest.scrape_and_index svc max_pages settings w1).1 with
               | Ok (pages, chunks) =>
                   MkIngestStatus done_ pages chunks (started_at started)
                                  (Some (now svc (log w2))) None
               | Raise e =>
                   MkIngestStatus error 0 0 (started_at started)
                                  (Some (now svc (log w2))) (Some (str e))
               end
    /\ w' = record (EvSaveStatus final)
                   (set_status_file (Some (dump_status svc final)) w2)
    /\ (exists evs, log w' = log w ++ evs /\ status_writes evs = [started; final])
    /\ status_file w' = Some (dump_status svc final)
    /\ status final <> running.
Proof.
  set (started := MkIngestStatus running 0 0 (Some (now svc (log w))) None None).
  set (w1 := record (EvSaveStatus started)
                    (set_status_file (Some (dump_status svc started)) w)).
  pose proof (scrape_and_index_keeps_status svc max_pages settings w1) as Hbody.
  destruct (Ingest.scrape_and_index svc max_pages settings w1) as [r w2] eqn:Hrun.
  simpl in Hbody.
  set (final := match r with
                | Ok (pages, chunks) =>
                    MkIngestStatus done_ pages chunks (started_at started)
                                   (Some (now svc (log w2))) None
                | Raise e =>
                    MkIngestStatus error 0 0 (started_at started)
                                   (Some (now svc (log w2))) (Some (str e))
                end).
  exists w1, w2,
    (record (EvSaveStatus final) (set_status_file (Some (dump_status svc final)) w2)),
    started, final.
  split_and!; rewrite ?Hrun; try reflexivity; try exact Hbody.
  - unfold Ingest.run_ingest_task, Ingest.now_isoformat, Ingest.save_status.
    unfold bind at 1. unfold bind at 1. simpl. unfold bind at 1. simpl.
    fold started. fold w1. subst final. destruct r as [[pages chunks]|e].
    + erewrite try_except_ok; [reflexivity|].
      by rewrite (bind_ok _ _ _ _ _ Hrun).
    + erewrite try_except_raise by (apply bind_raise; exact Hrun). reflexivity.
  - destruct Hbody as [_ (evs & Hlog & Hquiet)].
    exists ([EvSaveStatus started] ++ evs ++ [EvSaveStatus final]). split.
    + simpl log at 1. rewrite Hlog. subst w1. simpl. by rewrite <- !(assoc_L (++)).
    + rewrite !status_writes_app, (status_writes_quiet evs Hquiet). reflexivity.
  - subst final. by destruct r as [[pages chunks]|e].
Qed.

(** ** Windows of a list: [range] and slices *)

Section Windows.
Context {A : Type}.
Implicit Types (l : list A) (s a stop fuel : nat).

Lemma slice_window l i s : slice l i (i + s) = take s (drop i l).
Proof. unfold slice. f_equal. lia. Qed.

Lemma ceil_div_step x s : 0 < s -> 0 < x -> ceil_div x s = S (ceil_div (x - s) s).
Proof.
  intros Hs Hx. unfold ceil_div. destruct (decide (s <= x)) as [Hle|Hlt].
  - replace (x + s - 1) with ((x - s + s - 1) + 1 * s) by lia.
    rewrite Nat.div_add by lia. lia.
  - replace (x - s) with 0 by lia. simpl.
    rewrite (Nat.div_small (s - 1) s) by lia.
    symmetry. apply (Nat.div_unique _ _ _ (x - 1)); lia.
Qed.

Lemma ceil_div_0 s : 0 < s -> ceil_div 0 s = 0.
Proof. intros Hs. unfold ceil_div. simpl. apply Nat.div_small. lia. Qed.

Lemma range_from_length fuel a stop s :
  0 < s -> stop - a <= fuel ->
  length (range_from fuel a stop s) = ceil_div (stop - a) s.
Proof.
  intros Hs. revert a. induction fuel as [|fuel IH]; intros a Hfuel; simpl.
  - replace (stop - a) with 0 by lia. by rewrite ceil_div_0.
  - destruct (decide (a < stop)) as [Hlt|Hge]; simpl.
    + rewrite IH by lia. rewrite (ceil_div_step (stop - a) s) by lia.
      do 2 f_equal. lia.
    + replace (stop - a) with 0 by lia. by rewrite ceil_div_0.
Qed.

Lemma range_from_lookup fuel a stop s j i :
  range_from fuel a stop s !! j = Some i -> i = a + j * s /\ i < stop.
Proof.
  revert a j. induction fuel as [|fuel IH]; intros a j; simpl; [done|].
  destruct (decide (a < stop)) as [Hlt|Hge]; [|done].
  destruct j as [|j]; simpl.
  - intros [= <-]. lia.
  - intros H. apply IH in H. lia.
Qed.

Lemma concat_windows l fuel a s :
  0 < s -> length l - a <= fuel ->
  concat (map (fun i => slice l i (i + s)) (range_from fuel a (length l) s)) = drop a l.
Proof.
  intros Hs. revert a. induction fuel as [|fuel IH]; intros a Hfuel; simpl.
  - symmetry. apply drop_ge. lia.
  - destruct (decide (a < length l)) as [Hlt|Hge]; simpl.
    + rewrite IH by lia. rewrite slice_window, <- (drop_drop l s a).
      apply take_drop.
    + symmetry. apply drop_ge. lia.
Qed.

(** The window that starts at [i]: full unless it is the last one. *)
Lemma window_length l s ws j w :
  0 < s ->
  ws = map (fun i => slice l i (i + s)) (range 0 (length l) s) ->
  ws !! j = Some w ->
  0 < length w <= s /\ (S j < length ws -> length w = s).
Proof.
  intros Hs -> Hw. rewrite list_lookup_fmap in Hw.
  destruct (range 0 (length l) s !! j) as [i|] eqn:Hi; [|done].
  injection Hw as <-. rewrite slice_window, length_take, length_drop.
  pose proof (range_from_lookup _ _ _ _ _ _ Hi) as [-> Hlt]. split; [lia|].
  rewrite length_map. intros Hnext.
  destruct (lookup_lt_is_Some_2 (range 0 (length l) s) (S j) Hnext) as [i' Hi'].
  apply range_from_lookup in Hi' as [-> Hlt']. simpl in Hlt'. lia.
Qed.

(** A loop that appends one element per turn, computed from the turn's number. *)
Lemma foldl_snoc_imap {B C} (g : nat -> B -> C) (xs : list B) (acc : list C) :
  foldl (fun acc x => acc ++ [g (length acc) x]) acc xs
  = acc ++ imap (fun j x => g (length acc + j) x) xs.
Proof.
  revert acc. induction xs as [|x xs IH]; intros acc; simpl.
  - by rewrite app_nil_r.
  - rewrite IH, <- (assoc_L (++)). simpl. rewrite Nat.add_0_r. do 2 f_equal.
    apply imap_ext. intros j y _. simpl. rewrite length_app. simpl. f_equal. lia.
Qed.

End Windows.

(** ** chunk_text *)

Section Chunker.
Import IndexBuilder.
Variable svc : services.

(** The loop of [chunk_text], turn by turn: turn [j] takes the window that starts
    at token [j * CHUNK_SIZE]. *)
Lemma chunk_text_imap text (md : metadata) :
  chunk_text svc text md
  = imap (fun j w =>
            (decode svc w,
             <["chunk_index" := VInt (Z.of_nat j)]>
               (<["token_count" := VInt (Z.of_nat (length w))]> md),
             length w))
         (map (fun i => slice (encode svc text) i (i + CHUNK_SIZE))
              (range 0 (length (encode svc text)) CHUNK_SIZE)).
Proof.
  unfold chunk_text. rewrite imap_fmap.
  exact (foldl_snoc_imap
           (fun j i =>
              (decode svc (slice (encode svc text) i (i + CHUNK_SIZE)),
               <["chunk_index" := VInt (Z.of_nat j)]>
                 (<["token_count" :=
                      VInt (Z.of_nat (length (slice (encode svc text) i (i + CHUNK_SIZE))))]>
                    md),
               length (slice (encode svc text) i (i + CHUNK_SIZE))))
           (range 0 (length (encode svc text)) CHUNK_SIZE) []).
Qed.

Lemma chunk_size_pos : 0 < CHUNK_SIZE.
Proof. unfold CHUNK_SIZE. lia. Qed.

Lemma chunk_text_length text md :
  length (chunk_text svc text md) = ceil_div (length (encode svc text)) CHUNK_SIZE.
Proof.
  rewrite chunk_text_imap, length_imap, length_map. unfold range.
  rewrite range_from_length; [f_equal; lia|apply chunk_size_pos|lia].
Qed.

End Chunker.

(** C4. [chunk_text] cuts the token sequence of the text into windows: put end to
    end the windows give back the token sequence, there are
    [ceil(token_count / 350)] of them, each holds 350 tokens except the last,
    which holds between 1 and 350, and chunk [j], built from window [j], carries
    [chunk_index = j] and the window's length as its token count. A text with
    no tokens gives no chunk. *)
Theorem chunk_text_windows (svc : services) (text : string) (md : metadata) :
  IndexBuilder.CHUNK_SIZE = 350
  /\ exists windows : list (list Z),
      concat windows = encode svc text
      /\ length windows = ceil_div (length (encode svc text)) 350
      /\ (forall j w, windows !! j = Some w ->
                      0 < length w <= 350 /\ (S j < length windows -> length w = 350))
      /\ IndexBuilder.chunk_text svc text md
         = imap (fun j w =>
                   (decode svc w,
                    <["chunk_index" := VInt (Z.of_nat j)]>
                      (<["token_count" := VInt (Z.of_nat (length w))]> md),
                    length w))
                windows
      /\ (encode svc text = [] -> IndexBuilder.chunk_text svc text md = []).
Proof.
  split; [reflexivity|]. change 350 with IndexBuilder.CHUNK_SIZE.
  pose proof chunk_size_pos as Hs.
  set (tokens := encode svc text).
  exists (map (fun i => slice tokens i (i + IndexBuilder.CHUNK_SIZE))
              (range 0 (length tokens) IndexBuilder.CHUNK_SIZE)).
  split_and!.
  - unfold range. rewrite concat_windows by (done || lia). apply drop_0.
  - rewrite length_map. unfold range. rewrite range_from_length by (done || lia).
    f_equal. lia.
  - intros j w Hw. by eapply window_length.
  - apply chunk_text_imap.
  - intros Hempty. rewrite chunk_text_imap. fold tokens. by rewrite Hempty.
Qed.

(** A text of 875 tokens gives three chunks of 350, 350 and 175 tokens, numbered
    0, 1, 2; a text of 3 tokens gives one chunk; the empty text gives none. *)
Example chunk_text_examples :
  map (fun c => (c.1.2 !! "chunk_index", c.2))
      (IndexBuilder.chunk_text
         (Fixtures.svc_wide Fixtures.strong_results []) "abcde" ∅)
  = [(Some (VInt 0), 350); (Some (VInt 1), 350); (Some (VInt 2), 175)]
  /\ map (fun c => (c.1.2 !! "chunk_index", c.2))
         (IndexBuilder.chunk_text (Fixtures.svc Fixtures.strong_results []) "abc" ∅)
     = [(Some (VInt 0), 3)]
  /\ IndexBuilder.chunk_text (Fixtures.svc Fixtures.strong_results []) "" ∅ = [].
Proof. vm_compute. done. Qed.

(** ** Chunk ids *)

Section Ids.

(** The decimal rendering of a natural number holds digits only. *)
Lemma pretty_N_char_not_dash x : pretty_N_char x <> Ascii.ascii_of_nat 45.
Proof. unfold pretty_N_char. by repeat case_match. Qed.

Lemma pretty_N_go_no_dash x s :
  Ascii.ascii_of_nat 45 ∉ String.list_ascii_of_string s ->
  Ascii.ascii_of_nat 45 ∉ String.list_ascii_of_string (pretty_N_go x s).
Proof.
  revert s. induction (N.lt_wf_0 x) as [x _ IH]; intros s Hs.
  assert (x = 0 \/ 0 < x)%N as [->|Hpos] by lia.
  - by rewrite pretty_N_go_0.
  - rewrite pretty_N_go_step by done. apply IH.
    + by apply N.div_lt.
    + simpl. apply not_elem_of_cons. split; [|done].
      apply not_eq_sym, pretty_N_char_not_dash.
Qed.

Lemma pretty_nat_no_dash (n : nat) :
  Ascii.ascii_of_nat 45 ∉ String.list_ascii_of_string (pretty (Z.of_nat n)).
Proof.
  destruct n as [|n]; simpl.
  - vm_compute. intros H. by repeat (apply elem_of_cons in H as [H|H]; [done|]);
      apply elem_of_nil in H.
  - unfold pretty, pretty_Z, pretty, pretty_positive, pretty, pretty_N. simpl.
    apply pretty_N_go_no_dash. simpl. apply not_elem_of_nil.
Qed.

(** Two strings without a dash, each followed by a dash: equal wholes have
    equal parts. *)
Lemma split_at_dash (a b c d : string) :
  Ascii.ascii_of_nat 45 ∉ String.list_ascii_of_string a ->
  Ascii.ascii_of_nat 45 ∉ String.list_ascii_of_string c ->
  a +:+ "-" +:+ b = c +:+ "-" +:+ d -> a = c /\ b = d.
Proof.
  revert c. induction a as [|x a IH]; intros [|y c] Ha Hc H; simpl in *.
  - by simplify_eq.
  - simplify_eq. destruct Hc. by left.
  - simplify_eq. destruct Ha. by left.
  - injection H as -> H.
    apply not_elem_of_cons in Ha as [_ Ha]. apply not_elem_of_cons in Hc as [_ Hc].
    destruct (IH c Ha Hc H) as [-> ->]. done.
Qed.

Lemma id_of_inj p j p' j' : id_of p j = id_of p' j' -> p = p' /\ j = j'.
Proof.
  unfold id_of. intros H.
  apply split_at_dash in H as [Hp Hj]; try apply pretty_nat_no_dash.
  split; by apply Nat2Z.inj, (inj pretty).
Qed.

End Ids.

Section PageChunkIds.

(** The pairs (page, chunk) of a batch, pages numbered from [k]. *)
Lemma NoDup_page_chunk_pairs (counts : list nat) (k : nat) :
  NoDup (concat (imap (fun p n => map (pair (k + p)) (seq 0 n)) counts))
  /\ forall p j, (p, j) ∈ concat (imap (fun p n => map (pair (k + p)) (seq 0 n)) counts) ->
                 k <= p.
Proof.
  revert k. induction counts as [|n counts IH]; intros k; simpl.
  - split; [constructor|]. intros p j H. by apply elem_of_nil in H.
  - destruct (IH (S k)) as [Hnd Hge].
    assert (Heq : imap ((fun p n0 => map (pair (k + p)) (seq 0 n0)) ∘ S) counts
                  = imap (fun p n0 => map (pair (S k + p)) (seq 0 n0)) counts).
    { apply imap_ext. intros i x _. simpl. do 2 f_equal. lia. }
    rewrite Heq, Nat.add_0_r. split.
    + apply NoDup_app. split; [|split; [|done]].
      * apply NoDup_fmap_2; [|apply NoDup_seq]. by intros a b [= ->].
      * intros [p j] Hin Hin'. apply list_elem_of_fmap in Hin as (j' & [= -> ->] & _).
        apply Hge in Hin'. lia.
    + intros p j Hin. apply elem_of_app in Hin as [Hin|Hin].
      * apply list_elem_of_fmap in Hin as (j' & [= -> ->] & _). lia.
      * apply Hge in Hin. lia.
Qed.

Lemma fmap_concat_imap {A B C} (h : B -> C) (f : nat -> A -> list B) (l : list A) :
  map h (concat (imap f l)) = concat (imap (fun i x => map h (f i x)) l).
Proof.
  revert f. induction l as [|x l IH]; intros f; simpl; [done|].
  by rewrite fmap_app, IH.
Qed.

Lemma page_chunk_ids_pairs (svc : services) (docs : list document) :
  page_chunk_ids svc docs
  = map (fun pj => id_of pj.1 pj.2)
        (concat (imap (fun p n => map (pair (0 + p)) (seq 0 n))
                      (map (fun doc => ceil_div (length (encode svc (doc_text doc)))
                                                IndexBuilder.CHUNK_SIZE) docs))).
Proof.
  unfold page_chunk_ids. rewrite imap_fmap, fmap_concat_imap. f_equal.
  apply imap_ext. intros i x _. unfold compose.
  rewrite <- list_fmap_compose. reflexivity.
Qed.

Lemma NoDup_page_chunk_ids (svc : services) (docs : list document) :
  NoDup (page_chunk_ids svc docs).
Proof.
  rewrite page_chunk_ids_pairs. apply NoDup_fmap_2_strong.
  - intros [p j] [p' j'] _ _ H. simpl in H. apply id_of_inj in H as [-> ->]. done.
  - apply NoDup_page_chunk_pairs.
Qed.

End PageChunkIds.

(** ** build_index *)

Section BuildIndex.
Import IndexBuilder.
Variable svc : services.

(** The metadata [build_index] gives to page [p]. *)
Lemma page_metadata_lookup (p : nat) (u t : string) :
  (<["url" := VStr u]> (<["title" := VStr t]>
     (<["page_index" := VInt (Z.of_nat p)]> (∅ : metadata)))) !! "page_index"
  = Some (VInt (Z.of_nat p)).
Proof. by simplify_map_eq. Qed.

Lemma chunk_text_stored_as text (md : metadata) (p : nat) :
  md !! "page_index" = Some (VInt (Z.of_nat p)) ->
  Forall2 stored_as (chunk_text svc text md)
          (map (id_of p) (seq 0 (ceil_div (length (encode svc text)) CHUNK_SIZE))).
Proof.
  intros Hp. rewrite <- (chunk_text_length svc text md).
  apply Forall2_same_length_lookup_2.
  - by rewrite length_map, length_seq.
  - intros j c id Hc Hid. rewrite chunk_text_imap in Hc.
    rewrite list_lookup_imap in Hc.
    apply fmap_Some in Hc as (win & _ & ->).
    rewrite list_lookup_fmap in Hid. apply fmap_Some in Hid as (j' & Hj' & ->).
    apply lookup_seq in Hj' as [-> _]. simpl.
    exists p, j. simpl. split_and!.
    + by rewrite !lookup_insert_ne.
    + by rewrite lookup_insert_eq.
    + done.
Qed.

(** "Chunk all documents": the chunks of page 0, then those of page 1, ... *)
Lemma chunk_documents_stored_as documents :
  Forall2 stored_as (chunk_documents svc documents) (page_chunk_ids svc documents).
Proof.
  unfold chunk_documents, page_chunk_ids.
  assert (H : forall docs k acc ids,
             Forall2 stored_as acc ids ->
             Forall2 stored_as
               (foldl (fun all_chunks '(page_idx, doc) =>
                         let md : metadata :=
                           <["url" := VStr (doc_url doc)]>
                             (<["title" := VStr (match doc_title doc with
                                                 | None | Some "" => "Untitled"
                                                 | Some t => t
                                                 end)]>
                                (<["page_index" := VInt (Z.of_nat page_idx)]> ∅)) in
                         let chunks := chunk_text svc (doc_text doc) md in
                         all_chunks ++ chunks)
                      acc (imap (fun i doc => (k + i, doc)) docs))
               (ids ++ concat (imap (fun p doc =>
                         map (id_of (k + p))
                             (seq 0 (ceil_div (length (encode svc (doc_text doc)))
                                              CHUNK_SIZE)))
                       docs))).
  { induction docs as [|doc docs IH]; intros k acc ids Hacc; simpl.
    - by rewrite app_nil_r.
    - rewrite Nat.add_0_r, (assoc_L (++)).
      assert (Hstep : Forall2 stored_as
                (acc ++ chunk_text svc (doc_text doc)
                   (<["url" := VStr (doc_url doc)]>
                      (<["title" := VStr (match doc_title doc with
                                          | None | Some "" => "Untitled"
                                          | Some t => t
                                          end)]>
                         (<["page_index" := VInt (Z.of_nat k)]> ∅))))
                (ids ++ map (id_of k)
                        (seq 0 (ceil_div (length (encode svc (doc_text doc)))
                                         CHUNK_SIZE)))).
      { apply Forall2_app; [done|]. apply chunk_text_stored_as, page_metadata_lookup. }
      specialize (IH (S k) _ _ Hstep).
      erewrite (imap_ext _ (fun i doc0 => (S k + i, doc0))); last first.
      { intros i x _. simpl. f_equal. lia. }
      erewrite (imap_ext (_ ∘ S)); [exact IH|].
      intros i x _. simpl. do 2 f_equal. lia. }
  apply (H documents 0 [] []). constructor.
Qed.

Lemma chunk_documents_length documents :
  length (chunk_documents svc documents) = length (page_chunk_ids svc documents).
Proof. eapply Forall2_length, chunk_documents_stored_as. Qed.

(** "Generate IDs": the loop reads off the ids the metadata stands for. *)
Lemma for_each_chunk_id (cs : list indexed_chunk) (ids acc : list string) (w : world) :
  Forall2 stored_as cs ids ->
  for_each (map (fun c => c.1.2) cs) chunk_id acc w = (Ok (acc ++ ids), w).
Proof.
  intros H. revert acc. induction H as [|c id cs ids Hc _ IH]; intros acc; simpl.
  - by rewrite app_nil_r.
  - destruct Hc as (p & j & Hp & Hj & ->).
    erewrite bind_ok; [|unfold chunk_id, bind, lift, getitem; rewrite Hp, Hj; reflexivity].
    simpl fmt. fold (id_of p j). rewrite IH, <- (assoc_L (++)). reflexivity.
Qed.

End BuildIndex.

Section Batches.
Import IndexBuilder.
Variable svc : services.

Lemma added_ids_app evs1 evs2 :
  added_ids (evs1 ++ evs2) = added_ids evs1 ++ added_ids evs2.
Proof. unfold added_ids. by rewrite omap_app, concat_app. Qed.

Lemma slice_batch {A} (l : list A) a s :
  slice l a (Nat.min (a + s) (length l)) = take s (drop a l).
Proof.
  unfold slice. destruct (decide (a + s <= length l)) as [Hle|Hgt].
  - f_equal. lia.
  - rewrite !take_ge; [done|rewrite length_drop; lia..].
Qed.

(** One batch: either the embedding call raises and nothing is added, or the
    ids of the batch are handed to [collection.add]. *)
Lemma index_batch_ids model (all_chunks : list indexed_chunk) (E : list string) a w :
  Forall2 stored_as all_chunks E ->
  exists evs,
    log (index_batch svc model all_chunks tt a w).2 = log w ++ evs
    /\ ((added_ids evs = [] /\ exists e, (index_batch svc model all_chunks tt a w).1 = Raise e)
        \/ added_ids evs = take BATCH_SIZE (drop a E)).
Proof.
  intros Hall. unfold index_batch. rewrite slice_batch.
  set (batch := take BATCH_SIZE (drop a all_chunks)).
  assert (Hbatch : Forall2 stored_as batch (take BATCH_SIZE (drop a E)))
    by by apply Forall2_take, Forall2_drop.
  unfold embed_texts, bind at 1, call at 1.
  destruct (embeddings_create svc (log w) model (map (fun c => c.1.1) batch))
    as [embeddings|e] eqn:Hemb.
  - erewrite bind_ok by (apply for_each_chunk_id; exact Hbatch). unfold call. simpl.
    eexists [_; _]. split; [rewrite <- (assoc_L (++)); exact eq_refl|]. right.
    unfold added_ids. simpl. apply app_nil_r.
  - simpl. exists [EvEmbed model (map (fun c => c.1.1) batch)].
    split; [done|]. left. split; [done|]. exists e.
    unfold bind, call. by rewrite Hemb.
Qed.

(** "Process in batches for embedding": the ids added are an initial segment of
    the ids still to come, and all of them when the loop runs to its end. *)
Lemma index_batches_ids model (all_chunks : list indexed_chunk) (E : list string) :
  Forall2 stored_as all_chunks E ->
  forall fuel a w,
    exists evs m,
      log (for_each (range_from fuel a (length all_chunks) BATCH_SIZE)
                    (index_batch svc model all_chunks) tt w).2 = log w ++ evs
      /\ added_ids evs = take m (drop a E)
      /\ (forall u, (for_each (range_from fuel a (length all_chunks) BATCH_SIZE)
                              (index_batch svc model all_chunks) tt w).1 = Ok u ->
                    length all_chunks - a <= fuel ->
                    added_ids evs = drop a E).
Proof.
  intros Hall. pose proof (Forall2_length _ _ _ Hall) as Hlen.
  assert (Hpos : 0 < BATCH_SIZE) by (unfold BATCH_SIZE; lia).
  induction fuel as [|fuel IH]; intros a w; simpl.
  - exists [], 0. rewrite app_nil_r, take_0. split_and!; [done..|].
    intros _ _ Hfuel. symmetry. apply drop_ge. lia.
  - destruct (decide (a < length all_chunks)) as [Hlt|Hge]; simpl.
    + destruct (index_batch_ids model all_chunks E a w Hall) as (evs1 & Hlog1 & Hids1).
      unfold bind.
      destruct (index_batch svc model all_chunks tt a w) as [[[]|e] w1] eqn:Hstep;
        simpl in Hlog1, Hids1.
      * destruct Hids1 as [[_ [e He]]|Hids1]; [done|].
        destruct (IH (a + BATCH_SIZE) w1) as (evs2 & m & Hlog2 & Hids2 & Hall2).
        exists (evs1 ++ evs2), (BATCH_SIZE + m). split_and!.
        -- by rewrite Hlog2, Hlog1, (assoc_L (++)).
        -- rewrite added_ids_app, Hids1, Hids2, <- take_take_drop, drop_drop. done.
        -- intros u Hok Hfuel. rewrite added_ids_app, Hids1, (Hall2 u Hok) by lia.
           rewrite <- (drop_drop E BATCH_SIZE a). apply take_drop.
      * destruct Hids1 as [[Hnil _]|Hids1].
        -- exists evs1, 0. rewrite take_0. simpl. split_and!; done.
        -- exists evs1, BATCH_SIZE. simpl. split_and!; done.
    + exists [], 0. rewrite app_nil_r, take_0. split_and!; [done..|].
      intros _ _ _. symmetry. apply drop_ge. lia.
Qed.

End Batches.

Section BuildIndexIds.
Import IndexBuilder.
Variable svc : services.

Lemma reset_collection_ok (reset : bool) w :
  exists w',
    (if reset
     then try_except (delete_collection COLLECTION_NAME) (fun _ => ret tt)
     else ret tt) w = (Ok tt, w')
    /\ log w' = log w.
Proof.
  destruct reset; [|by exists w].
  unfold try_except, delete_collection.
  destruct (decide (COLLECTION_NAME ∈ collections w)); eexists; split; reflexivity.
Qed.

Lemma build_index_ids model reset w docs :
  docs_file w = Some docs ->
  exists evs m,
    log (build_index svc model reset w).2 = log w ++ evs
    /\ added_ids evs = take m (page_chunk_ids svc docs)
    /\ (forall stats, (build_index svc model reset w).1 = Ok stats ->
                      added_ids evs = page_chunk_ids svc docs
                      /\ total_chunks stats = length (page_chunk_ids svc docs)
                      /\ total_documents stats = length docs).
Proof.
  intros Hdocs. unfold build_index.
  erewrite bind_ok by (unfold read_jsonl; rewrite Hdocs; reflexivity).
  destruct (reset_collection_ok reset w) as (w1 & Hreset & Hlog1).
  rewrite (bind_ok _ _ _ _ _ Hreset).
  erewrite bind_ok by reflexivity.
  set (w2 := set_collections (fun c => {[COLLECTION_NAME]} ∪ c) w1).
  assert (Hlog2 : log w2 = log w) by (by rewrite <- Hlog1).
  pose proof (chunk_documents_stored_as svc docs) as Hall.
  destruct (index_batches_ids svc model _ _ Hall
              (length (chunk_documents svc docs)) 0 w2) as (evs & m & Hlog & Hids & Hdone).
  rewrite drop_0 in Hids, Hdone. fold (range 0 (length (chunk_documents svc docs)) BATCH_SIZE) in *.
  unfold bind at 1.
  destruct (for_each (range 0 (length (chunk_documents svc docs)) BATCH_SIZE)
                     (index_batch svc model (chunk_documents svc docs)) tt w2)
    as [[[]|e] w3] eqn:Hloop; unfold bind, get_world, ret; simpl in Hlog, Hdone |- *.
  - exists evs, m. rewrite Hlog. simpl. rewrite Hlog1. split_and!; [done..|].
    intros stats Hst. rewrite Hloop in Hst. simpl in Hst. injection Hst as <-. simpl.
    split_and!; [|apply chunk_documents_length|done].
    apply (Hdone tt); [done|lia].
  - exists evs, m. rewrite Hlog. simpl. rewrite Hlog1. split_and!; [done..|].
    intros stats Hst. by rewrite Hloop in Hst.
Qed.

End BuildIndexIds.

(** C5. The ids of a document batch, ["{page_index}-{chunk_index}"] for every
    chunk of every page, are pairwise distinct. Whatever happens during
    [build_index], the ids it hands to the collection are distinct, being an
    initial segment of the ids of the batch; a build that returns has handed
    over every one of them, as many as the chunks it counts. *)
Theorem chunk_ids_distinct (svc : services) (model : string) (reset : bool) (w : world) :
  (forall docs, NoDup (page_chunk_ids svc docs))
  /\ exists evs,
      log (IndexBuilder.build_index svc model reset w).2 = log w ++ evs
      /\ NoDup (added_ids evs)
      /\ (forall docs, docs_file w = Some docs ->
                       exists m, added_ids evs = take m (page_chunk_ids svc docs))
      /\ (forall docs stats,
             docs_file w = Some docs ->
             (IndexBuilder.build_index svc model reset w).1 = Ok stats ->
             added_ids evs = page_chunk_ids svc docs
             /\ total_chunks stats = length (page_chunk_ids svc docs)
             /\ total_documents stats = length docs).
Proof.
  split; [apply NoDup_page_chunk_ids|].
  destruct (docs_file w) as [docs|] eqn:Hdocs.
  - destruct (build_index_ids svc model reset w docs Hdocs) as (evs & m & Hlog & Hids & Hok).
    exists evs. split_and!; [done| | |].
    + rewrite Hids. apply (sublist_NoDup _ (page_chunk_ids svc docs));
        [apply NoDup_page_chunk_ids|apply sublist_take].
    + intros docs' [= <-]. by exists m.
    + intros docs' stats [= <-]. apply Hok.
  - exists []. unfold IndexBuilder.build_index, bind, IndexBuilder.read_jsonl.
    rewrite Hdocs. simpl. rewrite app_nil_r. split_and!; [done|constructor|done..].
Qed.

(** The scenario of the specification: two documents of 700 tokens each give the
    ids "0-0", "0-1", "1-0", "1-1". *)
Example build_index_two_documents :
  let docs := [Document "https://x.edu/a" (Some "A") "abcd";
               Document "https://x.edu/b" None "efgh"] in
  let run := IndexBuilder.build_index (Fixtures.svc_wide Fixtures.strong_results [])
               "text-embedding-3-small" true
               (set_docs_file (Some docs) Fixtures.fresh) in
  map length (map (encode (Fixtures.svc_wide Fixtures.strong_results []))
                  (map doc_text docs)) = [700; 700]
  /\ added_ids (log run.2) = ["0-0"; "0-1"; "1-0"; "1-1"]
  /\ total_chunks <$> (match run.1 with Ok s => Some s | Raise _ => None end) = Some 4.
Proof. vm_compute. done. Qed.

(** * Further properties of the code *)

(** ** Retriever.query: results, empty results and errors *)

Section QueryMore.
Import Retriever.
Variable svc : services.

Lemma for_each_format_result_chunks results ms0 mr ds0 dr :
  metadatas results = Some (ms0 :: mr) ->
  distances results = Some (ds0 :: dr) ->
  forall (docs0 : list string) (n : nat) (acc : list chunk) (w : world),
    n + length docs0 <= length ms0 ->
    n + length docs0 <= length ds0 ->
    for_each (imap (fun i doc => (n + i, doc)) docs0) (format_result results) acc w
    = (Ok (acc ++ chunks_of docs0 (drop n ms0) (drop n ds0)), w).
Proof.
  intros Hm Hd docs0. induction docs0 as [|doc docs0 IH]; intros n acc w Hlm Hld.
  - simpl. by rewrite app_nil_r.
  - simpl in Hlm, Hld.
    destruct (lookup_lt_is_Some_2 ms0 n) as [md Hmd]; [lia|].
    destruct (lookup_lt_is_Some_2 ds0 n) as [d Hdn]; [lia|].
    rewrite imap_cons, for_each_cons, Nat.add_0_r.
    erewrite bind_ok by (eapply format_result_ok; eauto).
    erewrite (imap_ext _ (fun i doc0 => (S n + i, doc0))); last first.
    { intros i x _. simpl. f_equal. lia. }
    rewrite IH by lia. rewrite (drop_S _ _ _ Hmd), (drop_S _ _ _ Hdn).
    unfold chunks_of. simpl. by rewrite <- (assoc_L (++)).
Qed.

Lemma for_each_format_result_short results ms0 mr ds0 dr :
  metadatas results = Some (ms0 :: mr) ->
  distances results = Some (ds0 :: dr) ->
  forall (docs0 : list string) (n : nat) (acc : list chunk) (w : world),
    n <= length ms0 -> n <= length ds0 ->
    length ms0 < n + length docs0 \/ length ds0 < n + length docs0 ->
    for_each (imap (fun i doc => (n + i, doc)) docs0) (format_result results) acc w
    = (Raise IndexError, w).
Proof.
  intros Hm Hd docs0. induction docs0 as [|doc docs0 IH]; intros n acc w Hnm Hnd Hshort.
  - simpl in Hshort. lia.
  - rewrite imap_cons, for_each_cons, Nat.add_0_r. simpl in Hshort.
    destruct (ms0 !! n) as [md|] eqn:Hmd; last first.
    { apply bind_raise. unfold format_result. rewrite Hm.
      unfold bind, lift, subscriptable, index. simpl. by rewrite Hmd. }
    destruct (ds0 !! n) as [d|] eqn:Hdn; last first.
    { apply bind_raise. unfold format_result. rewrite Hm, Hd.
      unfold bind, lift, subscriptable, index. simpl. by rewrite Hmd, Hdn. }
    erewrite bind_ok by (eapply format_result_ok; eauto).
    erewrite (imap_ext _ (fun i doc0 => (S n + i, doc0))); last first.
    { intros i x _. simpl. f_equal. lia. }
    apply lookup_lt_Some in Hmd, Hdn. apply IH; lia.
Qed.

(** The two calls retrieval starts with, when both succeed. *)
Lemma query_after_calls self name question k_ w emb rest results :
  collection self = Some name ->
  embeddings_create svc (log w) (embed_model self) [question] = Ok (emb :: rest) ->
  collection_query svc (log w ++ [EvEmbed (embed_model self) [question]]) emb k_
  = Ok results ->
  query svc self question k_ w
  = match documents results with
    | None | Some [] | Some ([] :: _) => ret []
    | Some (docs0 :: _) =>
        for_each (imap (fun i doc => (i, doc)) docs0) (format_result results) []
    end (record (EvQuery emb k_) (record (EvEmbed (embed_model self) [question]) w)).
Proof.
  intros Hc He Hq. unfold query. rewrite Hc. unfold embed_query.
  erewrite bind_ok; last first.
  { erewrite bind_ok by (unfold call; rewrite He; reflexivity). reflexivity. }
  erewrite bind_ok by (unfold call; simpl; rewrite Hq; reflexivity). reflexivity.
Qed.

End QueryMore.

(** X1. When the collection exists, the embedding succeeds and the vector store
    returns documents with at least as many metadata dicts and distances,
    [query] makes exactly the two calls (embedding, then the store with
    [n_results = k]) and returns one chunk per document, in the order of the
    store: the text is the document, the url and the title are read from the
    metadata at the same position, [""] and ["Untitled"] when the key is
    missing, and the score is the similarity of the distance at that position. *)
Theorem query_returns_store_order
    (svc : services) (self : Retriever.t) (name question : string) (k_ : Z) (w : world)
    (emb : embedding) (rest : list embedding)
    (docs0 : list string) (dsr : list (list string))
    (ms0 : list (gmap string string)) (mr : list (list (gmap string string)))
    (ds0 : list Q) (dr : list (list Q)) :
  Retriever.collection self = Some name ->
  embeddings_create svc (log w) (Retriever.embed_model self) [question]
  = Ok (emb :: rest) ->
  collection_query svc (log w ++ [EvEmbed (Retriever.embed_model self) [question]]) emb k_
  = Ok (QueryResult (Some (docs0 :: dsr)) (Some (ms0 :: mr)) (Some (ds0 :: dr))) ->
  length docs0 <= length ms0 ->
  length docs0 <= length ds0 ->
  Retriever.query svc self question k_ w
  = (Ok (chunks_of docs0 ms0 ds0),
     record (EvQuery emb k_) (record (EvEmbed (Retriever.embed_model self) [question]) w))
  /\ length (chunks_of docs0 ms0 ds0) = length docs0.
Proof.
  intros Hc He Hq Hlm Hld. split.
  - rewrite (query_after_calls svc _ _ _ _ _ _ _ _ Hc He Hq). simpl documents.
    destruct docs0 as [|doc docs0]; [reflexivity|].
    exact (for_each_format_result_chunks
             (QueryResult (Some ((doc :: docs0) :: dsr)) (Some (ms0 :: mr))
                          (Some (ds0 :: dr)))
             ms0 mr ds0 dr eq_refl eq_refl (doc :: docs0) 0 [] _ Hlm Hld).
  - unfold chunks_of. rewrite length_zip_with, length_zip. lia.
Qed.

Lemma query_returns_store_order_witness :
  Retriever.query (Fixtures.svc Fixtures.strong_results [])
                  (Retriever.Make (Some "uwp") "text-embedding-3-small")
                  "What are the library hours?" 5 Fixtures.indexed
  = (Ok (chunks_of ["Hours: 8-5"; "Library map"; "Holiday hours"]
                   [Fixtures.meta "https://x.edu/lib" "Library";
                    Fixtures.meta "https://x.edu/map" "Map";
                    Fixtures.meta "https://x.edu/lib" "Library"]
                   [0.5%Q; 1%Q; 1.5%Q]),
     record (EvQuery [1%Q; 0%Q] 5)
            (record (EvEmbed "text-embedding-3-small" ["What are the library hours?"])
                    Fixtures.indexed))
  /\ length (chunks_of ["Hours: 8-5"; "Library map"; "Holiday hours"]
                       [Fixtures.meta "https://x.edu/lib" "Library";
                        Fixtures.meta "https://x.edu/map" "Map";
                        Fixtures.meta "https://x.edu/lib" "Library"]
                       [0.5%Q; 1%Q; 1.5%Q]) = 3.
Proof.
  apply (query_returns_store_order
           (Fixtures.svc Fixtures.strong_results [])
           (Retriever.Make (Some "uwp") "text-embedding-3-small") "uwp"
           "What are the library hours?" 5 Fixtures.indexed [1%Q; 0%Q] []
           ["Hours: 8-5"; "Library map"; "Holiday hours"] []
           [Fixtures.meta "https://x.edu/lib" "Library";
            Fixtures.meta "https://x.edu/map" "Map";
            Fixtures.meta "https://x.edu/lib" "Library"] []
           [0.5%Q; 1%Q; 1.5%Q] []); try reflexivity; simpl; lia.
Defined.

(** X2. When the store answers without documents ([None], an empty list, or an
    empty first list), [query] returns the empty list. The metadata and the
    distances are not looked at: they may be [None]. *)
Theorem query_no_documents
    (svc : services) (self : Retriever.t) (name question : string) (k_ : Z) (w : world)
    (emb : embedding) (rest : list embedding) (results : query_result) :
  Retriever.collection self = Some name ->
  embeddings_create svc (log w) (Retriever.embed_model self) [question]
  = Ok (emb :: rest) ->
  collection_query svc (log w ++ [EvEmbed (Retriever.embed_model self) [question]]) emb k_
  = Ok results ->
  (documents results = None \/ documents results = Some []
   \/ exists others, documents results = Some ([] :: others)) ->
  Retriever.query svc self question k_ w
  = (Ok [],
     record (EvQuery emb k_) (record (EvEmbed (Retriever.embed_model self) [question]) w)).
Proof.
  intros Hc He Hq Hdocs. rewrite (query_after_calls svc _ _ _ _ _ _ _ _ Hc He Hq).
  by destruct Hdocs as [->|[->|[others ->]]].
Qed.

Lemma query_no_documents_witness :
  Retriever.query (Fixtures.svc (QueryResult (Some [[]]) None None) [])
                  (Retriever.Make (Some "uwp") "text-embedding-3-small")
                  "Anything?" 5 Fixtures.indexed
  = (Ok [],
     record (EvQuery [1%Q; 0%Q] 5)
            (record (EvEmbed "text-embedding-3-small" ["Anything?"]) Fixtures.indexed)).
Proof.
  apply (query_no_documents
           (Fixtures.svc (QueryResult (Some [[]]) None None) [])
           (Retriever.Make (Some "uwp") "text-embedding-3-small") "uwp"
           "Anything?" 5 Fixtures.indexed [1%Q; 0%Q] []
           (QueryResult (Some [[]]) None None)); try reflexivity.
  right. right. by exists [].
Defined.

(** X3. When the store returns fewer metadata dicts or fewer distances than
    documents, [query] raises [IndexError]: it returns no partial list. *)
Theorem query_misaligned_raises
    (svc : services) (self : Retriever.t) (name question : string) (k_ : Z) (w : world)
    (emb : embedding) (rest : list embedding)
    (docs0 : list string) (dsr : list (list string))
    (ms0 : list (gmap string string)) (mr : list (list (gmap string string)))
    (ds0 : list Q) (dr : list (list Q)) :
  Retriever.collection self = Some name ->
  embeddings_create svc (log w) (Retriever.embed_model self) [question]
  = Ok (emb :: rest) ->
  collection_query svc (log w ++ [EvEmbed (Retriever.embed_model self) [question]]) emb k_
  = Ok (QueryResult (Some (docs0 :: dsr)) (Some (ms0 :: mr)) (Some (ds0 :: dr))) ->
  length ms0 < length docs0 \/ length ds0 < length docs0 ->
  Retriever.query svc self question k_ w
  = (Raise IndexError,
     record (EvQuery emb k_) (record (EvEmbed (Retriever.embed_model self) [question]) w)).
Proof.
  intros Hc He Hq Hshort. rewrite (query_after_calls svc _ _ _ _ _ _ _ _ Hc He Hq).
  simpl documents. destruct docs0 as [|doc docs0]; [simpl in Hshort; lia|].
  apply (for_each_format_result_short
           (QueryResult (Some ((doc :: docs0) :: dsr)) (Some (ms0 :: mr))
                        (Some (ds0 :: dr)))
           ms0 mr ds0 dr eq_refl eq_refl (doc :: docs0) 0 []); [lia|lia|exact Hshort].
Qed.

Lemma query_misaligned_raises_witness :
  Retriever.query (Fixtures.svc Faulty.misaligned_results [])
                  (Retriever.Make (Some "uwp") "text-embedding-3-small")
                  "What are the library hours?" 5 Fixtures.indexed
  = (Raise IndexError,
     record (EvQuery [1%Q; 0%Q] 5)
            (record (EvEmbed "text-embedding-3-small" ["What are the library hours?"])
                    Fixtures.indexed)).
Proof.
  apply (query_misaligned_raises
           (Fixtures.svc Faulty.misaligned_results [])
           (Retriever.Make (Some "uwp") "text-embedding-3-small") "uwp"
           "What are the library hours?" 5 Fixtures.indexed [1%Q; 0%Q] []
           ["Hours: 8-5"; "Library map"] []
           [Fixtures.meta "https://x.edu/lib" "Library"] []
           [0.5%Q; 1%Q] []); try reflexivity.
  left. simpl. lia.
Defined.

(** X4. When the embedding call raises, [query] raises the same exception, and
    when it returns no vector, [query] raises [IndexError]; in both cases the
    vector store is not queried. *)
Theorem query_embedding_failure
    (svc : services) (self : Retriever.t) (name question : string) (k_ : Z) (w : world) :
  Retriever.collection self = Some name ->
  (forall e,
      embeddings_create svc (log w) (Retriever.embed_model self) [question] = Raise e ->
      Retriever.query svc self question k_ w
      = (Raise e, record (EvEmbed (Retriever.embed_model self) [question]) w))
  /\ (embeddings_create svc (log w) (Retriever.embed_model self) [question] = Ok [] ->
      Retriever.query svc self question k_ w
      = (Raise IndexError, record (EvEmbed (Retriever.embed_model self) [question]) w)).
Proof.
  intros Hc. unfold Retriever.query, Retriever.embed_query. rewrite Hc.
  split; [intros e He|intros He]; unfold bind, call, lift, index; by rewrite He.
Qed.

Lemma query_embedding_failure_witness :
  (forall e,
      embeddings_create (Faulty.embed_down Fixtures.strong_results [])
        (log Fixtures.indexed) "text-embedding-3-small" ["hours?"] = Raise e ->
      Retriever.query (Faulty.embed_down Fixtures.strong_results [])
                      (Retriever.Make (Some "uwp") "text-embedding-3-small")
                      "hours?" 5 Fixtures.indexed
      = (Raise e, record (EvEmbed "text-embedding-3-small" ["hours?"]) Fixtures.indexed))
  /\ (embeddings_create (Faulty.embed_down Fixtures.strong_results [])
        (log Fixtures.indexed) "text-embedding-3-small" ["hours?"] = Ok [] ->
      Retriever.query (Faulty.embed_down Fixtures.strong_results [])
                      (Retriever.Make (Some "uwp") "text-embedding-3-small")
                      "hours?" 5 Fixtures.indexed
      = (Raise IndexError,
         record (EvEmbed "text-embedding-3-small" ["hours?"]) Fixtures.indexed)).
Proof.
  apply (query_embedding_failure
           (Faulty.embed_down Fixtures.strong_results [])
           (Retriever.Make (Some "uwp") "text-embedding-3-small") "uwp"
           "hours?" 5 Fixtures.indexed).
  reflexivity.
Defined.

(** ** ask_question: failures, the fresh deployment and what a request changes *)

Section AskMore.
Variable svc : services.
Variable SYSTEM_PROMPT : string.

Global Instance same_state_preorder : PreOrder same_state.
Proof.
  split.
  - intros w. by repeat split.
  - intros w1 w2 w3 (A1 & B1 & C1 & D1 & E1) (A2 & B2 & C2 & D2 & E2).
    repeat split; congruence.
Qed.

Lemma same_state_record ev w : same_state w (record ev w).
Proof. by repeat split. Qed.

Lemma query_keeps (I : world -> world -> Prop) `{!PreOrder I} self question k_ :
  (forall ev w, I w (record ev w)) ->
  frames I (Retriever.query svc self question k_).
Proof.
  intros Hrec. unfold Retriever.query, Retriever.embed_query.
  destruct (Retriever.collection self); [|auto with frames].
  apply frames_bind; [apply _| |].
  - apply frames_bind; [apply _| |auto with frames]. by apply frames_call.
  - intros emb. apply frames_bind; [apply _|by apply frames_call|].
    intros results. destruct (documents results) as [[|[|doc docs0] rest]|];
      auto with frames.
    apply frames_for_each; [apply _|]. intros acc [i d].
    unfold Retriever.format_result. auto 20 with frames.
Qed.

Lemma no_chat_filter evs :
  Forall (fun ev => is_chat ev = false) evs ->
  filter (fun ev => is_chat ev = true) evs = [].
Proof.
  induction 1 as [|ev evs Hev _ IH]; [done|].
  rewrite filter_cons_False by congruence. done.
Qed.

(** What [ask_question] does once retrieval has returned chunks that pass the
    gate: one chat call, whose outcome decides the result. *)
Lemma ask_question_confident request settings w w0 w1 retriever chunks :
  Retriever.init (OPENAI_EMBED_MODEL settings) w = (Ok retriever, w0) ->
  Retriever.query svc retriever (question request) (k request) w0 = (Ok chunks, w1) ->
  Retriever.has_confident_match chunks = true ->
  Ask.ask_question svc SYSTEM_PROMPT request settings w
  = (match chat_completions_create svc (log w1) (OPENAI_CHAT_MODEL settings) 0.2%Q
             (Ask.chat_messages SYSTEM_PROMPT (question request) chunks) with
     | Ok (choice :: _) => Ok (MkAskResponse choice (Ask.unique_sources chunks))
     | Ok [] => Raise (HTTPException 500 ("OpenAI API error: " +:+ str IndexError))
     | Raise e => Raise (HTTPException 500 ("OpenAI API error: " +:+ str e))
     end,
     record (EvChat (OPENAI_CHAT_MODEL settings) 0.2%Q
               (Ask.chat_messages SYSTEM_PROMPT (question request) chunks)) w1).
Proof.
  intros Hinit Hquery Hgate. unfold Ask.ask_question.
  rewrite (bind_ok _ _ _ _ _ Hinit), (bind_ok _ _ _ _ _ Hquery), Hgate.
  cbn [negb]. unfold bind, try_except, call, lift, index, raise, ret.
  destruct (chat_completions_create svc (log w1) (OPENAI_CHAT_MODEL settings) 0.2%Q
              (Ask.chat_messages SYSTEM_PROMPT (question request) chunks))
    as [[|choice rest]|e]; reflexivity.
Qed.

End AskMore.

(** X5. When the chunks pass the gate and the chat call raises [e], or returns
    no choice, [ask_question] raises [HTTPException(500)] whose detail is
    ["OpenAI API error: "] followed by the text of the exception; no answer and
    no source list is returned. *)
Theorem ask_question_chat_failure
    (svc : services) (SYSTEM_PROMPT : string) (request : AskRequest)
    (settings : Settings) (w w0 w1 : world) (retriever : Retriever.t)
    (chunks : list chunk) :
  Retriever.init (OPENAI_EMBED_MODEL settings) w = (Ok retriever, w0) ->
  Retriever.query svc retriever (question request) (k request) w0 = (Ok chunks, w1) ->
  Retriever.has_confident_match chunks = true ->
  (forall e,
      chat_completions_create svc (log w1) (OPENAI_CHAT_MODEL settings) 0.2%Q
        (Ask.chat_messages SYSTEM_PROMPT (question request) chunks) = Raise e ->
      (Ask.ask_question svc SYSTEM_PROMPT request settings w).1
      = Raise (HTTPException 500 ("OpenAI API error: " +:+ str e)))
  /\ (chat_completions_create svc (log w1) (OPENAI_CHAT_MODEL settings) 0.2%Q
        (Ask.chat_messages SYSTEM_PROMPT (question request) chunks) = Ok [] ->
      (Ask.ask_question svc SYSTEM_PROMPT request settings w).1
      = Raise (HTTPException 500 "OpenAI API error: list index out of range")).
Proof.
  intros Hinit Hquery Hgate.
  rewrite (ask_question_confident svc SYSTEM_PROMPT _ _ _ _ _ _ _ Hinit Hquery Hgate).
  split; [intros e He|intros He]; by rewrite He.
Qed.

Lemma ask_question_chat_failure_witness :
  (forall e,
      chat_completions_create (Faulty.chat_down Fixtures.strong_results [])
        (log (record (EvQuery [1%Q; 0%Q] 5)
                (record (EvEmbed "text-embedding-3-small" ["hours?"]) Fixtures.indexed)))
        (OPENAI_CHAT_MODEL Fixtures.settings) 0.2%Q
        (Ask.chat_messages "Answer from the context only." "hours?"
           strong_chunks)
      = Raise e ->
      (Ask.ask_question (Faulty.chat_down Fixtures.strong_results [])
         "Answer from the context only." (MkAskRequest "hours?" 5) Fixtures.settings
         Fixtures.indexed).1
      = Raise (HTTPException 500 ("OpenAI API error: " +:+ str e)))
  /\ (chat_completions_create (Faulty.chat_down Fixtures.strong_results [])
        (log (record (EvQuery [1%Q; 0%Q] 5)
                (record (EvEmbed "text-embedding-3-small" ["hours?"]) Fixtures.indexed)))
        (OPENAI_CHAT_MODEL Fixtures.settings) 0.2%Q
        (Ask.chat_messages "Answer from the context only." "hours?"
           strong_chunks)
      = Ok [] ->
      (Ask.ask_question (Faulty.chat_down Fixtures.strong_results [])
         "Answer from the context only." (MkAskRequest "hours?" 5) Fixtures.settings
         Fixtures.indexed).1
      = Raise (HTTPException 500 "OpenAI API error: list index out of range")).
Proof.
  apply (ask_question_chat_failure
           (Faulty.chat_down Fixtures.strong_results [])
           "Answer from the context only." (MkAskRequest "hours?" 5) Fixtures.settings
           Fixtures.indexed Fixtures.indexed
           (record (EvQuery [1%Q; 0%Q] 5)
              (record (EvEmbed "text-embedding-3-small" ["hours?"]) Fixtures.indexed))
           (Retriever.Make (Some "uwp") "text-embedding-3-small")
           strong_chunks).
  - reflexivity.
  - reflexivity.
  - reflexivity.
Defined.

(** X6. When retrieval raises, [ask_question] raises the very same exception
    (it is not turned into an [HTTPException]), in the world retrieval left,
    and the chat model has not been called. *)
Theorem ask_question_retrieval_failure
    (svc : services) (SYSTEM_PROMPT : string) (request : AskRequest)
    (settings : Settings) (w w0 w1 : world) (retriever : Retriever.t) (e : exn) :
  Retriever.init (OPENAI_EMBED_MODEL settings) w = (Ok retriever, w0) ->
  Retriever.query svc retriever (question request) (k request) w0 = (Raise e, w1) ->
  Ask.ask_question svc SYSTEM_PROMPT request settings w = (Raise e, w1)
  /\ grows_without is_chat w w1.
Proof.
  intros Hinit Hquery. split.
  - unfold Ask.ask_question.
    rewrite (bind_ok _ _ _ _ _ Hinit). by apply bind_raise.
  - rewrite init_total in Hinit. injection Hinit as <- <-.
    match type of Hquery with
    | Retriever.query _ ?r _ _ _ = _ =>
        pose proof (query_frames svc r (question request) (k request) w) as Hf
    end.
    by rewrite Hquery in Hf.
Qed.

Lemma ask_question_retrieval_failure_witness :
  Ask.ask_question (Faulty.embed_down Fixtures.strong_results [])
                   "Answer from the context only." (MkAskRequest "hours?" 5)
                   Fixtures.settings Fixtures.indexed
  = (Raise (Exception "embedding service unavailable"),
     record (EvEmbed "text-embedding-3-small" ["hours?"]) Fixtures.indexed)
  /\ grows_without is_chat Fixtures.indexed
       (record (EvEmbed "text-embedding-3-small" ["hours?"]) Fixtures.indexed).
Proof.
  apply (ask_question_retrieval_failure
           (Faulty.embed_down Fixtures.strong_results [])
           "Answer from the context only." (MkAskRequest "hours?" 5)
           Fixtures.settings Fixtures.indexed Fixtures.indexed
           (record (EvEmbed "text-embedding-3-small" ["hours?"]) Fixtures.indexed)
           (Retriever.Make (Some "uwp") "text-embedding-3-small")
           (Exception "embedding service unavailable")).
  - reflexivity.
  - reflexivity.
Defined.

(** X7. On a deployment whose collection has not been built, [ask_question]
    answers with the fallback message and no sources without calling anything:
    neither the embedding model, nor the vector store, nor the chat model. The
    world is left exactly as it was. *)
Theorem ask_question_before_first_build
    (svc : services) (SYSTEM_PROMPT : string) (request : AskRequest)
    (settings : Settings) (w : world) :
  Retriever.COLLECTION_NAME ∉ collections w ->
  Ask.ask_question svc SYSTEM_PROMPT request settings w
  = (Ok (MkAskResponse Ask.FALLBACK []), w).
Proof.
  intros Hnot. unfold Ask.ask_question.
  rewrite (bind_ok _ _ _ _ _ (init_total _ _)).
  destruct (decide (Retriever.COLLECTION_NAME ∈ collections w)); [done|].
  reflexivity.
Qed.

Lemma ask_question_before_first_build_witness :
  Ask.ask_question (Fixtures.svc Fixtures.strong_results [])
                   "Answer from the context only." (MkAskRequest "hours?" 5)
                   Fixtures.settings Fixtures.fresh
  = (Ok (MkAskResponse Ask.FALLBACK []), Fixtures.fresh).
Proof.
  apply (ask_question_before_first_build
           (Fixtures.svc Fixtures.strong_results [])
           "Answer from the context only." (MkAskRequest "hours?" 5)
           Fixtures.settings Fixtures.fresh).
  simpl. apply not_elem_of_empty.
Defined.

(** X8. Whatever the services answer, a request changes nothing but the log: the
    collections, the three files and the task queue are as before. It makes at
    most one chat call. *)
Theorem ask_question_read_only
    (svc : services) (SYSTEM_PROMPT : string) (request : AskRequest)
    (settings : Settings) (w : world) :
  same_state w (Ask.ask_question svc SYSTEM_PROMPT request settings w).2
  /\ exists evs,
      log (Ask.ask_question svc SYSTEM_PROMPT request settings w).2 = log w ++ evs
      /\ length (filter (fun ev => is_chat ev = true) evs) <= 1.
Proof.
  pose proof (init_total (OPENAI_EMBED_MODEL settings) w) as Hinit.
  set (retriever := Retriever.Make
                      (if decide (Retriever.COLLECTION_NAME ∈ collections w)
                       then Some Retriever.COLLECTION_NAME else None)
                      (OPENAI_EMBED_MODEL settings)) in Hinit.
  pose proof (query_keeps svc same_state retriever (question request) (k request)
                same_state_record w) as Hsame.
  pose proof (query_frames svc retriever (question request) (k request) w)
    as (evs & Hlog & Hquiet).
  destruct (Retriever.query svc retriever (question request) (k request) w)
    as [[chunks|e] w1] eqn:Hquery; simpl in Hsame, Hlog.
  - destruct (Retriever.has_confident_match chunks) eqn:Hgate.
    + rewrite (ask_question_confident svc SYSTEM_PROMPT _ _ _ _ _ _ _
                 Hinit Hquery Hgate). simpl. split.
      * etrans; [exact Hsame|apply same_state_record].
      * exists (evs ++ [EvChat (OPENAI_CHAT_MODEL settings) 0.2%Q
                          (Ask.chat_messages SYSTEM_PROMPT (question request) chunks)]).
        split; [by rewrite Hlog, (assoc_L (++))|].
        rewrite filter_app, (no_chat_filter _ Hquiet).
        rewrite filter_cons_True by done. simpl. lia.
    + unfold Ask.ask_question.
      rewrite (bind_ok _ _ _ _ _ Hinit), (bind_ok _ _ _ _ _ Hquery), Hgate. simpl.
      split; [done|]. exists evs. split; [done|].
      rewrite (no_chat_filter _ Hquiet). simpl. lia.
  - unfold Ask.ask_question.
    rewrite (bind_ok _ _ _ _ _ Hinit), (bind_raise _ _ _ _ _ Hquery). simpl.
    split; [done|]. exists evs. split; [done|].
    rewrite (no_chat_filter _ Hquiet). simpl. lia.
Qed.

(** ** The source list: which chunk a source is taken from *)

Section SourcesMore.
Import Ask.

Lemma add_source_first (l : list chunk) :
  let acc := foldl add_source (∅, []) l in
  (forall u, u ∈ acc.1 <-> u ∈ map url l)
  /\ (forall s, s ∈ acc.2 <->
        exists i c, l !! i = Some c
                    /\ s = MkSource (url c) (Some (title c))
                    /\ forall j c', j < i -> l !! j = Some c' -> url c' <> url c)
  /\ length acc.2 <= length l.
Proof.
  induction l as [|c l IH] using rev_ind; simpl.
  - split_and!; [set_solver| |done].
    intros s. split; [by intros ?%elem_of_nil|]. by intros (i & c & ? & _).
  - rewrite foldl_app. simpl. destruct (foldl add_source (∅, []) l) as [seen srcs].
    simpl in IH. destruct IH as (Hseen & Hsrcs & Hlen).
    assert (Hold : forall s,
               (exists i c0, l !! i = Some c0
                             /\ s = MkSource (url c0) (Some (title c0))
                             /\ forall j c', j < i -> l !! j = Some c' -> url c' <> url c0)
               -> exists i c0, (l ++ [c]) !! i = Some c0
                             /\ s = MkSource (url c0) (Some (title c0))
                             /\ forall j c', j < i -> (l ++ [c]) !! j = Some c' ->
                                             url c' <> url c0).
    { intros s (i & c0 & Hi & -> & Hfirst). exists i, c0.
      split; [by apply lookup_app_l_Some|]. split; [done|].
      intros j c' Hj Hc'. apply (Hfirst j c' Hj).
      apply lookup_lt_Some in Hi. rewrite lookup_app_l in Hc' by lia. done. }
    assert (Hnew : forall s i c0,
               (l ++ [c]) !! i = Some c0 ->
               s = MkSource (url c0) (Some (title c0)) ->
               (forall j c', j < i -> (l ++ [c]) !! j = Some c' -> url c' <> url c0) ->
               (exists i c0, l !! i = Some c0
                             /\ s = MkSource (url c0) (Some (title c0))
                             /\ forall j c', j < i -> l !! j = Some c' -> url c' <> url c0)
               \/ (i = length l /\ c0 = c /\ url c ∉ map url l)).
    { intros s i c0 Hi -> Hfirst. apply lookup_app_Some in Hi as [Hi|[Hge Hi]].
      - left. exists i, c0. split; [done|]. split; [done|].
        intros j c' Hj Hc'. apply (Hfirst j c' Hj). by apply lookup_app_l_Some.
      - right. destruct (i - length l) as [|n] eqn:Hn; [|done].
        injection Hi as <-. split; [lia|]. split; [done|].
        intros Hin. apply list_elem_of_fmap in Hin as (c' & Hurl & Hin).
        apply list_elem_of_lookup in Hin as [j Hj].
        apply (Hfirst j c'); [apply lookup_lt_Some in Hj; lia| |done].
        by apply lookup_app_l_Some. }
    rewrite map_app, length_app. simpl map. simpl length. unfold add_source.
    destruct (decide (url c ∈ seen)) as [Hin|Hnin]; simpl.
    + split_and!; [| |lia].
      * intros u. rewrite elem_of_app, list_elem_of_singleton, Hseen.
        split; [auto|]. intros [?| ->]; [done|]. by apply Hseen.
      * intros s. rewrite Hsrcs. split; [apply Hold|].
        intros (i & c0 & Hi & Hs & Hfirst).
        destruct (Hnew s i c0 Hi Hs Hfirst) as [?|(_ & _ & Hfresh)]; [done|].
        destruct Hfresh. by apply Hseen.
    + split_and!.
      * intros u. rewrite elem_of_union, elem_of_singleton, elem_of_app,
          list_elem_of_singleton, Hseen. tauto.
      * intros s. rewrite elem_of_app, list_elem_of_singleton, Hsrcs. split.
        -- intros [Hs| ->]; [by apply Hold|].
           exists (length l), c. split; [by rewrite lookup_app_r, Nat.sub_diag|].
           split; [done|]. intros j c' Hj Hc' Hurl.
           rewrite lookup_app_l in Hc' by done.
           apply Hnin, Hseen. rewrite <- Hurl.
           apply list_elem_of_fmap. exists c'. split; [done|].
           apply list_elem_of_lookup. eauto.
        -- intros (i & c0 & Hi & Hs & Hfirst).
           destruct (Hnew s i c0 Hi Hs Hfirst) as [?|(_ & -> & _)]; [by left|by right].
      * rewrite length_app. simpl. lia.
Qed.

End SourcesMore.

(** X9. A source is in the list exactly when it is made of the url and the title
    of a chunk that no earlier chunk shares its url with: for a page retrieved
    several times, the title reported is the one of its best-ranked chunk. The
    list is never longer than the list of chunks. *)
Theorem unique_sources_first_chunk (chunks : list chunk) :
  (forall s, s ∈ Ask.unique_sources chunks <->
     exists i c, chunks !! i = Some c
                 /\ s = MkSource (url c) (Some (title c))
                 /\ forall j c', j < i -> chunks !! j = Some c' -> url c' <> url c)
  /\ length (Ask.unique_sources chunks) <= length chunks.
Proof.
  destruct (add_source_first chunks) as (_ & Hsrcs & Hlen).
  unfold Ask.unique_sources. auto.
Qed.

(** Two chunks of one page under different titles: the first title is kept. *)
Example unique_sources_keeps_first_title :
  Ask.unique_sources [Chunk "a" "https://x.edu/lib" "Library" 0.5;
                      Chunk "b" "https://x.edu/lib" "Library | Hours" 0.9]
  = [MkSource "https://x.edu/lib" (Some "Library")].
Proof. reflexivity. Qed.

(** ** build_user_message: numbering of the context blocks *)

Section PromptsMore.
Import Prompts.

Lemma append_cons (x : Ascii.ascii) (a b : string) :
  String x a +:+ b = String x (a +:+ b).
Proof. reflexivity. Qed.

Lemma append_assoc (a b c : string) : (a +:+ b) +:+ c = a +:+ (b +:+ c).
Proof. induction a as [|x a IH]; [done|]. by rewrite !append_cons, IH. Qed.

Lemma append_empty_r (a : string) : a +:+ "" = a.
Proof. induction a as [|x a IH]; [done|]. by rewrite append_cons, IH. Qed.

Lemma concat_snoc (sep : string) (l : list string) (x : string) :
  l <> [] -> String.concat sep (l ++ [x]) = String.concat sep l +:+ sep +:+ x.
Proof.
  induction l as [|y l IH]; [done|]. intros _. destruct l as [|z l].
  - reflexivity.
  - change (String.concat sep ((y :: z :: l) ++ [x]))
      with (y +:+ sep +:+ String.concat sep ((z :: l) ++ [x])).
    rewrite IH by done.
    change (String.concat sep (y :: z :: l)) with (y +:+ sep +:+ String.concat sep (z :: l)).
    by rewrite !append_assoc.
Qed.

End PromptsMore.

(** X10. The user message starts with the question and the header of the context.
    Each chunk adds one block, separated from the one before by a blank line and
    numbered from 1 by its position: appending a chunk to a non-empty list
    leaves the message built so far as it is and adds the block numbered
    [length + 1]. *)
Theorem build_user_message_blocks (question : string) :
  Prompts.build_user_message question []
  = "Question: " +:+ question +:+ Prompts.nl +:+ Prompts.nl +:+ "Context:" +:+ Prompts.nl
  /\ (forall c,
         Prompts.build_user_message question [c]
         = Prompts.build_user_message question [] +:+ Prompts.context_part 1 c)
  /\ (forall chunks c,
         chunks <> [] ->
         Prompts.build_user_message question (chunks ++ [c])
         = Prompts.build_user_message question chunks
           +:+ Prompts.nl +:+ Prompts.nl +:+ Prompts.context_part (S (length chunks)) c).
Proof.
  split_and!.
  - unfold Prompts.build_user_message. cbn [imap String.concat].
    by rewrite (append_empty_r Prompts.nl).
  - intros c. unfold Prompts.build_user_message. cbn [imap String.concat].
    rewrite (append_empty_r Prompts.nl). by rewrite !append_assoc.
  - intros chunks c Hne. unfold Prompts.build_user_message.
    rewrite imap_app. cbn [imap]. rewrite Nat.add_0_r.
    rewrite concat_snoc by (by destruct chunks).
    by rewrite !append_assoc.
Qed.

(** A metadata dict without title or url is rendered with the defaults. *)
Example context_part_defaults :
  Prompts.context_part 2 ("Parking is free.", ∅)
  = "[2] (from Untitled - )" +:+ Prompts.nl +:+ "Parking is free.".
Proof. reflexivity. Qed.

(** ** build_index: what it touches, how it batches, what it stores *)

Section BuildIndexMore.
Import IndexBuilder.
Variable svc : services.

Lemma chunk_id_cases ids md w :
  chunk_id ids md w
  = (match md !! "page_index", md !! "chunk_index" with
     | Some p, Some j => Ok (ids ++ [fmt p +:+ "-" +:+ fmt j])
     | None, _ => Raise (KeyError "page_index")
     | Some _, None => Raise (KeyError "chunk_index")
     end, w).
Proof.
  unfold chunk_id, bind, lift, getitem, ret.
  by destruct (md !! "page_index"), (md !! "chunk_index").
Qed.

Lemma chunk_id_loop metas :
  forall acc w,
    (for_each metas chunk_id acc w).2 = w
    /\ forall ids, (for_each metas chunk_id acc w).1 = Ok ids ->
                   length ids = length acc + length metas.
Proof.
  induction metas as [|md metas IH]; intros acc w; simpl.
  - split; [done|]. intros ids [= <-]. lia.
  - unfold bind. rewrite chunk_id_cases.
    destruct (md !! "page_index") as [p|]; [|by split].
    destruct (md !! "chunk_index") as [j|]; [|by split].
    destruct (IH (acc ++ [fmt p +:+ "-" +:+ fmt j]) w) as [Hw Hlen].
    split; [done|]. intros ids Hids. rewrite (Hlen ids Hids), length_app. simpl. lia.
Qed.

(** One batch keeps every relation that the log entries keep, and its calls are
    well formed: at most [BATCH_SIZE] texts, and as many ids as texts and
    metadata dicts. *)
Lemma index_batch_keeps (I : world -> world -> Prop) `{!PreOrder I}
    model all_chunks u batch_start :
  (forall ev w, I w (record ev w)) ->
  frames I (index_batch svc model all_chunks u batch_start).
Proof.
  intros Hrec. unfold index_batch, embed_texts.
  apply frames_bind; [apply _|by apply frames_call|]. intros embeddings.
  apply frames_bind; [apply _| |].
  - apply frames_for_each; [apply _|]. intros ids md.
    unfold chunk_id. auto 10 with frames.
  - intros ids. by apply frames_call.
Qed.

Lemma index_batch_well_batched model all_chunks u batch_start :
  frames (grows_without ill_batched) (index_batch svc model all_chunks u batch_start).
Proof.
  intros w. unfold index_batch. rewrite slice_batch.
  set (batch := take BATCH_SIZE (drop batch_start all_chunks)).
  assert (Hlen : length batch <= BATCH_SIZE) by (unfold batch; rewrite length_take; apply Nat.le_min_l).
  assert (Hembed : ill_batched (EvEmbed model (map (fun c => c.1.1) batch)) = false).
  { unfold ill_batched. rewrite length_map. apply bool_decide_eq_false.
    by apply Nat.le_ngt. }
  unfold embed_texts, bind at 1, call at 1.
  destruct (embeddings_create svc (log w) model (map (fun c => c.1.1) batch))
    as [embeddings|e]; simpl; [|by apply grows_without_record].
  destruct (chunk_id_loop (map (fun c => c.1.2) batch) []
              (record (EvEmbed model (map (fun c => c.1.1) batch)) w)) as [Hw Hids].
  unfold bind.
  destruct (for_each (map (fun c => c.1.2) batch) chunk_id []
              (record (EvEmbed model (map (fun c => c.1.1) batch)) w))
    as [[ids|e] w1]; simpl in Hw, Hids |- *; subst w1.
  - specialize (Hids ids eq_refl). rewrite length_map in Hids. simpl in Hids.
    etrans; [by apply grows_without_record|]. apply grows_without_record.
    unfold ill_batched. rewrite !length_map, Hids.
    rewrite (bool_decide_eq_false_2 (BATCH_SIZE < length batch)) by (by apply Nat.le_ngt).
    by rewrite !bool_decide_eq_true_2.
  - by apply grows_without_record.
Qed.

End BuildIndexMore.

Section BuildIndexState.
Import IndexBuilder.
Variable svc : services.

Lemma reset_collection_state (reset : bool) w :
  exists w',
    (if reset
     then try_except (delete_collection COLLECTION_NAME) (fun _ => ret tt)
     else ret tt) w = (Ok tt, w')
    /\ log w' = log w /\ status_file w' = status_file w /\ docs_file w' = docs_file w
    /\ stats_file w' = stats_file w /\ tasks w' = tasks w
    /\ {[COLLECTION_NAME]} ∪ collections w' = {[COLLECTION_NAME]} ∪ collections w.
Proof.
  destruct reset; [|by exists w].
  unfold try_except, delete_collection.
  destruct (decide (COLLECTION_NAME ∈ collections w)) as [Hin|Hnin];
    eexists; (split; [reflexivity|]); split_and!; try done.
  simpl. apply set_eq. intros x.
  rewrite !elem_of_union, elem_of_difference, !elem_of_singleton.
  destruct (decide (x = COLLECTION_NAME)); tauto.
Qed.

(** The batches once the collection is there: only the log moves. *)
Lemma index_batches_same_state model all_chunks starts w :
  same_state w (for_each starts (index_batch svc model all_chunks) tt w).2.
Proof.
  apply (frames_for_each same_state); intros [] x.
  apply index_batch_keeps; [apply _|apply same_state_record].
Qed.

Lemma index_batches_well_batched model all_chunks starts :
  frames (grows_without ill_batched)
         (for_each starts (index_batch svc model all_chunks) tt).
Proof.
  apply frames_for_each; [apply _|]. intros [] x. apply index_batch_well_batched.
Qed.

(** A batch that returns has sent the texts of its chunks, once. *)
Lemma index_batch_texts model (all_chunks : list indexed_chunk) a w u w1 :
  index_batch svc model all_chunks tt a w = (Ok u, w1) ->
  exists evs,
    log w1 = log w ++ evs
    /\ embedded_texts evs = map (fun c => c.1.1) (take BATCH_SIZE (drop a all_chunks)).
Proof.
  unfold index_batch. rewrite slice_batch.
  set (batch := take BATCH_SIZE (drop a all_chunks)).
  unfold embed_texts, bind at 1, call at 1.
  destruct (embeddings_create svc (log w) model (map (fun c => c.1.1) batch))
    as [embeddings|e]; [|done].
  destruct (chunk_id_loop (map (fun c => c.1.2) batch) []
              (record (EvEmbed model (map (fun c => c.1.1) batch)) w)) as [Hw _].
  unfold bind.
  destruct (for_each (map (fun c => c.1.2) batch) chunk_id []
              (record (EvEmbed model (map (fun c => c.1.1) batch)) w))
    as [[ids|e] w2]; simpl in Hw; subst w2; [|done].
  unfold call. intros [= _ <-]. eexists [_; _]. split.
  - simpl. rewrite <- (assoc_L (++)). exact eq_refl.
  - unfold embedded_texts. simpl. apply app_nil_r.
Qed.

Lemma index_batches_texts model (all_chunks : list indexed_chunk) :
  forall fuel a w u,
    (for_each (range_from fuel a (length all_chunks) BATCH_SIZE)
              (index_batch svc model all_chunks) tt w).1 = Ok u ->
    length all_chunks - a <= fuel ->
    exists evs,
      log (for_each (range_from fuel a (length all_chunks) BATCH_SIZE)
                    (index_batch svc model all_chunks) tt w).2 = log w ++ evs
      /\ embedded_texts evs = map (fun c => c.1.1) (drop a all_chunks).
Proof.
  assert (Hpos : 0 < BATCH_SIZE) by (unfold BATCH_SIZE; lia).
  induction fuel as [|fuel IH]; intros a w u; simpl.
  - intros _ Hfuel. exists []. rewrite app_nil_r. split; [done|].
    rewrite drop_ge by lia. done.
  - destruct (decide (a < length all_chunks)) as [Hlt|Hge]; simpl.
    + unfold bind.
      destruct (index_batch svc model all_chunks tt a w) as [[[]|e] w1] eqn:Hstep;
        [|done].
      intros Hok Hfuel.
      destruct (index_batch_texts _ _ _ _ _ _ Hstep) as (evs1 & Hlog1 & Htexts1).
      destruct (IH (a + BATCH_SIZE) w1 u Hok) as (evs2 & Hlog2 & Htexts2); [lia|].
      exists (evs1 ++ evs2). split.
      * by rewrite Hlog2, Hlog1, (assoc_L (++)).
      * unfold embedded_texts in *. rewrite omap_app, concat_app, Htexts1, Htexts2.
        rewrite <- fmap_app, <- (drop_drop all_chunks BATCH_SIZE a), take_drop. done.
    + intros _ _. exists []. rewrite app_nil_r. split; [done|].
      rewrite drop_ge by lia. done.
Qed.

(** Once the documents are read, [build_index] leaves the collection in place
    and touches nothing else but the log. *)
Lemma build_index_world model reset w docs :
  docs_file w = Some docs ->
  collections (build_index svc model reset w).2 = {[COLLECTION_NAME]} ∪ collections w
  /\ status_file (build_index svc model reset w).2 = status_file w
  /\ docs_file (build_index svc model reset w).2 = docs_file w
  /\ stats_file (build_index svc model reset w).2 = stats_file w
  /\ tasks (build_index svc model reset w).2 = tasks w.
Proof.
  intros Hdocs. unfold build_index.
  erewrite bind_ok by (unfold read_jsonl; rewrite Hdocs; reflexivity).
  destruct (reset_collection_state reset w)
    as (w1 & Hreset & _ & Hst & Hdf & Hsf & Htk & Hcol).
  rewrite (bind_ok _ _ _ _ _ Hreset).
  erewrite bind_ok by reflexivity.
  set (w2 := set_collections (fun c => {[COLLECTION_NAME]} ∪ c) w1).
  pose proof (index_batches_same_state model (chunk_documents svc docs)
                (range 0 (length (chunk_documents svc docs)) BATCH_SIZE) w2) as Hsame.
  match goal with
  | |- context [(bind ?loop ?rest w2)] =>
      assert (Hfinal : (bind loop rest w2).2 = (loop w2).2)
        by (unfold bind, get_world, ret; by destruct (loop w2) as [[[]|e] w3])
  end.
  rewrite Hfinal. destruct Hsame as (A & B & C & D & E).
  rewrite A, B, C, D, E. subst w2. simpl.
  by rewrite Hcol, Hst, Hdf, Hsf, Htk.
Qed.

End BuildIndexState.

(** X11. [build_index] reads the documents before it touches the collection: when
    the file is missing it raises and leaves the world as it was, the old
    collection included. Otherwise, with or without [reset] and whether the
    embedding of a batch fails or not, the collection exists afterwards, no
    other collection is created or deleted, and no file and no task is touched. *)
Theorem build_index_touches_collection_only
    (svc : services) (model : string) (reset : bool) (w : world) :
  (docs_file w = None ->
   IndexBuilder.build_index svc model reset w
   = (Raise (FileNotFoundError "data/uwp_docs.jsonl"), w))
  /\ (forall docs,
         docs_file w = Some docs ->
         collections (IndexBuilder.build_index svc model reset w).2
         = {[IndexBuilder.COLLECTION_NAME]} ∪ collections w
         /\ status_file (IndexBuilder.build_index svc model reset w).2 = status_file w
         /\ docs_file (IndexBuilder.build_index svc model reset w).2 = docs_file w
         /\ stats_file (IndexBuilder.build_index svc model reset w).2 = stats_file w
         /\ tasks (IndexBuilder.build_index svc model reset w).2 = tasks w).
Proof.
  split.
  - intros Hdocs. unfold IndexBuilder.build_index, bind, IndexBuilder.read_jsonl.
    by rewrite Hdocs.
  - intros docs Hdocs. by apply (build_index_world svc model reset w docs).
Qed.

Lemma build_index_touches_collection_only_witness :
  IndexBuilder.build_index (Fixtures.svc Fixtures.strong_results []) "m" true
                           Fixtures.indexed
  = (Raise (FileNotFoundError "data/uwp_docs.jsonl"), Fixtures.indexed).
Proof.
  apply (proj1 (build_index_touches_collection_only
                  (Fixtures.svc Fixtures.strong_results []) "m" true Fixtures.indexed)).
  reflexivity.
Defined.

(** X12. Every call [build_index] makes is well batched: no embedding call
    carries more than 100 texts, and every [collection.add] carries at most 100
    ids, with as many documents and metadata dicts as ids. A build that returns
    has sent the text of every chunk to the embedding model exactly once, in
    the order of the chunks. *)
Theorem build_index_batches
    (svc : services) (model : string) (reset : bool) (w : world) :
  exists evs,
    log (IndexBuilder.build_index svc model reset w).2 = log w ++ evs
    /\ Forall (fun ev => ill_batched ev = false) evs
    /\ (forall docs stats,
           docs_file w = Some docs ->
           (IndexBuilder.build_index svc model reset w).1 = Ok stats ->
           embedded_texts evs
           = map (fun c => c.1.1) (IndexBuilder.chunk_documents svc docs)).
Proof.
  destruct (docs_file w) as [docs|] eqn:Hdocs.
  - unfold IndexBuilder.build_index.
    erewrite bind_ok by (unfold IndexBuilder.read_jsonl; rewrite Hdocs; reflexivity).
    destruct (reset_collection_state reset w) as (w1 & Hreset & Hlog1 & _).
    rewrite (bind_ok _ _ _ _ _ Hreset).
    erewrite bind_ok by reflexivity.
    set (all_chunks := IndexBuilder.chunk_documents svc docs).
    set (w2 := set_collections (fun c => {[IndexBuilder.COLLECTION_NAME]} ∪ c) w1).
    destruct (index_batches_well_batched svc model all_chunks
                (range 0 (length all_chunks) IndexBuilder.BATCH_SIZE) w2)
      as (evs & Hlog & Hok).
    pose proof (index_batches_texts svc model all_chunks (length all_chunks) 0 w2)
      as Htexts.
    fold (range 0 (length all_chunks) IndexBuilder.BATCH_SIZE) in Htexts.
    unfold bind at 1.
    destruct (for_each (range 0 (length all_chunks) IndexBuilder.BATCH_SIZE)
                (IndexBuilder.index_batch svc model all_chunks) tt w2)
      as [[[]|e] w3] eqn:Hloop; unfold bind, get_world, ret; simpl in Hlog, Htexts |- *.
    + exists evs. rewrite Hlog, Hlog1. split_and!; [done..|].
      intros docs' stats [= <-] _.
      destruct (Htexts tt eq_refl) as (evs' & Hlog' & Htx); [lia|].
      rewrite Hlog in Hlog'. apply app_inv_head in Hlog'. subst evs'.
      by rewrite Htx, drop_0.
    + exists evs. rewrite Hlog, Hlog1. split_and!; [done..|].
      intros docs' stats _ Hst. by rewrite Hloop in Hst.
  - exists []. unfold IndexBuilder.build_index, bind, IndexBuilder.read_jsonl.
    rewrite Hdocs. simpl. rewrite app_nil_r. split_and!; [done|constructor|done].
Qed.

Section ChunkDocuments.
Import IndexBuilder.
Variable svc : services.

(** "Chunk all documents" as one expression: the chunks of each page, pages in
    order, each page under its own metadata. *)
Lemma chunk_documents_concat documents :
  chunk_documents svc documents
  = concat (imap (fun p doc =>
                    chunk_text svc (doc_text doc)
                      (<["url" := VStr (doc_url doc)]>
                         (<["title" := VStr (stored_title doc)]>
                            (<["page_index" := VInt (Z.of_nat p)]> ∅))))
                 documents).
Proof.
  unfold chunk_documents. rewrite <- (app_nil_l (concat _)).
  generalize (@nil indexed_chunk) as acc.
  rewrite <- (imap_ext (fun i doc => (0 + i, doc)) (fun i doc => (i, doc)) documents)
    by done.
  rewrite <- (imap_ext
                (fun p doc =>
                   chunk_text svc (doc_text doc)
                     (<["url" := VStr (doc_url doc)]>
                        (<["title" := VStr (stored_title doc)]>
                           (<["page_index" := VInt (Z.of_nat (0 + p))]> ∅))))
                _ documents) by done.
  generalize 0 as k.
  induction documents as [|doc documents IH]; intros k acc; simpl.
  - by rewrite app_nil_r.
  - rewrite Nat.add_0_r, (assoc_L (++)).
    erewrite (imap_ext _ (fun i doc0 => (S k + i, doc0))); last first.
    { intros i x _. simpl. f_equal. lia. }
    rewrite IH. do 2 f_equal. apply imap_ext. intros i x _. simpl.
    do 5 f_equal. lia.
Qed.


Lemma sum_concat_imap {A B} (g : B -> nat) (f : nat -> A -> list B) (l : list A) :
  sum_list (g <$> concat (imap f l)) = sum_list (imap (fun i x => sum_list (g <$> f i x)) l).
Proof.
  revert f. induction l as [|x l IH]; intros f; simpl; [done|].
  rewrite fmap_app, sum_list_with_app, IH. done.
Qed.

Lemma window_chunks_token_sum (md : metadata) (ws : list (list Z)) (k : nat) :
  sum_list (imap (fun n w => length w) ws) = length (concat ws).
Proof.
  induction ws as [|w ws IH]; simpl; [done|]. rewrite length_app. f_equal. exact IH.
Qed.

Lemma chunk_text_token_sum text md :
  sum_list ((fun c => c.2) <$> chunk_text svc text md) = length (encode svc text).
Proof.
  rewrite chunk_text_imap, fmap_imap.
  erewrite imap_ext; [|intros i w _; unfold compose; simpl; reflexivity].
  rewrite (window_chunks_token_sum md _ 0). unfold range.
  rewrite concat_windows by (apply chunk_size_pos || lia). by rewrite drop_0.
Qed.

End ChunkDocuments.


(** X14. The token counts of the chunks of a text add up to the number of tokens
    of the text, and those of a batch to the number of tokens of its pages: no
    token is dropped or counted twice. *)
Theorem chunk_token_counts (svc : services) :
  (forall text md,
      sum_list ((fun c => c.2) <$> IndexBuilder.chunk_text svc text md)
      = length (encode svc text))
  /\ (forall docs,
         sum_list ((fun c => c.2) <$> IndexBuilder.chunk_documents svc docs)
         = sum_list ((fun doc => length (encode svc (doc_text doc))) <$> docs)).
Proof.
  split; [apply chunk_text_token_sum|].
  intros docs. rewrite chunk_documents_concat, sum_concat_imap.
  erewrite imap_ext by (intros i x _; apply chunk_text_token_sum).
  f_equal. apply (imap_const (fun doc => length (encode svc (doc_text doc)))).
Qed.

(** ** The status record: round trip, the start guard, and a run *)

Section IngestMore.
Variable svc : services.

(** [load_status] never raises and never writes. *)
Lemma load_status_total w :
  Ingest.load_status svc w
  = (Ok (match status_file w with
         | None => IngestStatus_default idle
         | Some raw => match parse_status svc raw with
                       | Ok s => s
                       | Raise _ => IngestStatus_default idle
                       end
         end), w).
Proof.
  unfold Ingest.load_status, bind, get_world, try_except, lift, ret.
  destruct (status_file w) as [raw|]; [|done]. by destruct (parse_status svc raw).
Qed.

(** The result of [start_ingest], from the status [load_status] finds. *)
Lemma start_ingest_cases request settings w st :
  Ingest.load_status svc w = (Ok st, w) ->
  Ingest.start_ingest svc request settings w
  = if decide (status st = running)
    then (Raise (HTTPException 409 "Ingestion already in progress"), w)
    else (Ok (Ingest.MkStartResponse "Ingestion started"
                (match max_pages request with
                 | Some n => if decide (n = 0%Z) then INGEST_MAX_PAGES settings else n
                 | None => INGEST_MAX_PAGES settings
                 end)),
          add_task (match max_pages request with
                    | Some n => if decide (n = 0%Z) then INGEST_MAX_PAGES settings else n
                    | None => INGEST_MAX_PAGES settings
                    end, settings) w).
Proof.
  intros Hload. unfold Ingest.start_ingest. rewrite (bind_ok _ _ _ _ _ Hload).
  by destruct (decide (status st = running)).
Qed.

(** The world a run ends in: the two writes around scraping and indexing. *)
Lemma run_ingest_task_world max_pages settings w :
  Ingest.run_ingest_task svc max_pages settings w
  = (Ok tt,
     let started := MkIngestStatus running 0 0 (Some (now svc (log w))) None None in
     let w1 := record (EvSaveStatus started)
                      (set_status_file (Some (dump_status svc started)) w) in
     let body := Ingest.scrape_and_index svc max_pages settings w1 in
     let final := match body.1 with
                  | Ok (pages, chunks) =>
                      MkIngestStatus done_ pages chunks (Some (now svc (log w)))
                                     (Some (now svc (log body.2))) None
                  | Raise e =>
                      MkIngestStatus error 0 0 (Some (now svc (log w)))
                                     (Some (now svc (log body.2))) (Some (str e))
                  end in
     record (EvSaveStatus final) (set_status_file (Some (dump_status svc final)) body.2)).
Proof.
  cbv zeta.
  set (started := MkIngestStatus running 0 0 (Some (now svc (log w))) None None).
  set (w1 := record (EvSaveStatus started)
                    (set_status_file (Some (dump_status svc started)) w)).
  destruct (Ingest.scrape_and_index svc max_pages settings w1) as [r w2] eqn:Hrun.
  unfold Ingest.run_ingest_task, Ingest.now_isoformat, Ingest.save_status.
  unfold bind at 1. unfold bind at 1. simpl. unfold bind at 1. simpl.
  fold started. fold w1. destruct r as [[pages chunks]|e].
  - erewrite try_except_ok; [reflexivity|].
    by rewrite (bind_ok _ _ _ _ _ Hrun).
  - erewrite try_except_raise by (apply bind_raise; exact Hrun). reflexivity.
Qed.

End IngestMore.

(** X15. Writing a status record and reading it back gives the record again,
    whatever the file held before, provided the JSON serialiser round-trips on
    that record. *)
Theorem save_status_then_load
    (svc : services) (s : IngestStatus) (w : world) :
  parse_status svc (dump_status svc s) = Ok s ->
  Ingest.load_status svc (Ingest.save_status svc s w).2
  = (Ok s, (Ingest.save_status svc s w).2)
  /\ status_file (Ingest.save_status svc s w).2 = Some (dump_status svc s).
Proof.
  intros Hrt. split; [|reflexivity].
  rewrite load_status_total. simpl. by rewrite Hrt.
Qed.

Lemma save_status_then_load_witness :
  Ingest.load_status (Fixtures.svc Fixtures.strong_results [])
    (Ingest.save_status (Fixtures.svc Fixtures.strong_results [])
       (IngestStatus_default done_) (set_status_file (Some "{not json") Fixtures.fresh)).2
  = (Ok (IngestStatus_default done_),
     (Ingest.save_status (Fixtures.svc Fixtures.strong_results [])
        (IngestStatus_default done_) (set_status_file (Some "{not json") Fixtures.fresh)).2)
  /\ status_file
       (Ingest.save_status (Fixtures.svc Fixtures.strong_results [])
          (IngestStatus_default done_)
          (set_status_file (Some "{not json") Fixtures.fresh)).2
     = Some (dump_status (Fixtures.svc Fixtures.strong_results [])
                         (IngestStatus_default done_)).
Proof.
  apply (save_status_then_load (Fixtures.svc Fixtures.strong_results [])
           (IngestStatus_default done_)
           (set_status_file (Some "{not json") Fixtures.fresh)).
  reflexivity.
Defined.

(** X16. [start_ingest] is decided by the status [load_status] finds, and by
    nothing else. If it is "running" the request is refused with 409 and the
    world is unchanged. For every other status (idle, done, error) exactly one
    task is queued, behind those already there, and the answer names the number
    of pages the task will use: the one requested, or the configured default
    when none (or 0) is requested. *)
Theorem start_ingest_decision
    (svc : services) (request : IngestStartRequest) (settings : Settings) (w : world) :
  exists st pages,
    Ingest.load_status svc w = (Ok st, w)
    /\ (max_pages request = None -> pages = INGEST_MAX_PAGES settings)
    /\ (forall n, max_pages request = Some n -> n <> 0%Z -> pages = n)
    /\ (max_pages request = Some 0%Z -> pages = INGEST_MAX_PAGES settings)
    /\ (status st = running ->
        Ingest.start_ingest svc request settings w
        = (Raise (HTTPException 409 "Ingestion already in progress"), w))
    /\ (status st <> running ->
        Ingest.start_ingest svc request settings w
        = (Ok (Ingest.MkStartResponse "Ingestion started" pages),
           add_task (pages, settings) w)
        /\ tasks (add_task (pages, settings) w) = tasks w ++ [(pages, settings)]).
Proof.
  pose proof (load_status_total svc w) as Hload.
  eexists _, (match max_pages request with
              | Some n => if decide (n = 0%Z) then INGEST_MAX_PAGES settings else n
              | None => INGEST_MAX_PAGES settings
              end).
  split; [exact Hload|].
  rewrite (start_ingest_cases svc request settings w _ Hload).
  split_and!.
  - by intros ->.
  - intros n -> Hn. by destruct (decide (n = 0%Z)).
  - by intros ->.
  - intros Hrun. by rewrite decide_True.
  - intros Hnot. by rewrite decide_False.
Qed.

(** X17. The guard follows the run. As soon as a run has made its first write,
    [start_ingest] refuses a second run; once the run has ended, whether in
    "done" or in "error", [start_ingest] accepts again. This holds whenever
    reading back a written record gives a record of the same status. *)
Theorem start_ingest_follows_run
    (svc : services) (max_pages_ : Z) (settings : Settings) (w : world)
    (request : IngestStartRequest) :
  (forall s, exists s', parse_status svc (dump_status svc s) = Ok s'
                        /\ status s' = status s) ->
  Ingest.start_ingest svc request settings
    (Ingest.save_status svc
       (MkIngestStatus running 0 0 (Some (now svc (log w))) None None) w).2
  = (Raise (HTTPException 409 "Ingestion already in progress"),
     (Ingest.save_status svc
        (MkIngestStatus running 0 0 (Some (now svc (log w))) None None) w).2)
  /\ exists resp,
      Ingest.start_ingest svc request settings
        (Ingest.run_ingest_task svc max_pages_ settings w).2
      = (Ok resp,
         add_task (Ingest.max_pages_used resp, settings)
                  (Ingest.run_ingest_task svc max_pages_ settings w).2).
Proof.
  intros Hrt. split.
  - pose proof (load_status_total svc
                  (Ingest.save_status svc
                     (MkIngestStatus running 0 0 (Some (now svc (log w))) None None) w).2)
      as Hload.
    rewrite (start_ingest_cases svc _ _ _ _ Hload). simpl.
    destruct (Hrt (MkIngestStatus running 0 0 (Some (now svc (log w))) None None))
      as (s' & -> & Hs'). simpl in Hs'. by rewrite decide_True.
  - rewrite run_ingest_task_world. cbv zeta. simpl snd.
    match goal with
    | |- context [record (EvSaveStatus ?f) (set_status_file _ ?w2)] =>
        set (final := f); set (wb := w2)
    end.
    pose proof (load_status_total svc
                  (record (EvSaveStatus final)
                          (set_status_file (Some (dump_status svc final)) wb))) as Hload.
    rewrite (start_ingest_cases svc _ _ _ _ Hload). simpl.
    destruct (Hrt final) as (s' & -> & Hs').
    assert (Hfinal : status final <> running).
    { subst final. by destruct (Ingest.scrape_and_index _ _ _ _).1 as [[? ?]|?]. }
    rewrite decide_False by congruence. eexists (Ingest.MkStartResponse _ _).
    reflexivity.
Qed.

Lemma start_ingest_follows_run_witness :
  Ingest.start_ingest (Fixtures.svc Fixtures.strong_results Fixtures.two_pages)
    (MkIngestStartRequest None) Fixtures.settings
    (Ingest.save_status (Fixtures.svc Fixtures.strong_results Fixtures.two_pages)
       (MkIngestStatus running 0 0
          (Some (now (Fixtures.svc Fixtures.strong_results Fixtures.two_pages)
                     (log Fixtures.fresh))) None None) Fixtures.fresh).2
  = (Raise (HTTPException 409 "Ingestion already in progress"),
     (Ingest.save_status (Fixtures.svc Fixtures.strong_results Fixtures.two_pages)
        (MkIngestStatus running 0 0
           (Some (now (Fixtures.svc Fixtures.strong_results Fixtures.two_pages)
                      (log Fixtures.fresh))) None None) Fixtures.fresh).2)
  /\ exists resp,
      Ingest.start_ingest (Fixtures.svc Fixtures.strong_results Fixtures.two_pages)
        (MkIngestStartRequest None) Fixtures.settings
        (Ingest.run_ingest_task (Fixtures.svc Fixtures.strong_results Fixtures.two_pages)
           100 Fixtures.settings Fixtures.fresh).2
      = (Ok resp,
         add_task (Ingest.max_pages_used resp, Fixtures.settings)
           (Ingest.run_ingest_task (Fixtures.svc Fixtures.strong_results Fixtures.two_pages)
              100 Fixtures.settings Fixtures.fresh).2).
Proof.
  apply (start_ingest_follows_run
           (Fixtures.svc Fixtures.strong_results Fixtures.two_pages) 100
           Fixtures.settings Fixtures.fresh (MkIngestStartRequest None)).
  intros s. exists (IngestStatus_default (status s)). split; [|reflexivity].
  simpl. unfold Fixtures.dump_name, Fixtures.parse_name. by destruct (status s).
Defined.

(** ** A run of the ingestion task: the crawler, failures and success *)

Section RunMore.
Variable svc : services.



(** "Step 1: Scrape": the crawl, the save and the close, whatever fails. *)
Lemma scrape_step max_pages w :
  try_finally
    (docs <- call (EvScrape max_pages) (fun h => scrape svc h max_pages) ;;
     Ingest.save_to_jsonl docs ;;;
     ret (Z.of_nat (length docs)))
    (call EvScraperClose (scraper_close svc)) w
  = (match scraper_close svc (log w ++ [EvScrape max_pages]) with
     | Raise e => Raise e
     | Ok _ => match scrape svc (log w) max_pages with
               | Ok docs => Ok (Z.of_nat (length docs))
               | Raise e => Raise e
               end
     end,
     record EvScraperClose
       (match scrape svc (log w) max_pages with
        | Ok docs => set_docs_file (Some docs) (record (EvScrape max_pages) w)
        | Raise _ => record (EvScrape max_pages) w
        end)).
Proof.
  unfold try_finally, bind, call, Ingest.save_to_jsonl, modify, ret.
  destruct (scrape svc (log w) max_pages) as [docs|e]; simpl;
    by destruct (scraper_close svc (log w ++ [EvScrape max_pages])) as [[]|e'].
Qed.


Lemma scrape_and_index_unfold max_pages settings w :
  Ingest.scrape_and_index svc max_pages settings w
  = bind (try_finally
            (docs <- call (EvScrape max_pages) (fun h => scrape svc h max_pages) ;;
             Ingest.save_to_jsonl docs ;;;
             ret (Z.of_nat (length docs)))
            (call EvScraperClose (scraper_close svc)))
         (fun pages =>
            call (EvBuilderInit (CHROMA_PATH settings))
                 (fun h => builder_init svc h (CHROMA_PATH settings)) ;;;
            stats <- IndexBuilder.build_index svc (OPENAI_EMBED_MODEL settings) true ;;
            IndexBuilder.save_stats stats ;;;
            ret (pages, Z.of_nat (total_chunks stats))) w.
Proof. reflexivity. Qed.


End RunMore.


Section RunOutcomes.
Variable svc : services.

Lemma index_batches_ok model (all_chunks : list IndexBuilder.indexed_chunk) E :
  Forall2 stored_as all_chunks E ->
  (forall h m texts, exists embs, embeddings_create svc h m texts = Ok embs) ->
  (forall h ids embs docs metas, collection_add svc h ids embs docs metas = Ok tt) ->
  forall starts w,
    exists w', for_each starts (IndexBuilder.index_batch svc model all_chunks) tt w
               = (Ok tt, w').
Proof.
  intros Hall Hembed Hadd. induction starts as [|a starts IH]; intros w; simpl.
  - by exists w.
  - assert (Hstep : exists w1, IndexBuilder.index_batch svc model all_chunks tt a w
                               = (Ok tt, w1)).
    { unfold IndexBuilder.index_batch. rewrite slice_batch.
      set (batch := take IndexBuilder.BATCH_SIZE (drop a all_chunks)).
      assert (Hbatch : Forall2 stored_as batch (take IndexBuilder.BATCH_SIZE (drop a E)))
        by by apply Forall2_take, Forall2_drop.
      destruct (Hembed (log w) model (map (fun c => c.1.1) batch)) as [embs He].
      erewrite bind_ok
        by (unfold IndexBuilder.embed_texts, call; rewrite He; reflexivity).
      erewrite bind_ok by (apply for_each_chunk_id; exact Hbatch).
      unfold call. rewrite Hadd. by eexists. }
    destruct Hstep as [w1 Hstep]. rewrite (bind_ok _ _ _ _ _ Hstep). apply IH.
Qed.

Lemma build_index_succeeds model reset w docs :
  docs_file w = Some docs ->
  (forall h m texts, exists embs, embeddings_create svc h m texts = Ok embs) ->
  (forall h ids embs docs metas, collection_add svc h ids embs docs metas = Ok tt) ->
  exists stats, (IndexBuilder.build_index svc model reset w).1 = Ok stats.
Proof.
  intros Hdocs Hembed Hadd. unfold IndexBuilder.build_index.
  erewrite bind_ok by (unfold IndexBuilder.read_jsonl; rewrite Hdocs; reflexivity).
  destruct (reset_collection_ok reset w) as (w1 & Hreset & _).
  rewrite (bind_ok _ _ _ _ _ Hreset).
  erewrite bind_ok by reflexivity.
  destruct (index_batches_ok model _ _ (chunk_documents_stored_as svc docs) Hembed Hadd
              (range 0 (length (IndexBuilder.chunk_documents svc docs))
                     IndexBuilder.BATCH_SIZE)
              (set_collections (fun c => {[IndexBuilder.COLLECTION_NAME]} ∪ c) w1))
    as (w3 & Hloop).
  rewrite (bind_ok _ _ _ _ _ Hloop). by eexists.
Qed.

End RunOutcomes.

(** X19. When the crawl raises [e] and the crawler closes cleanly, the run ends
    in "error" with the text of [e] and zero counts, after four log entries
    only: the "running" write, the crawl, the close and the final write.
    Nothing is indexed: the collections, the documents file and the stats
    file are as before the run. *)
Theorem run_ingest_task_crawl_failure
    (svc : services) (max_pages : Z) (settings : Settings) (w : world) (e : exn) :
  scrape svc
    (log w ++ [EvSaveStatus (MkIngestStatus running 0 0 (Some (now svc (log w))) None None)])
    max_pages = Raise e ->
  scraper_close svc
    (log w ++ [EvSaveStatus (MkIngestStatus running 0 0 (Some (now svc (log w))) None None);
               EvScrape max_pages]) = Ok tt ->
  exists final,
    status final = error
    /\ error_message final = Some (str e)
    /\ pages_scraped final = 0%Z /\ chunks_indexed final = 0%Z
    /\ started_at final = Some (now svc (log w))
    /\ status_file (Ingest.run_ingest_task svc max_pages settings w).2
       = Some (dump_status svc final)
    /\ log (Ingest.run_ingest_task svc max_pages settings w).2
       = log w ++ [EvSaveStatus (MkIngestStatus running 0 0 (Some (now svc (log w)))
                                                None None);
                   EvScrape max_pages; EvScraperClose; EvSaveStatus final]
    /\ collections (Ingest.run_ingest_task svc max_pages settings w).2 = collections w
    /\ docs_file (Ingest.run_ingest_task svc max_pages settings w).2 = docs_file w
    /\ stats_file (Ingest.run_ingest_task svc max_pages settings w).2 = stats_file w.
Proof.
  intros Hscrape Hclose. rewrite run_ingest_task_world. cbv zeta. simpl snd.
  set (started := MkIngestStatus running 0 0 (Some (now svc (log w))) None None) in *.
  set (w1 := record (EvSaveStatus started)
                    (set_status_file (Some (dump_status svc started)) w)).
  assert (Hbody : Ingest.scrape_and_index svc max_pages settings w1
                  = (Raise e, record EvScraperClose (record (EvScrape max_pages) w1))).
  { rewrite scrape_and_index_unfold. apply bind_raise. rewrite scrape_step.
    simpl log. rewrite <- (assoc_L (++)). simpl. by rewrite Hscrape, Hclose. }
  rewrite Hbody. simpl.
  eexists; split_and!; try reflexivity; by rewrite <- !(assoc_L (++)).
Qed.

Lemma run_ingest_task_crawl_failure_witness :
  exists final,
    status final = error
    /\ error_message final = Some (str (Exception "connection refused"))
    /\ pages_scraped final = 0%Z /\ chunks_indexed final = 0%Z
    /\ started_at final
       = Some (now (Faulty.crawl_down (Ok tt) Fixtures.strong_results) (log Fixtures.indexed))
    /\ status_file
         (Ingest.run_ingest_task (Faulty.crawl_down (Ok tt) Fixtures.strong_results) 50
            Fixtures.settings Fixtures.indexed).2
       = Some (dump_status (Faulty.crawl_down (Ok tt) Fixtures.strong_results) final)
    /\ log (Ingest.run_ingest_task (Faulty.crawl_down (Ok tt) Fixtures.strong_results) 50
              Fixtures.settings Fixtures.indexed).2
       = log Fixtures.indexed
         ++ [EvSaveStatus
               (MkIngestStatus running 0 0
                  (Some (now (Faulty.crawl_down (Ok tt) Fixtures.strong_results)
                             (log Fixtures.indexed))) None None);
             EvScrape 50; EvScraperClose; EvSaveStatus final]
    /\ collections
         (Ingest.run_ingest_task (Faulty.crawl_down (Ok tt) Fixtures.strong_results) 50
            Fixtures.settings Fixtures.indexed).2 = collections Fixtures.indexed
    /\ docs_file
         (Ingest.run_ingest_task (Faulty.crawl_down (Ok tt) Fixtures.strong_results) 50
            Fixtures.settings Fixtures.indexed).2 = docs_file Fixtures.indexed
    /\ stats_file
         (Ingest.run_ingest_task (Faulty.crawl_down (Ok tt) Fixtures.strong_results) 50
            Fixtures.settings Fixtures.indexed).2 = stats_file Fixtures.indexed.
Proof.
  apply (run_ingest_task_crawl_failure
           (Faulty.crawl_down (Ok tt) Fixtures.strong_results) 50
           Fixtures.settings Fixtures.indexed (Exception "connection refused")).
  - reflexivity.
  - reflexivity.
Defined.

(** X20. When closing the crawler raises [e], the run ends in "error" with the
    text of [e], whatever the crawl did: after a successful crawl the pages
    have been saved but nothing is indexed, and after a failed crawl the
    exception of the close takes the place of the one of the crawl. *)
Theorem run_ingest_task_close_failure
    (svc : services) (max_pages : Z) (settings : Settings) (w : world) (e : exn) :
  scraper_close svc
    (log w ++ [EvSaveStatus (MkIngestStatus running 0 0 (Some (now svc (log w))) None None);
               EvScrape max_pages]) = Raise e ->
  exists final,
    status final = error
    /\ error_message final = Some (str e)
    /\ status_file (Ingest.run_ingest_task svc max_pages settings w).2
       = Some (dump_status svc final)
    /\ log (Ingest.run_ingest_task svc max_pages settings w).2
       = log w ++ [EvSaveStatus (MkIngestStatus running 0 0 (Some (now svc (log w)))
                                                None None);
                   EvScrape max_pages; EvScraperClose; EvSaveStatus final]
    /\ collections (Ingest.run_ingest_task svc max_pages settings w).2 = collections w
    /\ stats_file (Ingest.run_ingest_task svc max_pages settings w).2 = stats_file w
    /\ docs_file (Ingest.run_ingest_task svc max_pages settings w).2
       = match scrape svc
                 (log w ++ [EvSaveStatus (MkIngestStatus running 0 0
                                            (Some (now svc (log w))) None None)])
                 max_pages with
         | Ok docs => Some docs
         | Raise _ => docs_file w
         end.
Proof.
  intros Hclose. rewrite run_ingest_task_world. cbv zeta. simpl snd.
  set (started := MkIngestStatus running 0 0 (Some (now svc (log w))) None None) in *.
  set (w1 := record (EvSaveStatus started)
                    (set_status_file (Some (dump_status svc started)) w)).
  assert (Hbody : Ingest.scrape_and_index svc max_pages settings w1
                  = (Raise e,
                     record EvScraperClose
                       (match scrape svc (log w1) max_pages with
                        | Ok docs => set_docs_file (Some docs) (record (EvScrape max_pages) w1)
                        | Raise _ => record (EvScrape max_pages) w1
                        end))).
  { assert (Hclose' : scraper_close svc (log w1 ++ [EvScrape max_pages]) = Raise e).
    { rewrite <- Hclose. f_equal. subst w1. simpl. by rewrite <- (assoc_L (++)). }
    rewrite scrape_and_index_unfold. apply bind_raise. rewrite scrape_step.
    by rewrite Hclose'. }
  rewrite Hbody. subst w1. simpl.
  destruct (scrape svc (log w ++ [EvSaveStatus started]) max_pages) as [docs|e1];
    eexists; split_and!; try reflexivity; simpl; try by rewrite <- !(assoc_L (++)).
  all: reflexivity.
Qed.

Lemma run_ingest_task_close_failure_witness :
  exists final,
    status final = error
    /\ error_message final = Some (str (Exception "client already closed"))
    /\ status_file
         (Ingest.run_ingest_task (Faulty.close_down Fixtures.strong_results Fixtures.two_pages)
            50 Fixtures.settings Fixtures.fresh).2
       = Some (dump_status (Faulty.close_down Fixtures.strong_results Fixtures.two_pages)
                           final)
    /\ log (Ingest.run_ingest_task
              (Faulty.close_down Fixtures.strong_results Fixtures.two_pages)
              50 Fixtures.settings Fixtures.fresh).2
       = log Fixtures.fresh
         ++ [EvSaveStatus
               (MkIngestStatus running 0 0
                  (Some (now (Faulty.close_down Fixtures.strong_results Fixtures.two_pages)
                             (log Fixtures.fresh))) None None);
             EvScrape 50; EvScraperClose; EvSaveStatus final]
    /\ collections
         (Ingest.run_ingest_task (Faulty.close_down Fixtures.strong_results Fixtures.two_pages)
            50 Fixtures.settings Fixtures.fresh).2 = collections Fixtures.fresh
    /\ stats_file
         (Ingest.run_ingest_task (Faulty.close_down Fixtures.strong_results Fixtures.two_pages)
            50 Fixtures.settings Fixtures.fresh).2 = stats_file Fixtures.fresh
    /\ docs_file
         (Ingest.run_ingest_task (Faulty.close_down Fixtures.strong_results Fixtures.two_pages)
            50 Fixtures.settings Fixtures.fresh).2
       = match scrape (Faulty.close_down Fixtures.strong_results Fixtures.two_pages)
                 (log Fixtures.fresh
                  ++ [EvSaveStatus
                        (MkIngestStatus running 0 0
                           (Some (now (Faulty.close_down Fixtures.strong_results
                                         Fixtures.two_pages) (log Fixtures.fresh)))
                           None None)]) 50 with
         | Ok docs => Some docs
         | Raise _ => docs_file Fixtures.fresh
         end.
Proof.
  apply (run_ingest_task_close_failure
           (Faulty.close_down Fixtures.strong_results Fixtures.two_pages) 50
           Fixtures.settings Fixtures.fresh (Exception "client already closed")).
  reflexivity.
Defined.

Section RunSuccess.
Variable svc : services.
Variable docs : list document.
Hypothesis crawl_ok : forall h max_pages, scrape svc h max_pages = Ok docs.
Hypothesis close_ok : forall h, scraper_close svc h = Ok tt.
Hypothesis init_ok : forall h path, builder_init svc h path = Ok tt.
Hypothesis embed_ok :
  forall h m texts, exists embs, embeddings_create svc h m texts = Ok embs.
Hypothesis add_ok :
  forall h ids embs texts metas, collection_add svc h ids embs texts metas = Ok tt.

Lemma scrape_and_index_success max_pages settings w :
  exists stats w' evs,
    Ingest.scrape_and_index svc max_pages settings w
    = (Ok (Z.of_nat (length docs), Z.of_nat (total_chunks stats)), w')
    /\ total_chunks stats = length (page_chunk_ids svc docs)
    /\ total_documents stats = length docs
    /\ log w' = log w ++ evs
    /\ added_ids evs = page_chunk_ids svc docs
    /\ collections w' = {[IndexBuilder.COLLECTION_NAME]} ∪ collections w
    /\ status_file w' = status_file w
    /\ docs_file w' = Some docs
    /\ stats_file w' = Some stats.
Proof.
  rewrite scrape_and_index_unfold. unfold bind at 1. rewrite scrape_step.
  rewrite close_ok, crawl_ok.
  set (wc := record EvScraperClose
               (set_docs_file (Some docs) (record (EvScrape max_pages) w))).
  unfold bind at 1, call at 1. rewrite init_ok.
  set (wb := record (EvBuilderInit (CHROMA_PATH settings)) wc).
  assert (Hdocs : docs_file wb = Some docs) by reflexivity.
  destruct (build_index_succeeds svc (OPENAI_EMBED_MODEL settings) true wb docs
              Hdocs embed_ok add_ok) as (stats & Hok).
  destruct (build_index_ids svc (OPENAI_EMBED_MODEL settings) true wb docs Hdocs)
    as (evs & m & Hlog & _ & Hdone).
  destruct (Hdone stats Hok) as (Hids & Hchunks & Hpages).
  destruct (build_index_world svc (OPENAI_EMBED_MODEL settings) true wb docs Hdocs)
    as (Hcol & Hst & Hdf & _ & _).
  destruct (IndexBuilder.build_index svc (OPENAI_EMBED_MODEL settings) true wb)
    as [r wi] eqn:Hbuild.
  simpl in Hok, Hlog, Hcol, Hst, Hdf. subst r.
  rewrite (bind_ok _ _ _ _ _ Hbuild).
  unfold IndexBuilder.save_stats, modify, bind, ret. simpl.
  exists stats, (set_stats_file (Some stats) wi),
         ([EvScrape max_pages; EvScraperClose; EvBuilderInit (CHROMA_PATH settings)]
            ++ evs).
  split_and!; try done.
  simpl. rewrite Hlog. simpl. by rewrite <- !(assoc_L (++)).
Qed.

End RunSuccess.

(** X21. When the crawl returns [docs] and the crawler, the index builder, the
    embedding model and the vector store all answer, the run ends in "done":
    the record counts the pages of [docs] and one chunk per id of
    [page_chunk_ids], the pages and the statistics are on disk, the collection
    exists, and the ids added during the run are exactly [page_chunk_ids]. *)
Theorem run_ingest_task_success
    (svc : services) (max_pages : Z) (settings : Settings) (w : world)
    (docs : list document) :
  (forall h n, scrape svc h n = Ok docs) ->
  (forall h, scraper_close svc h = Ok tt) ->
  (forall h path, builder_init svc h path = Ok tt) ->
  (forall h m texts, exists embs, embeddings_create svc h m texts = Ok embs) ->
  (forall h ids embs texts metas, collection_add svc h ids embs texts metas = Ok tt) ->
  exists w' final stats evs,
    Ingest.run_ingest_task svc max_pages settings w = (Ok tt, w')
    /\ status_file w' = Some (dump_status svc final)
    /\ status final = done_
    /\ pages_scraped final = Z.of_nat (length docs)
    /\ chunks_indexed final = Z.of_nat (length (page_chunk_ids svc docs))
    /\ error_message final = None
    /\ docs_file w' = Some docs
    /\ stats_file w' = Some stats
    /\ total_documents stats = length docs
    /\ total_chunks stats = length (page_chunk_ids svc docs)
    /\ IndexBuilder.COLLECTION_NAME ∈ collections w'
    /\ log w' = log w ++ evs
    /\ added_ids evs = page_chunk_ids svc docs.
Proof.
  intros Hcrawl Hclose Hinit Hembed Hadd.
  rewrite run_ingest_task_world. cbv zeta.
  set (started := MkIngestStatus running 0 0 (Some (now svc (log w))) None None).
  set (w1 := record (EvSaveStatus started)
                    (set_status_file (Some (dump_status svc started)) w)).
  destruct (scrape_and_index_success svc docs Hcrawl Hclose Hinit Hembed Hadd
              max_pages settings w1)
    as (stats & w2 & evs & Hrun & Hchunks & Hpages & Hlog & Hids & Hcol & _ & Hdf & Hsf).
  rewrite Hrun. simpl.
  set (final := MkIngestStatus done_ (Z.of_nat (length docs))
                  (Z.of_nat (total_chunks stats)) (Some (now svc (log w)))
                  (Some (now svc (log w2))) None).
  exists (record (EvSaveStatus final)
                 (set_status_file (Some (dump_status svc final)) w2)),
         final, stats, ([EvSaveStatus started] ++ evs ++ [EvSaveStatus final]).
  split; [reflexivity|]. simpl.
  split_and!; try done.
  - by rewrite Hchunks.
  - rewrite Hcol. apply elem_of_union_l. by apply elem_of_singleton.
  - rewrite Hlog. simpl. by rewrite <- !(assoc_L (++)).
  - change (added_ids ([EvSaveStatus started] ++ evs ++ [EvSaveStatus final])
            = page_chunk_ids svc docs).
    rewrite !added_ids_app. simpl. by rewrite app_nil_r.
Qed.

Lemma run_ingest_task_success_witness :
  exists w' final stats evs,
    Ingest.run_ingest_task (Fixtures.svc Fixtures.strong_results Fixtures.two_pages)
                           50 Fixtures.settings Fixtures.fresh = (Ok tt, w')
    /\ status_file w'
       = Some (dump_status (Fixtures.svc Fixtures.strong_results Fixtures.two_pages) final)
    /\ status final = done_
    /\ pages_scraped final = Z.of_nat (length Fixtures.two_pages)
    /\ chunks_indexed final
       = Z.of_nat (length (page_chunk_ids
                             (Fixtures.svc Fixtures.strong_results Fixtures.two_pages)
                             Fixtures.two_pages))
    /\ error_message final = None
    /\ docs_file w' = Some Fixtures.two_pages
    /\ stats_file w' = Some stats
    /\ total_documents stats = length Fixtures.two_pages
    /\ total_chunks stats
       = length (page_chunk_ids (Fixtures.svc Fixtures.strong_results Fixtures.two_pages)
                                Fixtures.two_pages)
    /\ IndexBuilder.COLLECTION_NAME ∈ collections w'
    /\ log w' = log Fixtures.fresh ++ evs
    /\ added_ids evs
       = page_chunk_ids (Fixtures.svc Fixtures.strong_results Fixtures.two_pages)
                        Fixtures.two_pages.
Proof.
  apply (run_ingest_task_success
           (Fixtures.svc Fixtures.strong_results Fixtures.two_pages) 50
           Fixtures.settings Fixtures.fresh Fixtures.two_pages).
  - intros h n. reflexivity.
  - intros h. reflexivity.
  - intros h path. reflexivity.
  - intros h m texts. eexists. reflexivity.
  - intros h ids embs texts metas. reflexivity.
Defined.

(** X22. The health check never raises and changes nothing. It reports the
    collection as present exactly when it exists; its chunk count is the
    collection's count, and 0 when the collection is missing or when counting
    raises (the collection is then still reported as present). *)
Theorem health_check_cases
    (count : list event -> outcome Z) (settings : Settings) (w : world) :
  exists r,
    Health.health_check count settings w = (Ok r, w)
    /\ Health.health_status r = "healthy"
    /\ Health.health_embed_model r = OPENAI_EMBED_MODEL settings
    /\ Health.health_chat_model r = OPENAI_CHAT_MODEL settings
    /\ Health.collection_exists r = bool_decide ("uwp" ∈ collections w)
    /\ Health.chunk_count r
       = (if bool_decide ("uwp" ∈ collections w)
          then match count (log w) with Ok n => n | Raise _ => 0%Z end
          else 0%Z).
Proof.
  unfold Health.health_check, Retriever.get_collection, try_except, bind, get_world,
    lift, ret.
  destruct (decide ("uwp" ∈ collections w)) as [Hin|Hout].
  - rewrite (bool_decide_eq_true_2 _ Hin).
    destruct (count (log w)) as [n|e]; eexists; split_and!; reflexivity.
  - rewrite (bool_decide_eq_false_2 _ Hout). eexists; split_and!; reflexivity.
Qed.
